(** * live-plugin-manager: the installation orchestrator of [PluginManager]

    A shallow embedding of the [PluginManager] class (install, uninstall,
    dependency resolution, the uninstall cascade and the lock discipline)
    together with the properties of its natural-language specification.

    The class is asynchronous and stateful.  It is embedded as a small
    state-and-exception monad over a state made of the in-memory registry
    ([installedPlugins]), the file tree of the store and the log of the calls
    made to the collaborators (file system, lock file, registries, loader).
    Recursion that the source does not bound (dependency installation, the
    uninstall cascade) is given fuel; running out of fuel is a separate
    outcome, never confused with a result nor with a rejection.

    Not embedded: the constructor and the default options, [require], [load],
    [runScript] and the [queryPackage] methods, which only forward to the
    loader and to the registry clients. *)

From Stdlib Require Import Ascii.
From stdpp Require Import gmap strings list fin_maps.


(** ** Paths

    Node's [path] module, restricted to absolute POSIX paths: a path is the list
    of its segments, [join] normalises empty, [.] and [..] segments the way
    [path.join] does.  A separator at the end of the last argument, which
    [path.join] keeps at the end of its result, names the same file or
    directory and is not held in the list. *)
Module Path.

Definition path := list string.

Fixpoint segments_from (s : string) (cur : string) : list string :=
  match s with
  | EmptyString => [cur]
  | String c s' =>
      if Ascii.eqb c "/"%char then cur :: segments_from s' ""
      else segments_from s' (cur +:+ String c "")
  end.

Definition segments (s : string) : list string := segments_from s "".

Definition normalize_step (acc : path) (seg : string) : path :=
  if String.eqb seg "" || String.eqb seg "." then acc
  else if String.eqb seg ".." then removelast acc
  else acc ++ [seg].

Definition normalize (p : list string) : path := fold_left normalize_step p [].

Definition join (base : path) (rel : string) : path :=
  normalize (base ++ segments rel).

Fixpoint last_dot (s : string) (i : nat) (found : option nat) : option nat :=
  match s with
  | EmptyString => found
  | String c s' => last_dot s' (S i) (if Ascii.eqb c "."%char then Some i else found)
  end.

(** [path.extname] on the last segment: the text from the last dot on, empty
    when there is no dot or when the only dot is the first character. *)
Definition extname (p : path) : string :=
  match last p with
  | None => ""
  | Some base =>
      match last_dot base 0 None with
      | Some (S i) => String.substring (S i) (String.length base - S i) base
      | _ => ""
      end
  end.

(** Whether a relative path ends with a separator.  [path.join] keeps such a
    separator at the end of its result; a path held as segments does not
    show it, so the one place where it matters, the text appended to the
    result in [createPluginInfo], asks for it here. *)
Fixpoint ends_with_separator (s : string) : bool :=
  match s with
  | EmptyString => false
  | String c EmptyString => Ascii.eqb c "/"%char
  | String _ rest => ends_with_separator rest
  end.

(** [mainFile += ext] on a path held as segments. *)
Definition add_ext (p : path) (ext : string) : path :=
  match last p with
  | None => [ext]
  | Some base => removelast p ++ [base +:+ ext]
  end.

End Path.

Export Path.

(** ** Data model *)

(** [PackageInfo]: what a registry reports about a package. *)
Record PackageInfo := mkPackageInfo {
  pkg_name : string;
  pkg_version : string;
  pkg_dist : option string
}.

(** A parsed [package.json].  Every field may be absent, as in the JSON file;
    [readPackageJsonFromPath] checks [name] and [version]. *)
Record PackageJson := mkPackageJson {
  json_name : option string;
  json_version : option string;
  json_main : option string;
  json_dependencies : option (list (string * string))
}.

(** [IPluginInfo], the descriptor of an installed plugin.  [dependencies] is an
    object in the source and may be [undefined] in a descriptor that was not
    built by [createPluginInfo]; the two places that read it behave differently
    then, so the embedding keeps the possibility. *)
Record IPluginInfo := mkPluginInfo {
  name : string;
  version : string;
  location : path;
  mainFile : path;
  dependencies : option (list (string * string))
}.

#[global] Instance PackageInfo_eq_dec : EqDecision PackageInfo.
Proof. solve_decision. Defined.
#[global] Instance PackageJson_eq_dec : EqDecision PackageJson.
Proof. solve_decision. Defined.
#[global] Instance IPluginInfo_eq_dec : EqDecision IPluginInfo.
Proof. solve_decision. Defined.

(** The content of a file of the store: source text, or a JSON document that
    parses to a manifest.  [JSON.parse] throws on anything else. *)
Inductive content :=
| Text (s : string)
| Json (j : PackageJson).

Inductive node :=
| Dir
| File (c : content).

#[global] Instance content_eq_dec : EqDecision content.
Proof. solve_decision. Defined.
#[global] Instance node_eq_dec : EqDecision node.
Proof. solve_decision. Defined.

(** JavaScript truthiness of an optional string ([undefined] and the empty
    string are falsy). *)
Definition truthy (v : option string) : bool :=
  match v with
  | Some s => negb (String.eqb s "")
  | None => false
  end.

(** [a || b] on an optional string with a default. *)
Definition or_default (v : option string) (d : string) : string :=
  match v with
  | Some s => if String.eqb s "" then d else s
  | None => d
  end.

(** A value received where the source expects a string: the TypeScript type
    says [string], the run-time check [typeof name !== "string"] does not trust
    it. *)
Inductive JsValue :=
| JsString (s : string)
| JsNonString.

(** ** The file system wrappers *)

(** Modelled from the spec: the module [./fileSystem] (the wrappers
    [ensureDir], [directoryExists], [fileExists], [readFile], [writeFile],
    [remove] and [copy]) is not part of the sources at hand.  The store is a
    finite map from paths to nodes, kept as the list of its entries (the first
    entry of a path is the one that counts); [remove] deletes a whole subtree,
    [ensureDir] creates the missing ancestors, [copy] skips the top-level
    entries it is told to exclude. *)
Module fs.

Definition tree := list (path * node).

Fixpoint lookup (p : path) (t : tree) : option node :=
  match t with
  | [] => None
  | (q, x) :: rest => if bool_decide (q = p) then Some x else lookup p rest
  end.

Fixpoint insert (p : path) (x : node) (t : tree) : tree :=
  match t with
  | [] => [(p, x)]
  | (q, y) :: rest =>
      if bool_decide (q = p) then (p, x) :: rest else (q, y) :: insert p x rest
  end.

Definition delete (p : path) (t : tree) : tree :=
  List.filter (fun kv => negb (bool_decide (kv.1 = p))) t.

(** Modelled from the spec: [directoryExists], [fileExists] and [readFile]
    look a path up. *)
Definition directoryExists (p : path) (t : tree) : bool :=
  match lookup p t with Some Dir => true | _ => false end.

Definition fileExists (p : path) (t : tree) : bool :=
  match lookup p t with Some (File _) => true | _ => false end.

Definition readFile (p : path) (t : tree) : option content :=
  match lookup p t with Some (File c) => Some c | _ => None end.

Fixpoint prefixes (p : path) : list path :=
  match p with
  | [] => []
  | x :: r => [x] :: map (cons x) (prefixes r)
  end.

(** Modelled from the spec: [ensureDir] creates the directory and its missing
    ancestors; it fails when one of them is a file. *)
Definition ensureDir (p : path) (t : tree) : option tree :=
  if existsb (fun q => fileExists q t) (prefixes p) then None
  else Some (foldr (fun q acc => insert q Dir acc) t (prefixes p)).

Definition under (p q : path) : bool := bool_decide (p `prefix_of` q).

(** Modelled from the spec: [remove] deletes the entry and everything inside
    it; removing what does not exist is not an error. *)
Definition remove (p : path) (t : tree) : tree :=
  List.filter (fun kv => negb (under p kv.1)) t.

(** Modelled from the spec: [writeFile] creates or replaces a file in an
    existing directory. *)
Definition writeFile (p : path) (c : content) (t : tree) : option tree :=
  if directoryExists p t then None
  else if bool_decide (removelast p = []) || directoryExists (removelast p) t
       then Some (insert p (File c) t)
       else None.

Fixpoint strip (p q : path) : option path :=
  match p, q with
  | [], rest => Some rest
  | x :: p', y :: q' => if String.eqb x y then strip p' q' else None
  | _ :: _, [] => None
  end.

Definition excluded (exclude : list string) (rel : path) : bool :=
  match rel with
  | top :: _ => existsb (String.eqb top) exclude
  | [] => false
  end.

(** Modelled from the spec: [copy] copies a directory tree, leaving out the
    excluded top-level entries. *)
Definition copy (src dst : path) (exclude : list string) (t : tree) : option tree :=
  if directoryExists src t then
    match ensureDir dst t with
    | Some t1 =>
        Some (foldr (fun kv acc =>
                       match strip src kv.1 with
                       | Some rel => if excluded exclude rel then acc
                                     else insert (dst ++ rel) kv.2 acc
                       | None => acc
                       end) t1 t)
    | None => None
    end
  else None.

End fs.

(** ** Collaborators, configuration and state *)

(** The collaborators the class calls and that are not part of the sources at
    hand: JavaScript's [RegExp], the [semver] and [lockfile] packages, the two
    registry clients.  A call that rejects or throws answers [None] (for the
    lock file: an error message). *)
Record Host := mkHost {
  RegExp : Type;
  RegExp_test : RegExp -> string -> bool;
  RegExp_of_string : string -> RegExp;
  RegExp_of_RegExp : RegExp -> RegExp;
  semver_satisfies : string -> string -> bool;
  semver_valid : string -> bool;
  npm_get : string -> string -> option PackageInfo;
  npm_download : path -> PackageInfo -> fs.tree -> option fs.tree;
  isGithubRepo : string -> bool;
  github_get : string -> option PackageInfo;
  github_download : path -> PackageInfo -> fs.tree -> option fs.tree;
  lockFile_lock : path -> Z -> Z -> fs.tree -> option string;
  lockFile_unlock : path -> fs.tree -> option string
}.

(** An entry of [ignoredDependencies]: [string | RegExp]. *)
Inductive IgnorePattern (R : Type) :=
| IgnoreString (s : string)
| IgnoreRegExp (r : R).
Arguments IgnoreString {R} s.
Arguments IgnoreRegExp {R} r.

(** [PluginManagerOptions], the fields the orchestrator reads.  [hostRequire]
    answers the exports of the required module, here the manifest of a host
    module, and [None] when the host [require] throws. *)
Record PluginManagerOptions (R : Type) := mkOptions {
  pluginsPath : path;
  hostRequire : option (string -> option PackageInfo);
  ignoredDependencies : list (IgnorePattern R);
  staticDependencies : list string;
  lockWait : Z;
  lockStale : Z
}.
Arguments pluginsPath {R} _.
Arguments hostRequire {R} _.
Arguments ignoredDependencies {R} _.
Arguments staticDependencies {R} _.
Arguments lockWait {R} _.
Arguments lockStale {R} _.

Definition NPM_LATEST_TAG : string := "latest".
Definition DefaultMainFile : string := "index.js".
Definition DefaultMainFileExtension : string := ".js".

(** What a call can be rejected with. *)
Inductive Error :=
| InvalidPluginName (n : JsValue)
| InvalidPluginVersion (v : string)
| PackageJsonMissing (loc : path)
| PackageJsonIncomplete (loc : path)
| JsonSyntaxError
| TypeError
| FailedToAcquireLock (msg : string)
| FailedToReleaseLock (msg : string)
| RegistryError
| FileSystemError.

(** The calls made to the collaborators, in the order they are made. *)
Inductive Event :=
| EnsureDir (p : path)
| DirectoryExists (p : path)
| FileExists (p : path)
| ReadFile (p : path)
| WriteFile (p : path) (c : content)
| Remove (p : path)
| Copy (src dst : path)
| Lock (p : path)
| Unlock (p : path)
| NpmGet (n v : string)
| NpmDownload (dest : path) (info : PackageInfo)
| GithubGet (repo : string)
| GithubDownload (dest : path) (info : PackageInfo)
| HostRequire (spec : string)
| VmUnload (n : string).

Record State := mkState {
  installedPlugins : list IPluginInfo;
  files : fs.tree;
  calls : list Event
}.

(** ** The monad of the asynchronous methods *)

Inductive Outcome (A : Type) :=
| Returned (a : A) (s : State)
| Rejected (e : Error) (s : State)
| OutOfFuel.
Arguments Returned {A} a s.
Arguments Rejected {A} e s.
Arguments OutOfFuel {A}.

Definition M (A : Type) : Type := State -> Outcome A.

Definition ret {A} (a : A) : M A := fun s => Returned a s.

Definition throw {A} (e : Error) : M A := fun s => Rejected e s.

Definition out_of_fuel {A} : M A := fun _ => OutOfFuel.

Definition bind {A B} (m : M A) (k : A -> M B) : M B := fun s =>
  match m s with
  | Returned a s1 => k a s1
  | Rejected e s1 => Rejected e s1
  | OutOfFuel => OutOfFuel
  end.

Declare Scope js_scope.
Delimit Scope js_scope with js.
Notation "x <- m ;; k" := (bind m (fun x => k))
  (at level 100, m at next level, right associativity) : js_scope.
Notation "m ;; k" := (bind m (fun _ => k))
  (at level 100, right associativity) : js_scope.
Open Scope js_scope.

(** [try { body } finally { fin }]: [fin] runs whatever [body] did; when [fin]
    itself is rejected, that rejection is the outcome of the whole statement. *)
Definition try_finally {A} (body : M A) (fin : M unit) : M A := fun s =>
  match body s with
  | Returned a s1 =>
      match fin s1 with
      | Returned _ s2 => Returned a s2
      | Rejected e s2 => Rejected e s2
      | OutOfFuel => OutOfFuel
      end
  | Rejected e s1 =>
      match fin s1 with
      | Returned _ s2 => Rejected e s2
      | Rejected e' s2 => Rejected e' s2
      | OutOfFuel => OutOfFuel
      end
  | OutOfFuel => OutOfFuel
  end.

(** [try { body } catch (e) { return v }]. *)
Definition try_catch {A} (body : M A) (v : A) : M A := fun s =>
  match body s with
  | Returned a s1 => Returned a s1
  | Rejected _ s1 => Returned v s1
  | OutOfFuel => OutOfFuel
  end.

Definition get_installedPlugins : M (list IPluginInfo) := fun s =>
  Returned (installedPlugins s) s.

Definition set_installedPlugins (l : list IPluginInfo) : M unit := fun s =>
  Returned tt (mkState l (files s) (calls s)).

Definition call (e : Event) : M unit := fun s =>
  Returned tt (mkState (installedPlugins s) (files s) (calls s ++ [e])).

Definition read_files {A} (f : fs.tree -> A) : M A := fun s =>
  Returned (f (files s)) s.

(** A collaborator that changes the file tree, or fails. *)
Definition update_files (f : fs.tree -> option fs.tree) : M unit := fun s =>
  match f (files s) with
  | Some t => Returned tt (mkState (installedPlugins s) t (calls s))
  | None => Rejected FileSystemError s
  end.

Fixpoint for_each {A} (l : list A) (body : A -> M unit) : M unit :=
  match l with
  | [] => ret tt
  | x :: rest => body x ;; for_each rest body
  end.

(** The wrappers of [./fileSystem], logged. *)
Definition fs_ensureDir (p : path) : M unit :=
  call (EnsureDir p) ;; update_files (fs.ensureDir p).
Definition fs_directoryExists (p : path) : M bool :=
  call (DirectoryExists p) ;; read_files (fs.directoryExists p).
Definition fs_fileExists (p : path) : M bool :=
  call (FileExists p) ;; read_files (fs.fileExists p).
Definition fs_readFile (p : path) : M content :=
  call (ReadFile p) ;;
  c <- read_files (fs.readFile p) ;;
  match c with Some c => ret c | None => throw FileSystemError end.
Definition fs_writeFile (p : path) (c : content) : M unit :=
  call (WriteFile p c) ;; update_files (fs.writeFile p c).
Definition fs_remove (p : path) : M unit :=
  call (Remove p) ;; update_files (fun t => Some (fs.remove p t)).
Definition fs_copy (src dst : path) (exclude : list string) : M unit :=
  call (Copy src dst) ;; update_files (fs.copy src dst exclude).

Definition gets {A} (f : State -> A) : M A := fun s => Returned (f s) s.

(** An asynchronous collaborator that changes the file tree, or rejects. *)
Definition collaborator_writes (f : fs.tree -> option fs.tree) : M unit := fun s =>
  match f (files s) with
  | Some t => Returned tt (mkState (installedPlugins s) t (calls s))
  | None => Rejected RegistryError s
  end.

Definition await {A} (o : option A) (e : Error) : M A :=
  match o with
  | Some a => ret a
  | None => throw e
  end.

Definition backslash : string := String (ascii_of_nat 92) EmptyString.

(** [hay.indexOf(needle)], [-1] when absent. *)
Definition indexOf (needle hay : string) : Z :=
  match String.index 0 needle hay with
  | Some i => Z.of_nat i
  | None => (-1)%Z
  end.

(** [obj[key]] on a plain object whose own properties are the listed entries:
    the value of the own property of that name if there is one, else the member
    of that name that every plain object inherits from [Object.prototype] (a
    function, or the prototype itself for [__proto__]), else [undefined]. *)
Inductive Member :=
| Own (v : string)
| Inherited
| Undefined.

Definition Object_prototype : list string :=
  ["constructor"; "__defineGetter__"; "__defineSetter__"; "hasOwnProperty";
   "__lookupGetter__"; "__lookupSetter__"; "isPrototypeOf";
   "propertyIsEnumerable"; "toString"; "valueOf"; "__proto__";
   "toLocaleString"].

Fixpoint own_property (obj : list (string * string)) (key : string)
  : option string :=
  match obj with
  | [] => None
  | (k, v) :: rest => if String.eqb k key then Some v else own_property rest key
  end.

Definition property (obj : list (string * string)) (key : string) : Member :=
  match own_property obj key with
  | Some v => Own v
  | None =>
      if existsb (String.eqb key) Object_prototype then Inherited else Undefined
  end.

(** JavaScript truthiness of what a lookup gives: the inherited members are
    objects, hence truthy. *)
Definition truthy_member (m : Member) : bool :=
  match m with
  | Own v => negb (String.eqb v "")
  | Inherited => true
  | Undefined => false
  end.

(** [array.indexOf(x)] and [array.splice(i, 1)]. *)
Fixpoint array_indexOf {A} `{EqDecision A} (l : list A) (x : A) : option nat :=
  match l with
  | [] => None
  | y :: rest => if decide (y = x) then Some 0
                 else option_map S (array_indexOf rest x)
  end.

Fixpoint splice1 {A} (l : list A) (i : nat) : list A :=
  match l, i with
  | [], _ => []
  | _ :: rest, 0 => rest
  | y :: rest, S j => y :: splice1 rest j
  end.

Definition str (v : JsValue) : string :=
  match v with
  | JsString s => s
  | JsNonString => ""
  end.

Record InstallFromPathOptions := mkInstallFromPathOptions { force : bool }.

(** ** [tarballUtils] *)

(** [extractTarball]: the destination directory is created when missing, then
    [tar.extract] unpacks the archive, its top-level folder stripped, over
    whatever the directory holds: for each entry the missing directories
    between the destination and the file are created, then the file is
    written.  The archive is given by the files it unpacks to. *)
Definition mkdirs (p : path) (t : fs.tree) : fs.tree :=
  foldr (fun q acc =>
           match fs.lookup q acc with
           | None => fs.insert q Dir acc
           | Some _ => acc
           end) t (fs.prefixes p).

Definition extractTarball (archive : list (string * content))
    (destinationDirectory : path) (t : fs.tree) : option fs.tree :=
  match fs.ensureDir destinationDirectory t with
  | Some t1 =>
      Some (foldl (fun acc entry =>
                     let file := Path.join destinationDirectory entry.1 in
                     fs.insert file (File entry.2)
                       (mkdirs (removelast file) acc)) t1 archive)
  | None => None
  end.

(** ** The class [PluginManager] *)
Section PluginManager.

Context (host : Host) (options : PluginManagerOptions (RegExp host)).

Definition isValidPluginName (n : JsValue) : bool :=
  match n with
  | JsNonString => false
  | JsString s =>
      if Nat.eqb (String.length s) 0 then false
      else if String.prefix "." s || (0 <=? indexOf backslash s)%Z then false
      else true
  end.

Definition getPluginLocation (n : string) : path :=
  Path.join (pluginsPath options) n.

Definition getFullInfo (n : string) (s : State) : option IPluginInfo :=
  List.find (fun p => String.eqb (name p) n) (installedPlugins s).

Definition getInfo (n : string) (s : State) : option IPluginInfo :=
  getFullInfo n s.

Definition alreadyInstalled (n : string) (v : option string) (s : State)
  : option IPluginInfo :=
  match getInfo n s with
  | Some installedInfo =>
      if negb (truthy v) then Some installedInfo
      else if semver_satisfies host (version installedInfo) (default "" v)
           then Some installedInfo
           else None
  | None => None
  end.

(** [list()]: [this.installedPlugins.map((p) => p)]. *)
Definition list_ (s : State) : list IPluginInfo :=
  map (fun p => p) (installedPlugins s).

(** One turn of the first loop of [shouldIgnore]: does the pattern make the
    method return [true]? *)
Definition ignoredBy (p : IgnorePattern (RegExp host)) (n : string) : bool :=
  match p with
  | IgnoreRegExp r =>
      if RegExp_test host r n then true
      else RegExp_test host (RegExp_of_RegExp host r) n
  | IgnoreString s => RegExp_test host (RegExp_of_string host s) n
  end.

Definition shouldIgnore (n : string) : bool :=
  if existsb (fun p => ignoredBy p n) (ignoredDependencies options) then true
  else if existsb (fun key => String.eqb key n) (staticDependencies options) then true
  else false.

Definition readPackageJsonFromPath (loc : path) : M PackageJson :=
  let packageJsonFile := Path.join loc "package.json" in
  ex <- fs_fileExists packageJsonFile ;;
  if negb ex then throw (PackageJsonMissing loc)
  else
    c <- fs_readFile packageJsonFile ;;
    match c with
    | Text _ => throw JsonSyntaxError
    | Json packageJson =>
        if negb (truthy (json_name packageJson))
           || negb (truthy (json_version packageJson))
        then throw (PackageJsonIncomplete loc)
        else ret packageJson
    end.

Definition isAlreadyDownloaded (n v : string) : M bool :=
  let loc := getPluginLocation n in
  ex <- fs_directoryExists loc ;;
  if negb ex then ret false
  else
    try_catch
      (packageJson <- readPackageJsonFromPath loc ;;
       ret (bool_decide (json_name packageJson = Some n)
            && bool_decide (json_version packageJson = Some v)))
      false.

Definition removeDownloaded (n : string) : M unit :=
  let loc := getPluginLocation n in
  ex <- fs_directoryExists loc ;;
  if negb ex then fs_remove loc else ret tt.

Definition createPluginInfo (n : string) : M IPluginInfo :=
  let loc := getPluginLocation n in
  packageJson <- readPackageJsonFromPath loc ;;
  let main := or_default (json_main packageJson) DefaultMainFile in
  let mainFile0 := Path.join loc main in
  let mainFile1 :=
    if String.eqb (Path.extname mainFile0) ""
    then if Path.ends_with_separator main
         then mainFile0 ++ [DefaultMainFileExtension]
         else Path.add_ext mainFile0 DefaultMainFileExtension
    else mainFile0 in
  ret {| name := default "" (json_name packageJson);
         version := default "" (json_version packageJson);
         location := loc;
         mainFile := mainFile1;
         dependencies := Some (default [] (json_dependencies packageJson)) |}.

Definition unload (plugin : IPluginInfo) : M unit :=
  call (VmUnload (name plugin)).

Fixpoint unloadWithDependents (fuel : nat) (plugin : IPluginInfo) : M unit :=
  match fuel with
  | 0 => out_of_fuel
  | S fuel' =>
      unload plugin ;;
      installed_list <- get_installedPlugins ;;
      for_each installed_list (fun installed =>
        match dependencies installed with
        | None => throw TypeError
        | Some deps =>
            if truthy_member (property deps (name plugin))
            then unloadWithDependents fuel' installed
            else ret tt
        end)
  end.

Definition deleteAndUnloadPlugin (fuel : nat) (plugin : IPluginInfo) : M unit :=
  installed_list <- get_installedPlugins ;;
  match array_indexOf installed_list plugin with
  | Some index => set_installedPlugins (splice1 installed_list index)
  | None => ret tt
  end ;;
  unloadWithDependents fuel plugin ;;
  fs_remove (location plugin).

Definition uninstallLockFree (fuel : nat) (n : JsValue) : M unit :=
  if negb (isValidPluginName n) then throw (InvalidPluginName n)
  else
    info <- gets (getFullInfo (str n)) ;;
    match info with
    | None => ret tt
    | Some info => deleteAndUnloadPlugin fuel info
    end.

Definition isModuleAvailableFromHost (n v : string) : M bool :=
  match hostRequire options with
  | None => ret false
  | Some host_require =>
      try_catch
        (call (HostRequire (n +:+ "/package.json")) ;;
         modulePackage <- await (host_require (n +:+ "/package.json")) TypeError ;;
         ret (semver_satisfies host (pkg_version modulePackage) v))
        false
  end.

(** *** Installation

    [installLockFree], [installFromNpmLockFree], [installFromGithubLockFree],
    [addPlugin] and [installDependencies] call each other; [rec] stands for
    the nested call [this.installLockFree(key, version)] and is tied to the
    fuel in [installLockFree] below. *)
Section Recursion.

Variable rec : JsValue -> option string -> M IPluginInfo.
Variable fuel : nat.

(** The body of the [for (const key in plugin.dependencies)] loop, over the
    entries still to visit; [acc] is the object the method fills in. *)
Fixpoint installDependencies_loop (entries acc : list (string * string))
  : M (list (string * string)) :=
  match entries with
  | [] => ret acc
  | (key, v) :: rest =>
      if shouldIgnore key then installDependencies_loop rest acc
      else
        available <- isModuleAvailableFromHost key v ;;
        (if available then ret tt
         else
           installed <- gets (alreadyInstalled key (Some v)) ;;
           match installed with
           | Some _ => ret tt
           | None => rec (JsString key) (Some v) ;; ret tt
           end) ;;
        installDependencies_loop rest (acc ++ [(key, v)])
  end.

Definition installDependencies (plugin : IPluginInfo)
  : M (list (string * string)) :=
  match dependencies plugin with
  | None => ret []
  | Some deps => installDependencies_loop deps []
  end.

Definition addPlugin (plugin : IPluginInfo) : M IPluginInfo :=
  installDependencies plugin ;;
  installed_list <- get_installedPlugins ;;
  set_installedPlugins (installed_list ++ [plugin]) ;;
  ret plugin.

Definition installFromNpmLockFree (n : JsValue) (v : option string)
  : M IPluginInfo :=
  let v := default NPM_LATEST_TAG v in
  if negb (isValidPluginName n) then throw (InvalidPluginName n)
  else
    call (NpmGet (str n) v) ;;
    registryInfo <- await (npm_get host (str n) v) RegistryError ;;
    installedInfo <- gets (alreadyInstalled (pkg_name registryInfo)
                             (Some (pkg_version registryInfo))) ;;
    match installedInfo with
    | Some installedInfo => ret installedInfo
    | None =>
        other <- gets (alreadyInstalled (pkg_name registryInfo) None) ;;
        (if bool_decide (is_Some other)
         then uninstallLockFree fuel (JsString (pkg_name registryInfo))
         else ret tt) ;;
        downloaded <- isAlreadyDownloaded (pkg_name registryInfo)
                        (pkg_version registryInfo) ;;
        (if negb downloaded then
           removeDownloaded (pkg_name registryInfo) ;;
           call (NpmDownload (pluginsPath options) registryInfo) ;;
           collaborator_writes
             (npm_download host (pluginsPath options) registryInfo)
         else ret tt) ;;
        pluginInfo <- createPluginInfo (pkg_name registryInfo) ;;
        addPlugin pluginInfo
    end.

(** The message of the error thrown for an invalid name interpolates a
    [name] that is not a variable of the method; the embedding reports the
    name that failed the check. *)
Definition installFromGithubLockFree (repository : string) : M IPluginInfo :=
  call (GithubGet repository) ;;
  registryInfo <- await (github_get host repository) RegistryError ;;
  if negb (isValidPluginName (JsString (pkg_name registryInfo)))
  then throw (InvalidPluginName (JsString (pkg_name registryInfo)))
  else
    installedInfo <- gets (alreadyInstalled (pkg_name registryInfo)
                             (Some (pkg_version registryInfo))) ;;
    match installedInfo with
    | Some installedInfo => ret installedInfo
    | None =>
        other <- gets (alreadyInstalled (pkg_name registryInfo) None) ;;
        (if bool_decide (is_Some other)
         then uninstallLockFree fuel (JsString (pkg_name registryInfo))
         else ret tt) ;;
        downloaded <- isAlreadyDownloaded (pkg_name registryInfo)
                        (pkg_version registryInfo) ;;
        (if negb downloaded then
           removeDownloaded (pkg_name registryInfo) ;;
           call (GithubDownload (pluginsPath options) registryInfo) ;;
           collaborator_writes
             (github_download host (pluginsPath options) registryInfo)
         else ret tt) ;;
        pluginInfo <- createPluginInfo (pkg_name registryInfo) ;;
        addPlugin pluginInfo
    end.

Definition installLockFree_body (n : JsValue) (v : option string)
  : M IPluginInfo :=
  if negb (isValidPluginName n) then throw (InvalidPluginName n)
  else if truthy v && isGithubRepo host (default "" v)
       then installFromGithubLockFree (default "" v)
       else installFromNpmLockFree n v.

Definition installFromPathLockFree (loc : path) (opts : InstallFromPathOptions)
  : M IPluginInfo :=
  packageJson <- readPackageJsonFromPath loc ;;
  let pname := default "" (json_name packageJson) in
  let pversion := default "" (json_version packageJson) in
  if negb (isValidPluginName (JsString pname))
  then throw (InvalidPluginName (JsString pname))
  else
    installedInfo <-
      (if negb (force opts)
       then gets (alreadyInstalled pname (Some pversion))
       else ret None) ;;
    match installedInfo with
    | Some installedInfo => ret installedInfo
    | None =>
        other <- gets (alreadyInstalled pname None) ;;
        (if bool_decide (is_Some other)
         then uninstallLockFree fuel (JsString pname)
         else ret tt) ;;
        downloaded <-
          (if force opts then ret false
           else isAlreadyDownloaded pname pversion) ;;
        (if negb downloaded then
           removeDownloaded pname ;;
           fs_copy loc (getPluginLocation pname) ["node_modules"]
         else ret tt) ;;
        pluginInfo <- createPluginInfo pname ;;
        addPlugin pluginInfo
    end.

Definition installFromCodeLockFree (n : JsValue) (code : string)
  (v : option string) : M IPluginInfo :=
  let v := default "0.0.0" v in
  if negb (isValidPluginName n) then throw (InvalidPluginName n)
  else if negb (semver_valid host v) then throw (InvalidPluginVersion v)
  else
    let packageJson := mkPackageInfo (str n) v None in
    installedInfo <-
      (if negb (String.eqb v "0.0.0")
       then gets (alreadyInstalled (pkg_name packageJson)
                    (Some (pkg_version packageJson)))
       else ret None) ;;
    match installedInfo with
    | Some installedInfo => ret installedInfo
    | None =>
        other <- gets (alreadyInstalled (pkg_name packageJson) None) ;;
        (if bool_decide (is_Some other)
         then uninstallLockFree fuel (JsString (pkg_name packageJson))
         else ret tt) ;;
        downloaded <- isAlreadyDownloaded (pkg_name packageJson)
                        (pkg_version packageJson) ;;
        (if negb downloaded then
           removeDownloaded (pkg_name packageJson) ;;
           let loc := getPluginLocation (str n) in
           fs_ensureDir loc ;;
           fs_writeFile (Path.join loc DefaultMainFile) (Text code) ;;
           fs_writeFile (Path.join loc "package.json")
             (Json (mkPackageJson (Some (pkg_name packageJson))
                      (Some (pkg_version packageJson)) None None))
         else ret tt) ;;
        pluginInfo <- createPluginInfo (pkg_name packageJson) ;;
        addPlugin pluginInfo
    end.

End Recursion.

Fixpoint installLockFree (fuel : nat) (n : JsValue) (v : option string)
  : M IPluginInfo :=
  match fuel with
  | 0 => out_of_fuel
  | S fuel' => installLockFree_body (installLockFree fuel') fuel' n v
  end.

(** *** The lock *)

Definition lockLocation : path := Path.join (pluginsPath options) "install.lock".

Definition syncLock : M unit := fun s =>
  match call (Lock lockLocation) s with
  | Returned _ s1 =>
      match lockFile_lock host lockLocation (lockWait options)
              (lockStale options) (files s1) with
      | Some msg => Rejected (FailedToAcquireLock msg) s1
      | None =>
          Returned tt (mkState (installedPlugins s1)
                         (fs.insert lockLocation (File (Text "")) (files s1))
                         (calls s1))
      end
  | other => other
  end.

Definition syncUnlock : M unit := fun s =>
  match call (Unlock lockLocation) s with
  | Returned _ s1 =>
      match lockFile_unlock host lockLocation (files s1) with
      | Some msg => Rejected (FailedToReleaseLock msg) s1
      | None =>
          Returned tt (mkState (installedPlugins s1)
                         (fs.delete lockLocation (files s1)) (calls s1))
      end
  | other => other
  end.

(** *** The public, lock-guarded methods

    Every public method that changes the store has the same shape, written
    out in each of them: create the store root, take the lock, run the
    lock-free variant, release the lock in a [finally] block. *)

Definition guarded {A} (body : M A) : M A :=
  fs_ensureDir (pluginsPath options) ;;
  syncLock ;;
  try_finally body syncUnlock.

Definition install (fuel : nat) (n : JsValue) (v : option string) : M IPluginInfo :=
  fs_ensureDir (pluginsPath options) ;;
  syncLock ;;
  try_finally (installLockFree fuel n v) syncUnlock.

Definition installFromNpm (fuel : nat) (n : JsValue) (v : option string)
  : M IPluginInfo :=
  fs_ensureDir (pluginsPath options) ;;
  syncLock ;;
  try_finally (installFromNpmLockFree (installLockFree fuel) fuel n v) syncUnlock.

Definition installFromPath (fuel : nat) (loc : path) (opts : InstallFromPathOptions)
  : M IPluginInfo :=
  fs_ensureDir (pluginsPath options) ;;
  syncLock ;;
  try_finally (installFromPathLockFree (installLockFree fuel) fuel loc opts)
    syncUnlock.

Definition installFromGithub (fuel : nat) (repository : string) : M IPluginInfo :=
  fs_ensureDir (pluginsPath options) ;;
  syncLock ;;
  try_finally (installFromGithubLockFree (installLockFree fuel) fuel repository)
    syncUnlock.

Definition installFromCode (fuel : nat) (n : JsValue) (code : string)
  (v : option string) : M IPluginInfo :=
  fs_ensureDir (pluginsPath options) ;;
  syncLock ;;
  try_finally (installFromCodeLockFree (installLockFree fuel) fuel n code v)
    syncUnlock.

Definition uninstall (fuel : nat) (n : JsValue) : M unit :=
  fs_ensureDir (pluginsPath options) ;;
  syncLock ;;
  try_finally (uninstallLockFree fuel n) syncUnlock.

Definition uninstallAll (fuel : nat) : M unit :=
  fs_ensureDir (pluginsPath options) ;;
  syncLock ;;
  try_finally
    (installed_list <- get_installedPlugins ;;
     for_each (rev installed_list)
       (fun plugin => uninstallLockFree fuel (JsString (name plugin))))
    syncUnlock.

End PluginManager.

Arguments isValidPluginName n : simpl never.

(** ** Concrete collaborators for the examples

    The properties below hold for every [Host].  The examples need one that
    computes: a fragment of [semver] (versions [x.y.z], the ranges [x.y.z] and
    [^x.y.z] with [x > 0]) and a fragment of [RegExp] (a literal text, optionally
    anchored at the start of the input). *)
Module Fragment.

Fixpoint digits (s : string) (acc : N) : option N :=
  match s with
  | EmptyString => Some acc
  | String c s' =>
      let d := nat_of_ascii c in
      if (48 <=? d)%nat && (d <=? 57)%nat
      then digits s' (10 * acc + N.of_nat (d - 48))%N
      else None
  end.

Definition number (s : string) : option N :=
  if String.eqb s "" then None else digits s 0%N.

Definition split_dots (s : string) : list string :=
  (fix go (s cur : string) : list string :=
     match s with
     | EmptyString => [cur]
     | String c s' =>
         if Ascii.eqb c "."%char then cur :: go s' ""
         else go s' (cur +:+ String c "")
     end) s "".

Definition parse (s : string) : option (N * N * N) :=
  match split_dots s with
  | [a; b; c] =>
      match number a, number b, number c with
      | Some x, Some y, Some z => Some (x, y, z)
      | _, _, _ => None
      end
  | _ => None
  end.

Definition valid (s : string) : bool := bool_decide (is_Some (parse s)).

Definition geq (v w : N * N * N) : bool :=
  let '(a, b, c) := v in
  let '(x, y, z) := w in
  (x <? a)%N || ((x =? a)%N && ((y <? b)%N || ((y =? b)%N && (z <=? c)%N))).

Definition satisfies (v range : string) : bool :=
  match parse v with
  | None => false
  | Some pv =>
      match range with
      | String "^" low =>
          match parse low with
          | Some pl => (0 <? pl.1.1)%N && (pv.1.1 =? pl.1.1)%N && geq pv pl
          | None => false
          end
      | _ =>
          match parse range with
          | Some pr => bool_decide (pv = pr)
          | None => false
          end
      end
  end.

(** A regular expression that is a literal text: [/text/], or [/^text/] when
    [anchored]. *)
Record Literal := mkLiteral { anchored : bool; text : string }.

Definition test (r : Literal) (s : string) : bool :=
  if anchored r then String.prefix (text r) s
  else bool_decide (is_Some (String.index 0 (text r) s)).

Definition host (get : string -> string -> option PackageInfo)
    (download : path -> PackageInfo -> fs.tree -> option fs.tree)
    (unlock_error : option string) : Host :=
  {| RegExp := Literal;
     RegExp_test := test;
     RegExp_of_string := mkLiteral false;
     RegExp_of_RegExp := fun r => r;
     semver_satisfies := satisfies;
     semver_valid := valid;
     npm_get := get;
     npm_download := download;
     isGithubRepo := fun v => (0 <? indexOf "/" v)%Z;
     github_get := fun _ => None;
     github_download := fun _ _ _ => None;
     lockFile_lock := fun p _ _ t =>
       if fs.fileExists p t then Some "EEXIST" else None;
     lockFile_unlock := fun _ _ => unlock_error |}.

Definition options (ignored : list (IgnorePattern Literal))
  : PluginManagerOptions Literal :=
  {| pluginsPath := ["plugin_packages"];
     hostRequire := None;
     ignoredDependencies := ignored;
     staticDependencies := [];
     lockWait := 120000;
     lockStale := 180000 |}.

(** What the registry reports for version [v] of package [n]. *)
Definition published (n v : string) : PackageInfo :=
  mkPackageInfo n v (Some (n +:+ "-" +:+ v +:+ ".tgz")).

(** The download of a package by a registry client: its tarball, an entry
    file and a manifest, is extracted into the directory of the package. *)
Definition extract (deps : string -> option (list (string * string)))
    (dest : path) (info : PackageInfo) (t : fs.tree) : option fs.tree :=
  extractTarball
    [("index.js", Text "module.exports = 1");
     ("package.json",
      Json (mkPackageJson (Some (pkg_name info)) (Some (pkg_version info))
              None (deps (pkg_name info))))]
    (Path.join dest (pkg_name info)) t.

Definition empty_state : State := mkState [] [] [].

End Fragment.

(** ** States named in the statements *)

(** The state once [syncUnlock] has called the lock file, and once the lock
    file is gone. *)
Definition release_attempted {R} (options : PluginManagerOptions R) (s : State)
  : State :=
  mkState (installedPlugins s) (files s)
    (calls s ++ [Unlock (Path.join (pluginsPath options) "install.lock")]).

Definition released {R} (options : PluginManagerOptions R) (s : State) : State :=
  mkState (installedPlugins s)
    (fs.delete (Path.join (pluginsPath options) "install.lock") (files s))
    (calls s ++ [Unlock (Path.join (pluginsPath options) "install.lock")]).

(** The state once the store root exists and the lock is held. *)
Definition acquired {R} (options : PluginManagerOptions R) (t : fs.tree) (s : State)
  : State :=
  mkState (installedPlugins s)
    (fs.insert (Path.join (pluginsPath options) "install.lock") (File (Text "")) t)
    (calls s ++ [EnsureDir (pluginsPath options);
                 Lock (Path.join (pluginsPath options) "install.lock")]).

(** When an entry of [ignoredDependencies] makes [shouldIgnore] answer [true]: a
    string is compiled to a regular expression and tested, a regular expression
    is tested, and so is the copy [new RegExp(p)] makes of it. *)
Definition pattern_matches (host : Host) (p : IgnorePattern (RegExp host))
  (n : string) : Prop :=
  match p with
  | IgnoreString s => RegExp_test host (RegExp_of_string host s) n = true
  | IgnoreRegExp r =>
      RegExp_test host r n = true
      \/ RegExp_test host (RegExp_of_RegExp host r) n = true
  end.

(** [after P o]: the state an outcome ends in, if it ends, satisfies [P]. *)
Definition after {A} (P : State -> Prop) (o : Outcome A) : Prop :=
  match o with
  | Returned _ s' => P s'
  | Rejected _ s' => P s'
  | OutOfFuel => True
  end.

(** From [s] to [s'] the loader was asked to unload plugins and nothing else
    happened. *)
Definition only_unloads (s s' : State) : Prop :=
  installedPlugins s' = installedPlugins s
  /\ files s' = files s
  /\ exists ns, calls s' = calls s ++ map VmUnload ns.

(** From [s] to [s'] the registry was not touched. *)
Definition same_registry (s s' : State) : Prop :=
  installedPlugins s' = installedPlugins s.

(** Every registered descriptor has a dependency object. *)
Definition defined_dependencies (s : State) : Prop :=
  forall d, d ∈ installedPlugins s -> is_Some (dependencies d).

(** [keeps m Q]: run from a registry whose descriptors all have a dependency
    object, [m] ends in such a registry, whether it returns or is rejected, and
    a returned value satisfies [Q]. *)
Definition keeps {A} (m : M A) (Q : A -> Prop) : Prop :=
  forall s, defined_dependencies s ->
    match m s with
    | Returned a s' => Q a /\ defined_dependencies s'
    | Rejected _ s' => defined_dependencies s'
    | OutOfFuel => True
    end.

(** What an install may end in, as far as dependency objects are concerned. *)
Definition ends_with_dependencies (o : Outcome IPluginInfo) : Prop :=
  match o with
  | Returned d s' => is_Some (dependencies d) /\ defined_dependencies s'
  | Rejected _ s' => defined_dependencies s'
  | OutOfFuel => True
  end.

(** A method that, run from [s], has no outcome whatever fuel it is given: the
    recursion of the source does not end. *)
Definition never_returns {A} (m : nat -> M A) (s : State) : Prop :=
  forall fuel, m fuel s = OutOfFuel.

(** ** Sets of packages that depend on each other *)

(** What [isAlreadyDownloaded] answers, read off the store. *)
Definition downloaded {R} (options : PluginManagerOptions R) (n v : string)
    (t : fs.tree) : bool :=
  fs.directoryExists (Path.join (pluginsPath options) n) t
  && match fs.readFile
             (Path.join (Path.join (pluginsPath options) n) "package.json") t with
     | Some (Json j) =>
         truthy (json_name j) && truthy (json_version j)
         && bool_decide (json_name j = Some n)
         && bool_decide (json_version j = Some v)
     | _ => false
     end.

(** What [isModuleAvailableFromHost] answers. *)
Definition host_provides (host : Host) (options : PluginManagerOptions (RegExp host))
    (n v : string) : bool :=
  match hostRequire options with
  | None => false
  | Some host_require =>
      match host_require (n +:+ "/package.json") with
      | Some modulePackage => semver_satisfies host (pkg_version modulePackage) v
      | None => false
      end
  end.

(** The store once [removeDownloaded] has run. *)
Definition after_removeDownloaded {R} (options : PluginManagerOptions R)
    (n : string) (t : fs.tree) : fs.tree :=
  if fs.directoryExists (Path.join (pluginsPath options) n) t then t
  else fs.remove (Path.join (pluginsPath options) n) t.

(** The directory of [n] holds a manifest that [readPackageJsonFromPath]
    accepts and that declares the dependencies [deps]. *)
Definition holds_manifest {R} (options : PluginManagerOptions R) (n : string)
    (deps : list (string * string)) (t : fs.tree) : Prop :=
  exists j,
    fs.readFile (Path.join (Path.join (pluginsPath options) n) "package.json") t
    = Some (Json j)
    /\ truthy (json_name j) = true /\ truthy (json_version j) = true
    /\ default [] (json_dependencies j) = deps.

(** A request that [installLockFree] passes on to the npm registry. *)
Definition for_npm (host : Host) (v : option string) : Prop :=
  truthy v && isGithubRepo host (default "" v) = false.

(** A set of published packages that is closed under "the first dependency
    that is not ignored": the registry resolves every member, whatever range
    is asked for, to its published version; the manifest of that version
    declares, after ignored entries only, a member that the host does not
    provide; and on the stores considered neither the directory of a member
    nor an ancestor of it is a file (so the tests of the directory answer),
    a manifest of the published version found there declares what was
    published, and the download of a member succeeds and leaves that
    manifest. *)
Record closed_under_dependencies (host : Host)
    (options : PluginManagerOptions (RegExp host))
    (member : string -> Prop) (published : string -> PackageInfo)
    (declared : string -> list (string * string))
    (store_ok : fs.tree -> Prop) : Prop := {
  member_valid : forall n, member n -> isValidPluginName (JsString n) = true;
  member_resolved : forall n v, member n ->
    npm_get host n v = Some (published n) /\ pkg_name (published n) = n;
  member_depends : forall n, member n ->
    exists pre key range rest,
      declared n = pre ++ (key, range) :: rest
      /\ Forall (fun entry => shouldIgnore host options entry.1 = true) pre
      /\ shouldIgnore host options key = false
      /\ host_provides host options key range = false
      /\ member key
      /\ for_npm host (Some range);
  member_found : forall n t j, member n -> store_ok t ->
    fs.readFile (Path.join (Path.join (pluginsPath options) n) "package.json") t
    = Some (Json j) ->
    json_name j = Some n ->
    json_version j = Some (pkg_version (published n)) ->
    default [] (json_dependencies j) = declared n;
  member_directory : forall n t, member n -> store_ok t ->
    existsb (fun q => fs.fileExists q t)
      (fs.prefixes (Path.join (pluginsPath options) n)) = false;
  member_downloads : forall n t, member n -> store_ok t ->
    downloaded options n (pkg_version (published n)) t = false ->
    exists t',
      npm_download host (pluginsPath options) (published n)
        (after_removeDownloaded options n t) = Some t'
      /\ store_ok t'
      /\ holds_manifest options n (declared n) t'
}.

(** No member is registered and the store is one of those considered. *)
Definition busy (member : string -> Prop) (store_ok : fs.tree -> Prop)
    (s : State) : Prop :=
  (forall m, member m -> getFullInfo m s = None) /\ store_ok (files s).

(** ** Arrays as objects

    [installedPlugins] is a JavaScript array: an object on the heap that the
    manager holds a reference to.  [list()] hands an array to the caller, who
    may mutate it.  Whether that array is the registry itself or a copy only
    shows in a model where both live on the same heap. *)
Module Arrays.

Record Js := mkJs {
  arrays : gmap nat (list IPluginInfo);
  this_installedPlugins : nat;
  store : fs.tree;
  log : list Event
}.

(** The state the methods of the manager run on. *)
Definition state_of (j : Js) : State :=
  mkState (default [] (arrays j !! this_installedPlugins j)) (store j) (log j).

(** [list()]: [map] allocates a new array and fills it with the elements of
    the registry, in order; the reference to the new array is returned. *)
Definition list_js (j : Js) : nat * Js :=
  let r := fresh (dom (arrays j)) in
  (r, mkJs (<[r := list_ (state_of j)]> (arrays j))
        (this_installedPlugins j) (store j) (log j)).

(** What a caller can do to an array it holds. *)
Inductive Mutation :=
| Push (d : IPluginInfo)
| Pop
| Shift
| Unshift (d : IPluginInfo)
| Splice (start count : nat)
| Reverse
| Assign (i : nat) (d : IPluginInfo)
| Truncate (len : nat).

Definition apply_mutation (mu : Mutation) (l : list IPluginInfo)
  : list IPluginInfo :=
  match mu with
  | Push d => l ++ [d]
  | Pop => removelast l
  | Shift => tail l
  | Unshift d => d :: l
  | Splice start count => take start l ++ drop (start + count) l
  | Reverse => rev l
  | Assign i d => if (i <? length l)%nat then <[i := d]> l else l
  | Truncate len => take len l
  end.

Definition mutate (r : nat) (j : Js) (mu : Mutation) : Js :=
  mkJs (alter (apply_mutation mu) r (arrays j))
    (this_installedPlugins j) (store j) (log j).

Definition mutate_all (r : nat) (mus : list Mutation) (j : Js) : Js :=
  foldl (mutate r) j mus.

End Arrays.

Module Examples.

Import Fragment.

(** A registry that knows no package, with a lock file that can be told to
    fail on release. *)
Definition no_registry (unlock_error : option string) : Host :=
  host (fun _ _ => None) (extract (fun _ => None)) unlock_error.

Definition dot_secret : JsValue := JsString ".secret".
Definition a_backslash_b : JsValue := JsString ("a" +:+ backslash +:+ "b").

Definition manifest (n v : string) (deps : option (list (string * string)))
  : node :=
  File (Json (mkPackageJson (Some n) (Some v) None deps)).

(** A store left by an earlier process: the directory of [x] holds version
    1.0.0 and a file that later versions do not ship.  The in-memory registry
    of the new manager is empty. *)
Definition stale_store : State :=
  mkState []
    [(["plugin_packages"], Dir);
     (["plugin_packages"; "x"], Dir);
     (["plugin_packages"; "x"; "package.json"], manifest "x" "1.0.0" None);
     (["plugin_packages"; "x"; "index.js"], File (Text "module.exports = 1"));
     (["plugin_packages"; "x"; "old.js"], File (Text "stale"))]
    [].

(** A registry whose latest version of [x] is 2.0.0. *)
Definition registry_x2 : Host :=
  host (fun n _ => if String.eqb n "x"
                   then Some (published "x" "2.0.0") else None)
    (extract (fun _ => None)) None.

(** A store left by an earlier process that ran
    [installFromCode("x", "module.exports = 'old'")]. *)
Definition code_store : State :=
  mkState []
    [(["plugin_packages"], Dir);
     (["plugin_packages"; "x"], Dir);
     (["plugin_packages"; "x"; "index.js"], File (Text "module.exports = 'old'"));
     (["plugin_packages"; "x"; "package.json"], manifest "x" "0.0.0" None)]
    [].

(** The registry before and after version 1.1.0 of [x] is published: every
    request for [x] resolves to the newest version. *)
Definition registry_x (newest : string) : Host :=
  host (fun n _ => if String.eqb n "x"
                   then Some (published "x" newest) else None)
    (extract (fun _ => None)) None.

Definition x_at (v : string) : IPluginInfo :=
  {| name := "x"; version := v;
     location := ["plugin_packages"; "x"];
     mainFile := ["plugin_packages"; "x"; "index.js"];
     dependencies := Some [] |}.

(** A plugin that depends on [lodash-es], in a configuration that ignores
    the dependency [lodash]. *)
Definition ignore_lodash : PluginManagerOptions Literal :=
  Fragment.options [IgnoreString "lodash"].

Definition uses_lodash_es : IPluginInfo :=
  {| name := "app"; version := "1.0.0";
     location := ["plugin_packages"; "app"];
     mainFile := ["plugin_packages"; "app"; "index.js"];
     dependencies := Some [("lodash-es", "^4.17.0")] |}.

(** Two plugins created from code, the directory of the second inside the
    directory of the first. *)
Definition plugin_a : IPluginInfo :=
  {| name := "a"; version := "0.0.0";
     location := ["plugin_packages"; "a"];
     mainFile := ["plugin_packages"; "a"; "index.js"];
     dependencies := Some [] |}.

Definition plugin_a_b : IPluginInfo :=
  {| name := "a/b"; version := "0.0.0";
     location := ["plugin_packages"; "a"; "b"];
     mainFile := ["plugin_packages"; "a"; "b"; "index.js"];
     dependencies := Some [] |}.

(** A registry with a dependency cycle: [a] depends on [b ^1.0.0], [b] on
    [a ^1.0.0], both are published at 1.0.0, so the ranges are compatible. *)
Definition cycle_dependencies (n : string) : option (list (string * string)) :=
  if String.eqb n "a" then Some [("b", "^1.0.0")]
  else if String.eqb n "b" then Some [("a", "^1.0.0")]
  else None.

Definition cyclic_registry : Host :=
  host (fun n _ => if String.eqb n "a" || String.eqb n "b"
                   then Some (published n "1.0.0") else None)
    (extract cycle_dependencies) None.

(** The trees the store goes through: the root and the lock file, then the
    package [a] downloaded, then [b] as well. *)
Definition tree_locked : fs.tree :=
  [(["plugin_packages"], Dir);
   (["plugin_packages"; "install.lock"], File (Text ""))].

Definition tree_a : fs.tree :=
  default [] (extract cycle_dependencies ["plugin_packages"]
               (published "a" "1.0.0") tree_locked).

Definition tree_a_b : fs.tree :=
  default [] (extract cycle_dependencies ["plugin_packages"]
               (published "b" "1.0.0") tree_a).

(** The nested requests of the cycle: which package is asked for on which
    tree, always with an empty registry. *)
Definition in_cycle (n : string) (s : State) : Prop :=
  installedPlugins s = []
  /\ ((n = "a" /\ files s = tree_locked)
      \/ (n = "b" /\ files s = tree_a)
      \/ ((n = "a" \/ n = "b") /\ files s = tree_a_b)).

End Examples.

(** The cycle [a -> b -> a] of [Examples.cyclic_registry] as such a set: its
    members, what the registry publishes and declares for them, and the trees
    the store goes through, whichever member is installed first. *)
Module Cycle.

Import Examples.

Definition member (n : string) : Prop := n = "a" \/ n = "b".

Definition published (n : string) : PackageInfo := Fragment.published n "1.0.0".

Definition declared (n : string) : list (string * string) :=
  default [] (cycle_dependencies n).

Definition tree_b : fs.tree :=
  default [] (Fragment.extract cycle_dependencies ["plugin_packages"]
               (Fragment.published "b" "1.0.0") tree_locked).

Definition tree_b_a : fs.tree :=
  default [] (Fragment.extract cycle_dependencies ["plugin_packages"]
               (Fragment.published "a" "1.0.0") tree_b).

Definition store_ok (t : fs.tree) : Prop :=
  t ∈ [tree_locked; tree_a; tree_a_b; tree_b; tree_b_a].

End Cycle.


(** ** Notions used by the further properties *)

Definition backslash_char : ascii := ascii_of_nat 92.

(** The characters of a string. *)
Fixpoint chars (s : string) : list ascii :=
  match s with
  | EmptyString => []
  | String c rest => c :: chars rest
  end.

(** The state once a method has logged the calls [evs] and changed nothing. *)
Definition logged (evs : list Event) (s : State) : State :=
  mkState (installedPlugins s) (files s) (calls s ++ evs).

(** A path without empty, [.] or [..] segments, as [path.join] returns them. *)
Definition clean_segment (seg : string) : Prop :=
  seg <> "" /\ seg <> "." /\ seg <> "..".

Definition clean (p : path) : Prop := Forall clean_segment p.

(** The segments of a relative path that [path.join] keeps when none of them
    is [..]. *)
Definition kept_segments (rel : string) : list string :=
  List.filter (fun seg => negb (String.eqb seg "" || String.eqb seg "."))
    (Path.segments rel).

(** [depends_on d n]: the test [installed.dependencies[plugin.name]] of the
    uninstall cascade answers true for the descriptor [d] and the name [n]:
    [d] declares [n] with a non-empty range, or declares nothing under [n] and
    [n] names a member of [Object.prototype]. *)
Definition depends_on (d : IPluginInfo) (n : string) : bool :=
  match dependencies d with
  | Some deps => truthy_member (property deps n)
  | None => false
  end.

(** The descriptors the cascade gets to from a descriptor: itself, and the
    registered dependents of what it gets to. *)
Inductive reaches (registry : list IPluginInfo) : IPluginInfo -> IPluginInfo -> Prop :=
| reaches_here p : reaches registry p p
| reaches_dependent p d q :
    d ∈ registry -> depends_on d (name p) = true -> reaches registry d q ->
    reaches registry p q.

(** The registered dependents are acyclic: a rank on names that a registered
    dependent has lower than the registered descriptor it depends on (so no
    registered descriptor passes the test of the cascade for its own name, as
    one named after a member of [Object.prototype] would). *)
Definition ranked (rank : string -> nat) (registry : list IPluginInfo) : Prop :=
  forall d p, d ∈ registry -> p ∈ registry ->
    depends_on d (name p) = true -> rank (name d) < rank (name p).

(** Run from [s], a method that returns a descriptor returns a registered
    one. *)
Definition registers (m : M IPluginInfo) (s : State) : Prop :=
  forall d s', m s = Returned d s' -> d ∈ installedPlugins s'.

(** From [s] to [s'] calls were added to the log, none was taken back. *)
Definition grows (s s' : State) : Prop :=
  exists evs, calls s' = calls s ++ evs.

(** The dependency entries the resolver does not skip. *)
Definition resolved {R} (skip : string -> bool) (entries : list (string * R))
  : list (string * R) :=
  List.filter (fun kv => negb (skip kv.1)) entries.

(** ** Plugins named in the further statements *)

Module Chain.

(** Three plugins in a chain: [app] depends on [mid], [mid] on [lib]. *)
Definition plugin (n : string) (deps : list (string * string)) : IPluginInfo :=
{| name := n; version := "1.0.0";
   location := ["plugin_packages"; n];
   mainFile := ["plugin_packages"; n; "index.js"];
   dependencies := Some deps |}.

Definition lib : IPluginInfo := plugin "lib" [].
Definition mid : IPluginInfo := plugin "mid" [("lib", "^1.0.0")].
Definition app : IPluginInfo := plugin "app" [("mid", "^1.0.0")].

Definition state : State :=
mkState [lib; mid; app]
  [(["plugin_packages"], Dir);
   (["plugin_packages"; "lib"], Dir);
   (["plugin_packages"; "mid"], Dir);
   (["plugin_packages"; "app"], Dir)]
  [].

(** Dependents rank below what they depend on. *)
Definition rank (n : string) : nat :=
if String.eqb n "lib" then 2 else if String.eqb n "mid" then 1 else 0.

End Chain.

Module Upgrade.

(** A registry that resolves [x] to 2.0.0 and whose download always fails. *)
Definition unreachable : Host :=
Fragment.host
  (fun n _ => if String.eqb n "x"
              then Some (Fragment.published "x" "2.0.0") else None)
  (fun _ _ _ => None) None.

(** Version 1.0.0 of [x] installed, in the registry and in the store; a
  directory outside the store holds the sources of that same version. *)
Definition installed : State :=
mkState [Examples.x_at "1.0.0"]
  [(["plugin_packages"], Dir);
   (["plugin_packages"; "x"], Dir);
   (["plugin_packages"; "x"; "package.json"], Examples.manifest "x" "1.0.0" None);
   (["plugin_packages"; "x"; "index.js"], File (Text "module.exports = 1"));
   (["work"], Dir);
   (["work"; "x"], Dir);
   (["work"; "x"; "package.json"], Examples.manifest "x" "1.0.0" None);
   (["work"; "x"; "index.js"], File (Text "module.exports = 'edited'"))]
  [].

(** A host application that provides [lodash] 4.17.21 itself. *)
Definition host_with_lodash : PluginManagerOptions Fragment.Literal :=
{| pluginsPath := ["plugin_packages"];
   hostRequire :=
     Some (fun spec => if String.eqb spec "lodash/package.json"
                       then Some (mkPackageInfo "lodash" "4.17.21" None)
                       else None);
   ignoredDependencies := [];
   staticDependencies := [];
   lockWait := 120000;
   lockStale := 180000 |}.

End Upgrade.

(** * Lemmas about the methods *)

(** ** The monad *)

Lemma bind_Returned {A B} (m : M A) (k : A -> M B) s a s1 :
  m s = Returned a s1 -> bind m k s = k a s1.
Proof. intros E. unfold bind. now rewrite E. Qed.

Lemma bind_Rejected {A B} (m : M A) (k : A -> M B) s e s1 :
  m s = Rejected e s1 -> bind m k s = Rejected e s1.
Proof. intros E. unfold bind. now rewrite E. Qed.

Lemma bind_OutOfFuel {A B} (m : M A) (k : A -> M B) s :
  m s = OutOfFuel -> bind m k s = OutOfFuel.
Proof. intros E. unfold bind. now rewrite E. Qed.

Lemma bind_inv_Returned {A B} (m : M A) (k : A -> M B) s b s2 :
  bind m k s = Returned b s2 ->
  exists a s1, m s = Returned a s1 /\ k a s1 = Returned b s2.
Proof.
  unfold bind. destruct (m s) as [a s1|e s1|]; try discriminate. eauto.
Qed.

(** ** The lock discipline *)

Section Lock.

Context (host : Host) (options : PluginManagerOptions (RegExp host)).

Lemma syncUnlock_ok s :
  lockFile_unlock host (lockLocation host options) (files s) = None ->
  syncUnlock host options s = Returned tt (released options s).
Proof. intros E. unfold syncUnlock. simpl. now rewrite E. Qed.

Lemma syncUnlock_fails s msg :
  lockFile_unlock host (lockLocation host options) (files s) = Some msg ->
  syncUnlock host options s
  = Rejected (FailedToReleaseLock msg) (release_attempted options s).
Proof. intros E. unfold syncUnlock. simpl. now rewrite E. Qed.

Lemma acquire_ok s t :
  fs.ensureDir (pluginsPath options) (files s) = Some t ->
  lockFile_lock host (lockLocation host options) (lockWait options)
    (lockStale options) t = None ->
  (fs_ensureDir (pluginsPath options) ;; syncLock host options) s
  = Returned tt (acquired options t s).
Proof.
  intros E1 E2. unfold bind, fs_ensureDir, bind, call, update_files, syncLock.
  simpl. rewrite E1. simpl. rewrite E2. unfold acquired.
  now rewrite <- app_assoc.
Qed.

(** Each public method is the guarded form of its lock-free variant. *)
Lemma public_methods_guarded fuel :
  (forall n v, install host options fuel n v
               = guarded host options (installLockFree host options fuel n v))
  /\ (forall n v, installFromNpm host options fuel n v
        = guarded host options
            (installFromNpmLockFree host options
               (installLockFree host options fuel) fuel n v))
  /\ (forall loc o, installFromPath host options fuel loc o
        = guarded host options
            (installFromPathLockFree host options
               (installLockFree host options fuel) fuel loc o))
  /\ (forall r, installFromGithub host options fuel r
        = guarded host options
            (installFromGithubLockFree host options
               (installLockFree host options fuel) fuel r))
  /\ (forall n c v, installFromCode host options fuel n c v
        = guarded host options
            (installFromCodeLockFree host options
               (installLockFree host options fuel) fuel n c v))
  /\ (forall n, uninstall host options fuel n
        = guarded host options (uninstallLockFree fuel n))
  /\ uninstallAll host options fuel
     = guarded host options
         (installed_list <- get_installedPlugins ;;
          for_each (rev installed_list)
            (fun plugin => uninstallLockFree fuel (JsString (name plugin)))).
Proof. repeat split. Qed.

Lemma guarded_acquired {A} (body : M A) s s1 :
  (fs_ensureDir (pluginsPath options) ;; syncLock host options) s
  = Returned tt s1 ->
  guarded host options body s
  = try_finally body (syncUnlock host options) s1.
Proof.
  unfold guarded, bind. intros E.
  destruct (fs_ensureDir (pluginsPath options) s) as [[] s0| |]; try discriminate.
  now rewrite E.
Qed.

End Lock.

(** ** Validation of names *)

Lemma isValidPluginName_false_iff n :
  isValidPluginName n = false <->
  n = JsNonString
  \/ exists s, n = JsString s
               /\ (String.length s = 0
                   \/ String.prefix "." s = true
                   \/ (0 <= indexOf backslash s)%Z).
Proof.
  unfold isValidPluginName. destruct n as [s|].
  - destruct (Nat.eqb_spec (String.length s) 0) as [E|E].
    + split; [intros _; right; exists s; auto | reflexivity].
    + destruct (String.prefix "." s) eqn:P; simpl.
      * split; [intros _; right; exists s; auto | reflexivity].
      * destruct (Z.leb_spec 0 (indexOf backslash s)) as [L|L].
        -- split; [intros _; right; exists s; auto | reflexivity].
        -- split; [discriminate |].
           intros [?|(s' & Es & [?|[?|?]])]; try discriminate;
             injection Es as <-; try congruence; lia.
  - split; [auto | reflexivity].
Qed.

(** ** [removeDownloaded] *)

Section RemoveDownloaded.

Context (host : Host) (options : PluginManagerOptions (RegExp host)).

(** [removeDownloaded] asks whether the directory exists and removes it only
    when it does not: on an existing directory it changes nothing. *)
Lemma removeDownloaded_existing n s :
  fs.directoryExists (getPluginLocation host options n) (files s) = true ->
  removeDownloaded host options n s
  = Returned tt
      (mkState (installedPlugins s) (files s)
         (calls s ++ [DirectoryExists (getPluginLocation host options n)])).
Proof.
  intros E. unfold removeDownloaded, bind, fs_directoryExists, bind, call,
    read_files. simpl. now rewrite E.
Qed.

Lemma removeDownloaded_missing n s :
  fs.directoryExists (getPluginLocation host options n) (files s) = false ->
  removeDownloaded host options n s
  = Returned tt
      (mkState (installedPlugins s)
         (fs.remove (getPluginLocation host options n) (files s))
         (calls s ++ [DirectoryExists (getPluginLocation host options n);
                      Remove (getPluginLocation host options n)])).
Proof.
  intros E. unfold removeDownloaded, bind, fs_directoryExists, bind, call,
    read_files. simpl. rewrite E. simpl.
  unfold fs_remove, bind, call, update_files. simpl.
  now rewrite <- app_assoc.
Qed.

End RemoveDownloaded.

(** ** Queries of the registry *)

Section AlreadyInstalled.

Context (host : Host).

Lemma find_Some_elem {A} (f : A -> bool) (l : list A) x :
  List.find f l = Some x -> x ∈ l /\ f x = true.
Proof.
  induction l as [|y l IH]; simpl; [discriminate |].
  destruct (f y) eqn:E.
  - intros [= <-]. split; [left | assumption].
  - intros H. destruct (IH H). split; [now right | assumption].
Qed.

(** The queries read the registry and nothing else. *)
Lemma getFullInfo_registry n s1 s2 :
  installedPlugins s1 = installedPlugins s2 ->
  getFullInfo n s1 = getFullInfo n s2.
Proof. unfold getFullInfo. now intros ->. Qed.

Lemma alreadyInstalled_registry n v s1 s2 :
  installedPlugins s1 = installedPlugins s2 ->
  alreadyInstalled host n v s1 = alreadyInstalled host n v s2.
Proof.
  intros E. unfold alreadyInstalled, getInfo.
  now rewrite (getFullInfo_registry n s1 s2 E).
Qed.

(** What [alreadyInstalled] answers: a registered descriptor of that name, and
    when a version is asked for, one whose version satisfies it. *)
Lemma alreadyInstalled_Some n v s d :
  alreadyInstalled host n v s = Some d ->
  d ∈ installedPlugins s /\ name d = n
  /\ (truthy v = true -> semver_satisfies host (version d) (default "" v) = true).
Proof.
  unfold alreadyInstalled, getInfo, getFullInfo.
  destruct (List.find _ _) as [i|] eqn:F; [| discriminate].
  apply find_Some_elem in F as [Hin Hn]. apply String.eqb_eq in Hn.
  destruct (truthy v); simpl.
  - destruct (semver_satisfies host (version i) (default "" v)) eqn:E;
      [| discriminate].
    intros [= <-]. auto.
  - intros [= <-]. split; [assumption |]. split; [assumption | discriminate].
Qed.

End AlreadyInstalled.

(** ** The uninstall cascade *)

Section Frames.

Lemma only_unloads_refl s : only_unloads s s.
Proof.
  repeat split. exists []. simpl. now rewrite app_nil_r.
Qed.

Lemma only_unloads_trans s1 s2 s3 :
  only_unloads s1 s2 -> only_unloads s2 s3 -> only_unloads s1 s3.
Proof.
  intros (R1 & F1 & ns1 & C1) (R2 & F2 & ns2 & C2).
  split; [congruence |]. split; [congruence |].
  exists (ns1 ++ ns2). rewrite C2, C1, map_app. now rewrite app_assoc.
Qed.

Lemma after_bind {A B} (R : State -> State -> Prop) (m : M A) (k : A -> M B) s :
  (forall s1 s2 s3, R s1 s2 -> R s2 s3 -> R s1 s3) ->
  after (R s) (m s) ->
  (forall a s1, after (R s1) (k a s1)) ->
  after (R s) (bind m k s).
Proof.
  intros Htrans Hm Hk. unfold bind.
  destruct (m s) as [a s1|e s1|]; simpl in *; try assumption.
  specialize (Hk a s1). destruct (k a s1); simpl in *; eauto.
Qed.

Lemma after_for_each {A} (R : State -> State -> Prop) (l : list A)
    (body : A -> M unit) :
  (forall s, R s s) ->
  (forall s1 s2 s3, R s1 s2 -> R s2 s3 -> R s1 s3) ->
  (forall x s, after (R s) (body x s)) ->
  forall s, after (R s) (for_each l body s).
Proof.
  intros Hrefl Htrans Hbody. induction l as [|x l IH]; intros s; simpl.
  - apply Hrefl.
  - apply after_bind; auto.
Qed.

(** The cascade only asks the loader to unload: the registry and the store
    are the same after it, however it ends. *)
Lemma unloadWithDependents_only_unloads fuel :
  forall plugin s,
    after (only_unloads s) (unloadWithDependents fuel plugin s).
Proof.
  induction fuel as [|fuel IH]; intros plugin s; simpl; [exact I |].
  apply after_bind; [exact only_unloads_trans | |].
  - simpl. repeat split. now exists [name plugin].
  - intros _ s1. apply after_bind; [exact only_unloads_trans | |].
    + simpl. apply only_unloads_refl.
    + intros l s2.
      apply after_for_each;
        [exact only_unloads_refl | exact only_unloads_trans |].
      intros installed s3. destruct (dependencies installed) as [deps|].
      * destruct (truthy_member (property deps (name plugin))).
        -- apply IH.
        -- simpl. apply only_unloads_refl.
      * simpl. apply only_unloads_refl.
Qed.

Lemma array_indexOf_elem {A} `{EqDecision A} (l : list A) x :
  x ∈ l -> exists i, array_indexOf l x = Some i.
Proof.
  induction l as [|y l IH]; intros Hin; [inversion Hin |]. simpl.
  destruct (decide (y = x)); [eauto |].
  destruct IH as [i Hi]; [now inversion Hin; subst |].
  rewrite Hi. simpl. eauto.
Qed.

Lemma splice1_keeps_others {A} `{EqDecision A} (l : list A) x i d :
  array_indexOf l x = Some i -> d ∈ l -> d <> x -> d ∈ splice1 l i.
Proof.
  revert i. induction l as [|y l IH]; intros i; simpl; [discriminate |].
  destruct (decide (y = x)) as [->|Hne].
  - intros [= <-] Hin Hd. inversion Hin; subst; [congruence | assumption].
  - destruct (array_indexOf l x) as [j|] eqn:E; [| discriminate].
    simpl. intros [= <-] Hin Hd.
    inversion Hin; subst; [left | right; eauto].
Qed.

Lemma remove_lookup_outside p q (t : fs.tree) :
  fs.under p q = false -> fs.lookup q (fs.remove p t) = fs.lookup q t.
Proof.
  intros Hq. unfold fs.remove.
  induction t as [|[k x] t IH]; simpl; [reflexivity |].
  destruct (fs.under p k) eqn:Hk; simpl.
  - rewrite IH. case_bool_decide; [congruence | reflexivity].
  - now rewrite IH.
Qed.

Lemma remove_lookup_inside p q (t : fs.tree) :
  fs.under p q = true -> fs.lookup q (fs.remove p t) = None.
Proof.
  intros Hq. unfold fs.remove.
  induction t as [|[k x] t IH]; simpl; [reflexivity |].
  destruct (fs.under p k) eqn:Hk; simpl; [exact IH |].
  case_bool_decide; [congruence | exact IH].
Qed.

End Frames.

(** ** Methods that leave the registry alone *)

Section RegistryUnchanged.

Lemma same_registry_refl s : same_registry s s.
Proof. reflexivity. Qed.

Lemma same_registry_trans s1 s2 s3 :
  same_registry s1 s2 -> same_registry s2 s3 -> same_registry s1 s3.
Proof. unfold same_registry. congruence. Qed.

Lemma after_try_catch {A} (R : State -> State -> Prop) (body : M A) v s :
  after (R s) (body s) -> after (R s) (try_catch body v s).
Proof. unfold try_catch. destruct (body s); simpl; auto. Qed.

Lemma call_same e s : after (same_registry s) (call e s).
Proof. reflexivity. Qed.

Lemma ret_same {A} (a : A) s : after (same_registry s) (ret a s).
Proof. reflexivity. Qed.

Lemma throw_same {A} e s : after (same_registry s) (@throw A e s).
Proof. reflexivity. Qed.

Lemma gets_same {A} (f : State -> A) s : after (same_registry s) (gets f s).
Proof. reflexivity. Qed.

Lemma read_files_same {A} (f : fs.tree -> A) s :
  after (same_registry s) (read_files f s).
Proof. reflexivity. Qed.

Lemma update_files_same f s : after (same_registry s) (update_files f s).
Proof. unfold update_files. destruct (f (files s)); reflexivity. Qed.

Lemma collaborator_writes_same f s :
  after (same_registry s) (collaborator_writes f s).
Proof. unfold collaborator_writes. destruct (f (files s)); reflexivity. Qed.

Lemma await_same {A} (o : option A) e s : after (same_registry s) (await o e s).
Proof. destruct o; reflexivity. Qed.

End RegistryUnchanged.

Create HintDb registry.
#[export] Hint Resolve call_same ret_same throw_same gets_same read_files_same
  update_files_same collaborator_writes_same await_same : registry.

(** One step through a method built from [bind], conditionals and matches. *)
Ltac same_step :=
  match goal with
  | |- after (same_registry _) (bind _ _ _) =>
      apply after_bind; [exact same_registry_trans | | intros ? ?]
  | |- after (same_registry _) (try_catch _ _ _) => apply after_try_catch
  | |- after (same_registry _) ((if ?b then _ else _) _) => destruct b
  | |- after (same_registry _) ((match ?o with _ => _ end) _) => destruct o
  | |- after (same_registry _) _ => solve [auto with registry]
  end.

Ltac same_registry_tac := repeat same_step.

Section RegistryUnchangedMethods.

Context (host : Host) (options : PluginManagerOptions (RegExp host)).

Lemma fs_ensureDir_same p s : after (same_registry s) (fs_ensureDir p s).
Proof. unfold fs_ensureDir. same_registry_tac. Qed.

Lemma fs_directoryExists_same p s :
  after (same_registry s) (fs_directoryExists p s).
Proof. unfold fs_directoryExists. same_registry_tac. Qed.

Lemma fs_fileExists_same p s : after (same_registry s) (fs_fileExists p s).
Proof. unfold fs_fileExists. same_registry_tac. Qed.

Lemma fs_readFile_same p s : after (same_registry s) (fs_readFile p s).
Proof. unfold fs_readFile. same_registry_tac. Qed.

Lemma fs_writeFile_same p c s : after (same_registry s) (fs_writeFile p c s).
Proof. unfold fs_writeFile. same_registry_tac. Qed.

Lemma fs_remove_same p s : after (same_registry s) (fs_remove p s).
Proof. unfold fs_remove. same_registry_tac. Qed.

Lemma fs_copy_same a b x s : after (same_registry s) (fs_copy a b x s).
Proof. unfold fs_copy. same_registry_tac. Qed.

Hint Resolve fs_ensureDir_same fs_directoryExists_same fs_fileExists_same
  fs_readFile_same fs_writeFile_same fs_remove_same fs_copy_same : registry.

Lemma readPackageJsonFromPath_same loc s :
  after (same_registry s) (readPackageJsonFromPath loc s).
Proof. unfold readPackageJsonFromPath. same_registry_tac. Qed.

Hint Resolve readPackageJsonFromPath_same : registry.

Lemma isAlreadyDownloaded_same n v s :
  after (same_registry s) (isAlreadyDownloaded host options n v s).
Proof. unfold isAlreadyDownloaded. same_registry_tac. Qed.

Lemma removeDownloaded_same n s :
  after (same_registry s) (removeDownloaded host options n s).
Proof. unfold removeDownloaded. same_registry_tac. Qed.

Lemma createPluginInfo_same n s :
  after (same_registry s) (createPluginInfo host options n s).
Proof. unfold createPluginInfo. same_registry_tac. Qed.

Lemma isModuleAvailableFromHost_same n v s :
  after (same_registry s) (isModuleAvailableFromHost host options n v s).
Proof. unfold isModuleAvailableFromHost. same_registry_tac. Qed.

Lemma unloadWithDependents_same fuel plugin s :
  after (same_registry s) (unloadWithDependents fuel plugin s).
Proof.
  pose proof (unloadWithDependents_only_unloads fuel plugin s) as H.
  destruct (unloadWithDependents fuel plugin s); simpl in *; try exact I;
    apply H.
Qed.

End RegistryUnchangedMethods.

#[export] Hint Resolve fs_ensureDir_same fs_directoryExists_same
  fs_fileExists_same fs_readFile_same fs_writeFile_same fs_remove_same
  fs_copy_same readPackageJsonFromPath_same isAlreadyDownloaded_same
  removeDownloaded_same createPluginInfo_same isModuleAvailableFromHost_same
  unloadWithDependents_same : registry.

(** ** Dependency objects *)

Section Keeps.

Lemma keeps_ret {A} (a : A) (Q : A -> Prop) : Q a -> keeps (ret a) Q.
Proof. intros HQ s Hs. simpl. auto. Qed.

Lemma keeps_throw {A} e (Q : A -> Prop) : keeps (throw e) Q.
Proof. intros s Hs. exact Hs. Qed.

Lemma keeps_bind {A B} (m : M A) (k : A -> M B) Q1 Q2 :
  keeps m Q1 -> (forall a, Q1 a -> keeps (k a) Q2) -> keeps (bind m k) Q2.
Proof.
  intros Hm Hk s Hs. specialize (Hm s Hs). unfold bind.
  destruct (m s) as [a s1|e s1|]; try assumption.
  destruct Hm as [Ha Hs1]. exact (Hk a Ha s1 Hs1).
Qed.

Lemma keeps_weaken {A} (m : M A) (Q Q' : A -> Prop) :
  (forall a, Q a -> Q' a) -> keeps m Q -> keeps m Q'.
Proof.
  intros HQ Hm s Hs. specialize (Hm s Hs).
  destruct (m s); try assumption. destruct Hm. auto.
Qed.

Lemma keeps_same {A} (m : M A) :
  (forall s, after (same_registry s) (m s)) -> keeps m (fun _ => True).
Proof.
  intros Hm s Hs. specialize (Hm s). unfold defined_dependencies in *.
  destruct (m s) as [a s1|e s1|]; simpl in Hm; try exact I;
    unfold same_registry in Hm; rewrite Hm; auto.
Qed.

Lemma keeps_for_each {A} (l : list A) (body : A -> M unit) :
  (forall x, keeps (body x) (fun _ => True)) ->
  keeps (for_each l body) (fun _ => True).
Proof.
  intros Hbody. induction l as [|x l IH]; simpl.
  - now apply keeps_ret.
  - eapply keeps_bind; [apply Hbody | intros _ _; exact IH].
Qed.

Lemma splice1_subset {A} (l : list A) i d : d ∈ splice1 l i -> d ∈ l.
Proof.
  revert i. induction l as [|y l IH]; intros [|i]; simpl; intros H;
    try assumption.
  - now right.
  - inversion H; subst; [left | right; eauto].
Qed.

Lemma keeps_set_installedPlugins l :
  (forall d, d ∈ l -> is_Some (dependencies d)) ->
  keeps (set_installedPlugins l) (fun _ => True).
Proof. intros Hl s Hs. simpl. split; [exact I | exact Hl]. Qed.

(** [createPluginInfo] always fills in the dependency object, with the empty
    object when the manifest has none. *)
Lemma createPluginInfo_dependencies host options n s d s' :
  createPluginInfo host options n s = Returned d s' ->
  exists packageJson s1,
    readPackageJsonFromPath (getPluginLocation host options n) s
    = Returned packageJson s1
    /\ dependencies d = Some (default [] (json_dependencies packageJson)).
Proof.
  unfold createPluginInfo. intros H.
  apply bind_inv_Returned in H as (packageJson & s1 & Hread & Hret).
  exists packageJson, s1. split; [exact Hread |].
  unfold ret in Hret. now injection Hret as <- _.
Qed.

Lemma keeps_createPluginInfo host options n :
  keeps (createPluginInfo host options n)
    (fun d => is_Some (dependencies d)).
Proof.
  intros s Hs.
  pose proof (createPluginInfo_same host options n s) as Hsame.
  destruct (createPluginInfo host options n s) as [d s1|e s1|] eqn:E;
    simpl in Hsame; try exact I.
  - split.
    + apply createPluginInfo_dependencies in E as (pj & ? & _ & ->). eauto.
    + intros x. rewrite Hsame. apply Hs.
  - intros x. rewrite Hsame. apply Hs.
Qed.

Lemma keeps_alreadyInstalled host n v :
  keeps (gets (alreadyInstalled host n v))
    (fun o => forall d, o = Some d -> is_Some (dependencies d)).
Proof.
  intros s Hs. simpl. split; [| exact Hs].
  intros d Hd. apply Hs. exact (proj1 (alreadyInstalled_Some host _ _ _ _ Hd)).
Qed.

Lemma keeps_uninstallLockFree fuel n :
  keeps (uninstallLockFree fuel n) (fun _ => True).
Proof.
  unfold uninstallLockFree. destruct (negb (isValidPluginName n));
    [apply keeps_throw |].
  eapply keeps_bind; [apply keeps_same; intros; apply gets_same |].
  intros [info|] _; [| now apply keeps_ret].
  unfold deleteAndUnloadPlugin.
  apply keeps_bind with (Q1 := fun l => forall d, d ∈ l -> is_Some (dependencies d)).
  { intros s Hs. simpl. split; [exact Hs | exact Hs]. }
  intros l Hl.
  eapply keeps_bind.
  { destruct (array_indexOf l info) as [i|].
    - apply keeps_set_installedPlugins. intros d Hd.
      apply Hl. exact (splice1_subset _ _ _ Hd).
    - now apply keeps_ret. }
  intros _ _. eapply keeps_bind.
  { apply keeps_same. intros. apply unloadWithDependents_same. }
  intros _ _. apply keeps_same. intros. apply fs_remove_same.
Qed.

End Keeps.

(** A method that leaves the registry alone, in a sequence. *)
Tactic Notation "keeps_unchanged" "as" ident(x) :=
  eapply keeps_bind;
  [ apply keeps_same; intros; solve [auto with registry | same_registry_tac]
  | intros x _ ].

Ltac keeps_unchanged := let x := fresh "x" in keeps_unchanged as x.

Ltac keeps_trivial := apply keeps_ret; exact I.

Section KeepsInstall.

Context (host : Host) (options : PluginManagerOptions (RegExp host)).
Variable rec : JsValue -> option string -> M IPluginInfo.
Variable fuel : nat.
Hypothesis rec_keeps :
  forall n v, keeps (rec n v) (fun d => is_Some (dependencies d)).

Lemma keeps_installDependencies_loop entries :
  forall acc,
    keeps (installDependencies_loop host options rec entries acc)
      (fun _ => True).
Proof.
  induction entries as [|[key v] rest IH]; intros acc; simpl.
  - now apply keeps_ret.
  - destruct (shouldIgnore host options key); [apply IH |].
    keeps_unchanged as available.
    eapply keeps_bind with (Q1 := fun _ => True); [| intros _ _; apply IH].
    destruct available; [keeps_trivial |].
    keeps_unchanged as installed.
    destruct installed; [keeps_trivial |].
    eapply keeps_bind; [apply rec_keeps | intros _ _; keeps_trivial].
Qed.

Lemma keeps_addPlugin plugin :
  is_Some (dependencies plugin) ->
  keeps (addPlugin host options rec plugin)
    (fun d => is_Some (dependencies d)).
Proof.
  intros Hplugin. unfold addPlugin, installDependencies.
  eapply keeps_bind with (Q1 := fun _ => True).
  { destruct (dependencies plugin);
      [apply keeps_installDependencies_loop | keeps_trivial]. }
  intros _ _.
  apply keeps_bind
    with (Q1 := fun l => forall d, d ∈ l -> is_Some (dependencies d)).
  { intros s Hs. simpl. split; exact Hs. }
  intros l Hl. eapply keeps_bind.
  { apply keeps_set_installedPlugins. intros d Hd.
    apply elem_of_app in Hd as [Hd|Hd]; [now apply Hl |].
    apply list_elem_of_singleton in Hd as ->. exact Hplugin. }
  intros _ _. apply keeps_ret. exact Hplugin.
Qed.

Lemma keeps_create_and_add n :
  keeps (pluginInfo <- createPluginInfo host options n ;;
         addPlugin host options rec pluginInfo)
    (fun d => is_Some (dependencies d)).
Proof.
  eapply keeps_bind; [apply keeps_createPluginInfo |].
  intros pluginInfo Hp. now apply keeps_addPlugin.
Qed.

Lemma keeps_uninstall_other (other : option IPluginInfo) n :
  keeps (if bool_decide (is_Some other) then uninstallLockFree fuel n
         else ret tt) (fun _ => True).
Proof.
  destruct (bool_decide (is_Some other));
    [apply keeps_uninstallLockFree | keeps_trivial].
Qed.

Lemma keeps_installFromNpmLockFree n v :
  keeps (installFromNpmLockFree host options rec fuel n v)
    (fun d => is_Some (dependencies d)).
Proof.
  unfold installFromNpmLockFree.
  destruct (negb (isValidPluginName n)); [apply keeps_throw |].
  keeps_unchanged. keeps_unchanged.
  eapply keeps_bind; [apply keeps_alreadyInstalled |].
  intros [installedInfo|] Hinst; [apply keeps_ret; now apply Hinst |].
  keeps_unchanged as other.
  eapply keeps_bind; [apply keeps_uninstall_other | intros _ _].
  keeps_unchanged as downloaded.
  eapply keeps_bind with (Q1 := fun _ => True);
    [| intros _ _; apply keeps_create_and_add].
  destruct (negb downloaded); [| keeps_trivial].
  keeps_unchanged. keeps_unchanged.
  apply keeps_same. intros. auto with registry.
Qed.

Lemma keeps_installFromGithubLockFree repository :
  keeps (installFromGithubLockFree host options rec fuel repository)
    (fun d => is_Some (dependencies d)).
Proof.
  unfold installFromGithubLockFree.
  keeps_unchanged. keeps_unchanged.
  destruct (negb (isValidPluginName _)); [apply keeps_throw |].
  eapply keeps_bind; [apply keeps_alreadyInstalled |].
  intros [installedInfo|] Hinst; [apply keeps_ret; now apply Hinst |].
  keeps_unchanged as other.
  eapply keeps_bind; [apply keeps_uninstall_other | intros _ _].
  keeps_unchanged as downloaded.
  eapply keeps_bind with (Q1 := fun _ => True);
    [| intros _ _; apply keeps_create_and_add].
  destruct (negb downloaded); [| keeps_trivial].
  keeps_unchanged. keeps_unchanged.
  apply keeps_same. intros. auto with registry.
Qed.

Lemma keeps_installLockFree_body n v :
  keeps (installLockFree_body host options rec fuel n v)
    (fun d => is_Some (dependencies d)).
Proof.
  unfold installLockFree_body.
  destruct (negb (isValidPluginName n)); [apply keeps_throw |].
  destruct (truthy v && isGithubRepo host (default "" v)).
  - apply keeps_installFromGithubLockFree.
  - apply keeps_installFromNpmLockFree.
Qed.

Lemma keeps_installFromPathLockFree loc opts :
  keeps (installFromPathLockFree host options rec fuel loc opts)
    (fun d => is_Some (dependencies d)).
Proof.
  unfold installFromPathLockFree.
  keeps_unchanged.
  destruct (negb (isValidPluginName _)); [apply keeps_throw |].
  eapply keeps_bind.
  { destruct (negb (force opts));
      [apply keeps_alreadyInstalled
      | apply keeps_ret; intros d Hd; discriminate Hd]. }
  intros [installedInfo|] Hinst; [apply keeps_ret; now apply Hinst |].
  keeps_unchanged as other.
  eapply keeps_bind; [apply keeps_uninstall_other | intros _ _].
  eapply keeps_bind with (Q1 := fun _ => True).
  { destruct (force opts); [keeps_trivial |].
    apply keeps_same. intros. auto with registry. }
  intros downloaded _.
  eapply keeps_bind with (Q1 := fun _ => True);
    [| intros _ _; apply keeps_create_and_add].
  destruct (negb downloaded); [| keeps_trivial].
  keeps_unchanged. apply keeps_same. intros. auto with registry.
Qed.

Lemma keeps_installFromCodeLockFree n code v :
  keeps (installFromCodeLockFree host options rec fuel n code v)
    (fun d => is_Some (dependencies d)).
Proof.
  unfold installFromCodeLockFree.
  destruct (negb (isValidPluginName n)); [apply keeps_throw |].
  destruct (negb (semver_valid host _)); [apply keeps_throw |].
  eapply keeps_bind.
  { destruct (negb (String.eqb _ _));
      [apply keeps_alreadyInstalled
      | apply keeps_ret; intros d Hd; discriminate Hd]. }
  intros [installedInfo|] Hinst; [apply keeps_ret; now apply Hinst |].
  keeps_unchanged as other.
  eapply keeps_bind; [apply keeps_uninstall_other | intros _ _].
  keeps_unchanged as downloaded.
  eapply keeps_bind with (Q1 := fun _ => True);
    [| intros _ _; apply keeps_create_and_add].
  destruct (negb downloaded); [| keeps_trivial].
  keeps_unchanged. keeps_unchanged. keeps_unchanged.
  apply keeps_same. intros. auto with registry.
Qed.

End KeepsInstall.

Section KeepsPublic.

Context (host : Host) (options : PluginManagerOptions (RegExp host)).

Lemma keeps_installLockFree fuel :
  forall n v,
    keeps (installLockFree host options fuel n v)
      (fun d => is_Some (dependencies d)).
Proof.
  induction fuel as [|fuel IH]; intros n v; simpl.
  - intros s _. exact I.
  - apply keeps_installLockFree_body. exact IH.
Qed.

(** Under a registry whose descriptors all have a dependency object the
    cascade is never rejected: the lookup [installed.dependencies[name]]
    always finds an object to look into. *)
Lemma unloadWithDependents_not_rejected fuel :
  forall plugin s,
    defined_dependencies s ->
    forall e s', unloadWithDependents fuel plugin s <> Rejected e s'.
Proof.
  induction fuel as [|fuel IH]; intros plugin s Hs e s'; simpl;
    [discriminate |].
  unfold bind at 1. unfold unload, call.
  unfold bind at 1. unfold get_installedPlugins.
  cbn [installedPlugins files calls].
  set (s1 := mkState _ _ _).
  assert (Hs1 : defined_dependencies s1) by exact Hs.
  assert (Hl : forall d, d ∈ installedPlugins s -> is_Some (dependencies d))
    by exact Hs.
  clearbody s1. revert s1 Hs1.
  induction (installedPlugins s) as [|installed l IHl]; intros s1 Hs1; simpl;
    [discriminate |].
  unfold bind at 1.
  destruct (Hl installed) as [deps Hdeps]; [left |]. rewrite Hdeps.
  destruct (truthy_member (property deps (name plugin))).
  - pose proof (unloadWithDependents_same fuel installed s1) as Hsame.
    destruct (unloadWithDependents fuel installed s1) as [[] s2|e2 s2|] eqn:E;
      [| exfalso; exact (IH installed s1 Hs1 e2 s2 E) | discriminate].
    apply IHl.
    + intros d Hd. apply Hl. now right.
    + intros d. simpl in Hsame. unfold same_registry in Hsame.
      rewrite Hsame. apply Hs1.
  - simpl. apply IHl; [| exact Hs1]. intros d Hd. apply Hl. now right.
Qed.

End KeepsPublic.

Section KeepsGuarded.

Context (host : Host) (options : PluginManagerOptions (RegExp host)).

Lemma syncLock_same s : after (same_registry s) (syncLock host options s).
Proof.
  unfold syncLock. simpl.
  destruct (lockFile_lock host _ _ _ _); reflexivity.
Qed.

Lemma syncUnlock_same s : after (same_registry s) (syncUnlock host options s).
Proof.
  unfold syncUnlock. simpl.
  destruct (lockFile_unlock host _ _); reflexivity.
Qed.

Lemma keeps_try_finally {A} (body : M A) (fin : M unit) Q :
  keeps body Q -> keeps fin (fun _ => True) -> keeps (try_finally body fin) Q.
Proof.
  intros Hbody Hfin s Hs. specialize (Hbody s Hs). unfold try_finally.
  destruct (body s) as [a s1|e s1|]; try exact I.
  - destruct Hbody as [Ha Hs1]. specialize (Hfin s1 Hs1).
    destruct (fin s1); try assumption. split; [exact Ha | apply Hfin].
  - specialize (Hfin s1 Hbody). destruct (fin s1); try assumption. apply Hfin.
Qed.

Lemma keeps_guarded {A} (body : M A) Q :
  keeps body Q -> keeps (guarded host options body) Q.
Proof.
  intros Hbody. unfold guarded.
  eapply keeps_bind;
    [apply keeps_same; intros; apply fs_ensureDir_same | intros _ _].
  eapply keeps_bind;
    [apply keeps_same; intros; apply syncLock_same | intros _ _].
  apply keeps_try_finally; [exact Hbody |].
  apply keeps_same. intros. apply syncUnlock_same.
Qed.

End KeepsGuarded.

(** ** The dependency resolver *)

Section Resolver.

Context (host : Host) (options : PluginManagerOptions (RegExp host)).
Variable rec : JsValue -> option string -> M IPluginInfo.

(** [addPlugin] in terms of the outcome of [installDependencies]. *)
Lemma addPlugin_outcome plugin s :
  addPlugin host options rec plugin s
  = match installDependencies host options rec plugin s with
    | Returned _ s1 =>
        Returned plugin
          (mkState (installedPlugins s1 ++ [plugin]) (files s1) (calls s1))
    | Rejected e s1 => Rejected e s1
    | OutOfFuel => OutOfFuel
    end.
Proof.
  unfold addPlugin, bind.
  destruct (installDependencies host options rec plugin s); reflexivity.
Qed.

(** One turn of the loop of [installDependencies]. *)
Lemma installDependencies_loop_cons key range rest acc s :
  installDependencies_loop host options rec ((key, range) :: rest) acc s
  = if shouldIgnore host options key
    then installDependencies_loop host options rec rest acc s
    else
      match isModuleAvailableFromHost host options key range s with
      | Returned true s0 =>
          installDependencies_loop host options rec rest
            (acc ++ [(key, range)]) s0
      | Returned false s0 =>
          match alreadyInstalled host key (Some range) s0 with
          | Some _ =>
              installDependencies_loop host options rec rest
                (acc ++ [(key, range)]) s0
          | None =>
              match rec (JsString key) (Some range) s0 with
              | Returned _ s1 =>
                  installDependencies_loop host options rec rest
                    (acc ++ [(key, range)]) s1
              | Rejected e s1 => Rejected e s1
              | OutOfFuel => OutOfFuel
              end
          end
      | Rejected e s0 => Rejected e s0
      | OutOfFuel => OutOfFuel
      end.
Proof.
  simpl. destruct (shouldIgnore host options key); [reflexivity |].
  unfold bind at 1.
  destruct (isModuleAvailableFromHost host options key range s)
    as [[|] s0|e s0|]; try reflexivity.
  unfold bind at 1. unfold bind at 1. unfold gets.
  destruct (alreadyInstalled host key (Some range) s0); [reflexivity |].
  unfold bind at 1.
  destruct (rec (JsString key) (Some range) s0); reflexivity.
Qed.

End Resolver.

(** ** Reading a manifest *)

Section ReadManifest.

Lemma fileExists_readFile p t :
  fs.fileExists p t = true <-> exists c, fs.readFile p t = Some c.
Proof.
  unfold fs.fileExists, fs.readFile.
  destruct (fs.lookup p t) as [[|c]|]; split; eauto;
    try discriminate; intros [? ?]; discriminate.
Qed.

Lemma truthy_Some v : truthy v = true <-> exists s, v = Some s /\ s <> "".
Proof.
  destruct v as [s|]; simpl.
  - destruct (String.eqb_spec s ""); simpl; split;
      try discriminate; eauto.
    + intros (s' & [= <-] & Hne). congruence.
  - split; [discriminate | intros (s & E & _); discriminate].
Qed.

(** What [readPackageJsonFromPath] does, case by case. *)
Lemma readPackageJsonFromPath_outcome loc s :
  readPackageJsonFromPath loc s
  = if fs.fileExists (Path.join loc "package.json") (files s) then
      match fs.readFile (Path.join loc "package.json") (files s) with
      | Some (Json j) =>
          if truthy (json_name j) && truthy (json_version j)
          then Returned j
                 (logged [FileExists (Path.join loc "package.json");
                          ReadFile (Path.join loc "package.json")] s)
          else Rejected (PackageJsonIncomplete loc)
                 (logged [FileExists (Path.join loc "package.json");
                          ReadFile (Path.join loc "package.json")] s)
      | Some (Text _) =>
          Rejected JsonSyntaxError
            (logged [FileExists (Path.join loc "package.json");
                     ReadFile (Path.join loc "package.json")] s)
      | None =>
          Rejected FileSystemError
            (logged [FileExists (Path.join loc "package.json");
                     ReadFile (Path.join loc "package.json")] s)
      end
    else Rejected (PackageJsonMissing loc)
           (logged [FileExists (Path.join loc "package.json")] s).
Proof.
  unfold readPackageJsonFromPath, bind, fs_fileExists, fs_readFile, bind,
    call, read_files, logged. simpl.
  destruct (fs.fileExists _ (files s)); simpl; [| reflexivity].
  rewrite <- app_assoc. simpl.
  destruct (fs.readFile _ (files s)) as [[txt|j]|]; simpl; try reflexivity.
  destruct (truthy (json_name j)), (truthy (json_version j)); reflexivity.
Qed.

Lemma readPackageJsonFromPath_Returned loc s j s' :
  readPackageJsonFromPath loc s = Returned j s' ->
  fs.readFile (Path.join loc "package.json") (files s) = Some (Json j)
  /\ truthy (json_name j) = true /\ truthy (json_version j) = true
  /\ s' = logged [FileExists (Path.join loc "package.json");
                  ReadFile (Path.join loc "package.json")] s.
Proof.
  rewrite readPackageJsonFromPath_outcome.
  destruct (fs.fileExists _ _); [|discriminate].
  destruct (fs.readFile _ _) as [[txt|j0]|]; try discriminate.
  destruct (truthy (json_name j0)) eqn:Hn, (truthy (json_version j0)) eqn:Hv;
    try discriminate.
  intros [= <- <-]. auto.
Qed.

Lemma readPackageJsonFromPath_accepts loc s j :
  fs.readFile (Path.join loc "package.json") (files s) = Some (Json j) ->
  truthy (json_name j) = true -> truthy (json_version j) = true ->
  readPackageJsonFromPath loc s
  = Returned j (logged [FileExists (Path.join loc "package.json");
                        ReadFile (Path.join loc "package.json")] s).
Proof.
  intros Hr Hn Hv. rewrite readPackageJsonFromPath_outcome.
  assert (He : fs.fileExists (Path.join loc "package.json") (files s) = true)
    by (apply fileExists_readFile; eauto).
  now rewrite He, Hr, Hn, Hv.
Qed.

End ReadManifest.

(** * The claims of the specification *)

(** ** C1: dependency cycles *)

Module C1.

Import Examples.

(** One turn of the cycle: a request of the cycle ends in the nested request
    for the other package, again a request of the cycle; if that one has no
    outcome, this one has none. *)
Lemma cycle_step rec fuel n s :
  (forall m s', in_cycle m s' ->
                rec (JsString m) (Some "^1.0.0") s' = OutOfFuel) ->
  in_cycle n s ->
  installLockFree_body cyclic_registry (Fragment.options []) rec fuel
    (JsString n) (Some "^1.0.0") s = OutOfFuel.
Proof.
  intros Hrec [Hreg Hcase]. destruct s as [reg t c]. simpl in Hreg, Hcase.
  subst reg.
  destruct Hcase as [[-> ->]|[[-> ->]|[[->| ->] ->]]]; vm_compute;
    match goal with
    | |- context [rec ?m ?w ?s'] =>
        replace (rec m w s') with (@OutOfFuel IPluginInfo);
        [reflexivity | symmetry; apply Hrec; split; [reflexivity |]]
    end.
  - right; left. split; reflexivity.
  - right; right. split; [left |]; reflexivity.
  - right; right. split; [right |]; reflexivity.
  - right; right. split; [left |]; reflexivity.
Qed.

Lemma cycle_diverges fuel :
  forall n s,
    in_cycle n s ->
    installLockFree cyclic_registry (Fragment.options []) fuel (JsString n)
      (Some "^1.0.0") s = OutOfFuel.
Proof.
  induction fuel as [|fuel IH]; intros n s Hn; simpl; [reflexivity |].
  apply cycle_step; assumption.
Qed.

(** C1, as stated, fails: [a] depends on [b ^1.0.0] and [b] on [a ^1.0.0],
    both are published at 1.0.0, so the ranges of the cycle are compatible.
    [install("a", "^1.0.0")] on an empty store has no outcome, whatever the
    fuel: no member of the cycle is ever registered, because each waits for
    the installation of its dependency before it is appended. *)
Lemma compatible_cycle_never_returns :
  Fragment.satisfies "1.0.0" "^1.0.0" = true
  /\ npm_get cyclic_registry "a" "^1.0.0" = Some (Fragment.published "a" "1.0.0")
  /\ npm_get cyclic_registry "b" "^1.0.0" = Some (Fragment.published "b" "1.0.0")
  /\ never_returns
       (fun fuel => install cyclic_registry (Fragment.options []) fuel
                      (JsString "a") (Some "^1.0.0"))
       Fragment.empty_state.
Proof.
  split; [reflexivity |]. split; [reflexivity |]. split; [reflexivity |].
  intros fuel.
  assert (Hacq : (fs_ensureDir (pluginsPath (Fragment.options [])) ;;
                  syncLock cyclic_registry (Fragment.options []))
                   Fragment.empty_state
                 = Returned tt
                     (mkState [] tree_locked
                        [EnsureDir ["plugin_packages"];
                         Lock ["plugin_packages"; "install.lock"]]))
    by (vm_compute; reflexivity).
  change (guarded cyclic_registry (Fragment.options [])
            (installLockFree cyclic_registry (Fragment.options []) fuel
               (JsString "a") (Some "^1.0.0")) Fragment.empty_state
          = OutOfFuel).
  rewrite (guarded_acquired cyclic_registry (Fragment.options []) _ _ _ Hacq).
  unfold try_finally.
  rewrite cycle_diverges; [reflexivity |].
  split; [reflexivity |]. left. split; reflexivity.
Qed.

Section Resolver.

Context (host : Host) (options : PluginManagerOptions (RegExp host)).

Lemma isModuleAvailableFromHost_answer n v s :
exists s',
  isModuleAvailableFromHost host options n v s
  = Returned (host_provides host options n v) s'
  /\ installedPlugins s' = installedPlugins s /\ files s' = files s.
Proof.
unfold isModuleAvailableFromHost, host_provides.
destruct (hostRequire options) as [r|]; [|now exists s].
unfold try_catch, bind, call. cbn.
destruct (r (n +:+ "/package.json")); eexists; split; reflexivity || auto.
Qed.

Lemma isAlreadyDownloaded_downloaded n v s :
exists s',
  isAlreadyDownloaded host options n v s
  = Returned (downloaded options n v (files s)) s'
  /\ installedPlugins s' = installedPlugins s /\ files s' = files s.
Proof.
unfold isAlreadyDownloaded, downloaded, getPluginLocation.
unfold bind at 1. unfold fs_directoryExists, bind, call, read_files.
cbn [installedPlugins files calls].
destruct (fs.directoryExists _ (files s)); cbn [negb andb];
  [|eexists; split; [reflexivity | auto]].
unfold try_catch, bind. rewrite readPackageJsonFromPath_outcome.
cbn [installedPlugins files calls logged].
destruct (fs.fileExists _ (files s)) eqn:Ex.
- destruct (fs.readFile _ (files s)) as [[txt|j]|] eqn:Er;
    try (eexists; split; [reflexivity | auto]).
  destruct (truthy (json_name j) && truthy (json_version j)) eqn:Et;
    cbn [andb]; eexists; (split; [reflexivity | auto]).
- assert (Hr : fs.readFile
                 (Path.join (Path.join (pluginsPath options) n) "package.json")
                 (files s) = None).
  { destruct (fs.readFile _ _) eqn:Er; [|reflexivity].
    assert (fs.fileExists
              (Path.join (Path.join (pluginsPath options) n) "package.json")
              (files s) = true) by (apply fileExists_readFile; eauto).
    congruence. }
  rewrite Hr. eexists; split; [reflexivity | auto].
Qed.

Lemma loop_app rec pre : forall rest acc s,
installDependencies_loop host options rec (pre ++ rest) acc s
= match installDependencies_loop host options rec pre acc s with
  | Returned acc' s' => installDependencies_loop host options rec rest acc' s'
  | Rejected e s' => Rejected e s'
  | OutOfFuel => OutOfFuel
  end.
Proof.
induction pre as [|[key range] pre IH]; intros rest acc s; [reflexivity|].
rewrite <- app_comm_cons, !installDependencies_loop_cons.
destruct (shouldIgnore host options key); [apply IH|].
destruct (isModuleAvailableFromHost host options key range s)
  as [[] s0|e s0|]; try reflexivity; [apply IH|].
destruct (alreadyInstalled host key (Some range) s0); [apply IH|].
destruct (rec (JsString key) (Some range) s0); try reflexivity. apply IH.
Qed.

Lemma loop_ignored rec pre : forall acc s,
Forall (fun entry => shouldIgnore host options entry.1 = true) pre ->
installDependencies_loop host options rec pre acc s = Returned acc s.
Proof.
induction pre as [|[key range] pre IH]; intros acc s Hpre; [reflexivity|].
inversion Hpre as [|? ? Hkey Hrest]; subst. cbn in Hkey.
rewrite installDependencies_loop_cons, Hkey. now apply IH.
Qed.

Lemma alreadyInstalled_first key range s :
alreadyInstalled host key (Some range) s
= match List.find (fun p => String.eqb (name p) key) (installedPlugins s) with
  | Some d =>
      if String.eqb range "" || semver_satisfies host (version d) range
      then Some d else None
  | None => None
  end.
Proof.
unfold alreadyInstalled, getInfo, getFullInfo.
destruct (List.find _ _) as [d|]; [|reflexivity]. cbn.
destruct (String.eqb range ""); cbn; [reflexivity|].
now destruct (semver_satisfies host (version d) range).
Qed.

Lemma loop_preserves rec (P : list IPluginInfo -> Prop) :
(forall n v s, P (installedPlugins s) ->
               after (fun s' => P (installedPlugins s')) (rec n v s)) ->
forall entries acc s,
  P (installedPlugins s) ->
  after (fun s' => P (installedPlugins s'))
    (installDependencies_loop host options rec entries acc s).
Proof.
intros Hrec. induction entries as [|[key range] rest IH]; intros acc s Hs.
- exact Hs.
- rewrite installDependencies_loop_cons.
  destruct (shouldIgnore host options key); [now apply IH|].
  destruct (isModuleAvailableFromHost_answer key range s) as (s0 & -> & Hreg & _).
  rewrite <- Hreg in Hs.
  destruct (host_provides host options key range); [now apply IH|].
  destruct (alreadyInstalled host key (Some range) s0); [now apply IH|].
  pose proof (Hrec (JsString key) (Some range) s0 Hs) as Hr.
  destruct (rec (JsString key) (Some range) s0) as [d s1|e s1|];
    cbn in Hr |- *; [now apply IH | exact Hr | exact I].
Qed.

Section Closed.

Context (member : string -> Prop) (published : string -> PackageInfo)
(declared : string -> list (string * string)) (store_ok : fs.tree -> Prop).
Hypothesis closed :
closed_under_dependencies host options member published declared store_ok.

Lemma busy_same s s' :
busy member store_ok s -> installedPlugins s' = installedPlugins s -> files s' = files s ->
busy member store_ok s'.
Proof.
intros [Hreg Hst] Hr Hf. split; [|now rewrite Hf].
intros m Hm. rewrite (getFullInfo_registry m s' s Hr). now apply Hreg.
Qed.

Lemma createPluginInfo_declared n deps s :
holds_manifest options n deps (files s) ->
exists d s',
createPluginInfo host options n s = Returned d s'
/\ dependencies d = Some deps
/\ installedPlugins s' = installedPlugins s /\ files s' = files s.
Proof.
intros (j & Hr & Hn & Hv & Hdeps). unfold createPluginInfo.
erewrite bind_Returned
by (apply readPackageJsonFromPath_accepts; eassumption).
cbv beta zeta. eexists _, _. split; [reflexivity|]. cbn. rewrite Hdeps. auto.
Qed.

Lemma materialised n s :
member n -> busy member store_ok s ->
exists s',
(downloaded_ <- isAlreadyDownloaded host options n
                  (pkg_version (published n)) ;;
 (if negb downloaded_ then
    removeDownloaded host options n ;;
    call (NpmDownload (pluginsPath options) (published n)) ;;
    collaborator_writes
      (npm_download host (pluginsPath options) (published n))
  else ret tt)) s = Returned tt s'
/\ installedPlugins s' = installedPlugins s
/\ store_ok (files s')
/\ holds_manifest options n (declared n) (files s').
Proof.
intros Hn [Hreg Hst].
destruct (isAlreadyDownloaded_downloaded n (pkg_version (published n)) s)
as (s1 & Hd & Hr1 & Hf1).
erewrite bind_Returned by exact Hd. cbv beta.
destruct (downloaded options n (pkg_version (published n)) (files s)) eqn:Hdl;
cbn [negb].
- exists s1. split; [reflexivity|]. split; [assumption|].
rewrite Hf1. split; [assumption|].
unfold downloaded in Hdl. apply andb_true_iff in Hdl as [_ Hdl].
destruct (fs.readFile _ (files s)) as [[txt|j]|] eqn:Hr; try discriminate.
apply andb_true_iff in Hdl as [Hdl Hver].
apply andb_true_iff in Hdl as [Hdl Hname].
apply andb_true_iff in Hdl as [Htn Htv].
apply bool_decide_eq_true in Hname, Hver.
exists j. repeat split; try assumption.
exact (member_found _ _ _ _ _ _ closed n (files s) j Hn Hst Hr Hname Hver).
- destruct (member_downloads _ _ _ _ _ _ closed n (files s) Hn Hst Hdl)
  as (t' & Hdown & Hst' & Hman).
unfold after_removeDownloaded in Hdown. rewrite <- Hf1 in Hdown.
fold (getPluginLocation host options n) in Hdown.
destruct (fs.directoryExists (getPluginLocation host options n) (files s1))
  eqn:Hdir.
+ eexists. split.
  * erewrite bind_Returned by (apply removeDownloaded_existing; exact Hdir).
    cbv beta. erewrite bind_Returned by reflexivity. cbv beta.
    unfold collaborator_writes. cbn [files]. rewrite Hdown. reflexivity.
  * cbn. split; [exact Hr1 | split; assumption].
+ eexists. split.
  * erewrite bind_Returned by (apply removeDownloaded_missing; exact Hdir).
    cbv beta. erewrite bind_Returned by reflexivity. cbv beta.
    unfold collaborator_writes. cbn [files]. rewrite Hdown. reflexivity.
  * cbn. split; [exact Hr1 | split; assumption].
Qed.

Lemma closed_step rec fuel n v s :
(forall m w s', member m -> for_npm host w -> busy member store_ok s' ->
              rec (JsString m) w s' = OutOfFuel) ->
member n -> for_npm host v -> busy member store_ok s ->
installLockFree_body host options rec fuel (JsString n) v s = OutOfFuel.
Proof.
intros Hrec Hn Hv Hs.
destruct (member_resolved _ _ _ _ _ _ closed n (default NPM_LATEST_TAG v) Hn)
as [Hget Hname].
unfold installLockFree_body.
rewrite (member_valid _ _ _ _ _ _ closed n Hn). cbn [negb].
unfold for_npm in Hv. rewrite Hv.
unfold installFromNpmLockFree.
rewrite (member_valid _ _ _ _ _ _ closed n Hn). cbn [negb str].
erewrite bind_Returned by reflexivity. cbv beta.
rewrite Hget. erewrite bind_Returned by reflexivity. cbv beta.
rewrite Hname.
set (s1 := mkState (installedPlugins s) (files s)
           (calls s ++ [NpmGet n (default NPM_LATEST_TAG v)])).
assert (Hs1 : busy member store_ok s1) by (now apply (busy_same s)).
assert (Hnone : forall w, alreadyInstalled host n w s1 = None).
{ intros w. unfold alreadyInstalled, getInfo.
now rewrite (proj1 Hs1 n Hn). }
erewrite bind_Returned by reflexivity. cbv beta. rewrite Hnone.
erewrite bind_Returned by reflexivity. cbv beta. rewrite Hnone.
rewrite bool_decide_eq_false_2 by (intros [? ?]; discriminate).
erewrite bind_Returned by reflexivity. cbv beta.
destruct (materialised n s1 Hn Hs1) as (s2 & Hmat & Hr2 & Hst2 & Hman).
apply bind_inv_Returned in Hmat as (b & sb & Hb & Hmat).
erewrite bind_Returned by exact Hb. cbv beta.
erewrite bind_Returned by exact Hmat. cbv beta.
destruct (createPluginInfo_declared n (declared n) s2 Hman)
as (d & s3 & Hinfo & Hdeps & Hr3 & Hf3).
erewrite bind_Returned by exact Hinfo. cbv beta.
rewrite addPlugin_outcome. unfold installDependencies. rewrite Hdeps.
destruct (member_depends _ _ _ _ _ _ closed n Hn)
as (pre & key & range & rest & -> & Hpre & Hkey & Hhost & Hmem & Hnpm).
rewrite loop_app, (loop_ignored rec pre [] s3 Hpre).
rewrite installDependencies_loop_cons, Hkey.
destruct (isModuleAvailableFromHost_answer key range s3)
as (s4 & -> & Hr4 & Hf4).
rewrite Hhost.
assert (Hs4 : busy member store_ok s4).
{ split.
- intros m Hm. rewrite (getFullInfo_registry m s4 s1) by congruence.
  now apply Hs1.
- now rewrite Hf4, Hf3. }
assert (Hkey4 : alreadyInstalled host key (Some range) s4 = None).
{ unfold alreadyInstalled, getInfo. now rewrite (proj1 Hs4 key Hmem). }
rewrite Hkey4, (Hrec key (Some range) s4 Hmem Hnpm Hs4). reflexivity.
Qed.

Lemma closed_never_returns fuel :
forall n v s,
member n -> for_npm host v -> busy member store_ok s ->
installLockFree host options fuel (JsString n) v s = OutOfFuel.
Proof.
induction fuel as [|fuel IH]; intros n v s Hn Hv Hs; [reflexivity|].
cbn [installLockFree]. now apply closed_step.
Qed.

End Closed.

(** C1, amended: there is no cycle detection.  When the resolver reaches a
  dependency entry that is neither ignored nor available from the host,
  wherever the entry stands among the dependencies, it looks up the first
  registered descriptor of that name: the entry is skipped without recursing
  exactly when there is one and the range is empty or its version satisfies
  the range; otherwise the install request is made for it, and when that
  request is rejected or has no outcome, so is, or neither has, the
  resolver.  [addPlugin] pushes the descriptor only after
  [installDependencies] has returned: whatever the nested installs preserve
  of the registry holds until then, and still holds, nothing being pushed,
  when the dependency installation is rejected.  Hence a set of packages
  none of which is registered, each of which declares, after ignored entries
  only, a member that the host does not provide, never finishes installing:
  when the registry resolves every member and the store materialises it, the
  install of a member has no outcome whatever the fuel, and no descriptor is
  appended. *)
Theorem registered_after_dependencies :
(forall rec pre key range rest s acc0 s0 s1,
    installDependencies_loop host options rec pre [] s = Returned acc0 s0 ->
    shouldIgnore host options key = false ->
    isModuleAvailableFromHost host options key range s0 = Returned false s1 ->
    installDependencies_loop host options rec (pre ++ (key, range) :: rest)
      [] s
    = let request :=
        match rec (JsString key) (Some range) s1 with
        | Returned _ s2 =>
            installDependencies_loop host options rec rest
              (acc0 ++ [(key, range)]) s2
        | Rejected e s2 => Rejected e s2
        | OutOfFuel => OutOfFuel
        end in
      match List.find (fun p => String.eqb (name p) key)
              (installedPlugins s1) with
      | Some d =>
          if String.eqb range "" || semver_satisfies host (version d) range
          then installDependencies_loop host options rec rest
                 (acc0 ++ [(key, range)]) s1
          else request
      | None => request
      end)
/\ (forall rec (P : list IPluginInfo -> Prop),
       (forall n v s, P (installedPlugins s) ->
                      after (fun s' => P (installedPlugins s')) (rec n v s)) ->
       forall plugin s,
         P (installedPlugins s) ->
         match installDependencies host options rec plugin s with
         | Returned _ s1 =>
             P (installedPlugins s1)
             /\ addPlugin host options rec plugin s
                = Returned plugin
                    (mkState (installedPlugins s1 ++ [plugin]) (files s1)
                       (calls s1))
         | Rejected e s1 =>
             P (installedPlugins s1)
             /\ addPlugin host options rec plugin s = Rejected e s1
         | OutOfFuel => addPlugin host options rec plugin s = OutOfFuel
         end)
/\ (forall member published declared store_ok,
       closed_under_dependencies host options member published declared
         store_ok ->
       forall n v s,
         member n -> for_npm host v -> busy member store_ok s ->
         never_returns
           (fun fuel => installLockFree host options fuel (JsString n) v) s).
Proof.
split; [|split].
- intros rec pre key range rest s acc0 s0 s1 Hpre Hkey Hhost.
  rewrite loop_app, Hpre, installDependencies_loop_cons, Hkey, Hhost.
  rewrite alreadyInstalled_first. cbv zeta.
  destruct (List.find _ _) as [d|]; [|reflexivity].
  now destruct (String.eqb range "" || semver_satisfies host (version d) range).
- intros rec P Hrec plugin s Hs. rewrite addPlugin_outcome.
  unfold installDependencies.
  destruct (dependencies plugin) as [deps|].
  + pose proof (loop_preserves rec P Hrec deps [] s Hs) as Hloop.
    destruct (installDependencies_loop host options rec deps [] s)
      as [a s1|e s1|]; cbn in Hloop |- *; auto.
  + cbn. auto.
- intros member published declared store_ok Hclosed n v s Hn Hv Hs fuel.
  now apply (closed_never_returns member published declared store_ok Hclosed).
Qed.

End Resolver.

(** The cycle [a -> b -> a] is such a set. *)
Lemma cycle_closed :
  closed_under_dependencies cyclic_registry (Fragment.options [])
    Cycle.member Cycle.published Cycle.declared Cycle.store_ok.
Proof.
  split.
  - intros n [-> | ->]; reflexivity.
  - intros n v [-> | ->]; split; reflexivity.
  - intros n [-> | ->].
    + exists [], "b", "^1.0.0", []. split; [reflexivity|].
      split; [constructor|]. split; [reflexivity|]. split; [reflexivity|].
      split; [now right | reflexivity].
    + exists [], "a", "^1.0.0", []. split; [reflexivity|].
      split; [constructor|]. split; [reflexivity|]. split; [reflexivity|].
      split; [now left | reflexivity].
  - intros n t j [-> | ->] Ht Hr _ _; unfold Cycle.store_ok in Ht;
      repeat (apply elem_of_cons in Ht as [-> | Ht]);
      try (now apply elem_of_nil in Ht);
      vm_compute in Hr; first [discriminate Hr | injection Hr as <-; reflexivity].
  - intros n t [-> | ->] Ht; unfold Cycle.store_ok in Ht;
      repeat (apply elem_of_cons in Ht as [-> | Ht]);
      try (now apply elem_of_nil in Ht); vm_compute; reflexivity.
  - intros n t [-> | ->] Ht Hdl; unfold Cycle.store_ok in Ht;
      repeat (apply elem_of_cons in Ht as [-> | Ht]);
      try (now apply elem_of_nil in Ht);
      vm_compute in Hdl; try discriminate Hdl;
      (eexists; split; [vm_compute; reflexivity |]; split;
       [apply (bool_decide_unpack _); vm_compute; exact I
       | eexists; split; [vm_compute; reflexivity |];
         repeat split; vm_compute; reflexivity]).
Qed.

(** The amended statement at the cycle [a -> b -> a], on the store once the
    lock is held: [install("a", "^1.0.0")] has no outcome. *)
Lemma registered_after_dependencies_witness :
  never_returns
    (fun fuel => installLockFree cyclic_registry (Fragment.options [])
                   fuel (JsString "a") (Some "^1.0.0"))
    (mkState [] tree_locked []).
Proof.
  refine (proj2 (proj2 (registered_after_dependencies cyclic_registry
                          (Fragment.options [])))
            Cycle.member Cycle.published Cycle.declared Cycle.store_ok
            cycle_closed "a" (Some "^1.0.0") (mkState [] tree_locked [])
            _ eq_refl _).
  - now left.
  - split; [reflexivity|]. apply list_elem_of_here.
Defined.

End C1.

(** ** C2: where the validation of the arguments takes place *)

Module C2.

Import Examples.

(** C2, as stated, fails: [install(".secret")] and [install("a\b")], run on a
    store whose root directory does not exist yet, are rejected with the
    validation error only after the root directory has been created and the
    lock file taken (and released). *)
Lemma validation_follows_store_creation_and_lock :
  fs.lookup ["plugin_packages"] (files Fragment.empty_state) = None
  /\ (exists s',
        install (no_registry None) (Fragment.options []) 1 dot_secret None
          Fragment.empty_state = Rejected (InvalidPluginName dot_secret) s'
        /\ fs.lookup ["plugin_packages"] (files s') = Some Dir
        /\ calls s' = [EnsureDir ["plugin_packages"];
                       Lock ["plugin_packages"; "install.lock"];
                       Unlock ["plugin_packages"; "install.lock"]])
  /\ (exists s',
        install (no_registry None) (Fragment.options []) 1 a_backslash_b None
          Fragment.empty_state = Rejected (InvalidPluginName a_backslash_b) s'
        /\ fs.lookup ["plugin_packages"] (files s') = Some Dir
        /\ calls s' = [EnsureDir ["plugin_packages"];
                       Lock ["plugin_packages"; "install.lock"];
                       Unlock ["plugin_packages"; "install.lock"]]).
Proof.
  split; [reflexivity |].
  split; eexists; (split; [vm_compute; reflexivity |]);
    split; vm_compute; reflexivity.
Qed.

Section Validation.

Context (host : Host) (options : PluginManagerOptions (RegExp host)).

(** C2, amended: [install], [installFromNpm], [installFromCode] and
    [uninstall] validate the name (and [installFromCode] the version) inside
    the guarded section.  When the store root can be created and the lock
    taken and released, an invalid argument makes the method fail with the
    validation error after exactly three calls to the collaborators:
    creation of the store root, acquisition of the lock, release of the
    lock.  Nothing else is read or written and the registry is unchanged. *)
Theorem invalid_argument_rejected_under_lock fuel n v code s t :
  fs.ensureDir (pluginsPath options) (files s) = Some t ->
  lockFile_lock host (lockLocation host options) (lockWait options)
    (lockStale options) t = None ->
  lockFile_unlock host (lockLocation host options)
    (files (acquired options t s)) = None ->
  let s' := released options (acquired options t s) in
  installedPlugins s' = installedPlugins s
  /\ calls s' = calls s ++ [EnsureDir (pluginsPath options);
                            Lock (lockLocation host options);
                            Unlock (lockLocation host options)]
  /\ (isValidPluginName n = false ->
      install host options (S fuel) n v s = Rejected (InvalidPluginName n) s'
      /\ installFromNpm host options fuel n v s
         = Rejected (InvalidPluginName n) s'
      /\ installFromCode host options fuel n code v s
         = Rejected (InvalidPluginName n) s'
      /\ uninstall host options fuel n s = Rejected (InvalidPluginName n) s')
  /\ (isValidPluginName n = true ->
      semver_valid host (default "0.0.0" v) = false ->
      installFromCode host options fuel n code v s
      = Rejected (InvalidPluginVersion (default "0.0.0" v)) s').
Proof.
  intros Hdir Hlock Hunlock s'.
  pose proof (acquire_ok host options s t Hdir Hlock) as Hacq.
  assert (Hg : forall A (body : M A) e,
             body (acquired options t s) = Rejected e (acquired options t s) ->
             guarded host options body s = Rejected e s').
  { intros A body e Hbody.
    rewrite (guarded_acquired host options body s _ Hacq).
    unfold try_finally. rewrite Hbody.
    now rewrite (syncUnlock_ok host options _ Hunlock). }
  split; [reflexivity |].
  split; [simpl; rewrite <- app_assoc; reflexivity |].
  split.
  - intros Hn. repeat split; apply Hg.
    + simpl. unfold installLockFree_body. now rewrite Hn.
    + unfold installFromNpmLockFree. now rewrite Hn.
    + unfold installFromCodeLockFree. now rewrite Hn.
    + unfold uninstallLockFree. now rewrite Hn.
  - intros Hn Hv. apply Hg.
    unfold installFromCodeLockFree. rewrite Hn. simpl. now rewrite Hv.
Qed.

End Validation.

(** The amended statement at [install(".secret")] on an empty store. *)
Lemma invalid_argument_rejected_under_lock_witness :
  install (no_registry None) (Fragment.options []) 1 dot_secret None
    Fragment.empty_state
  = Rejected (InvalidPluginName dot_secret)
      (released (Fragment.options [])
         (acquired (Fragment.options []) [(["plugin_packages"], Dir)]
            Fragment.empty_state)).
Proof.
  refine (proj1 (proj1 (proj2 (proj2
    (invalid_argument_rejected_under_lock (no_registry None)
       (Fragment.options []) 0 dot_secret None "" Fragment.empty_state
       [(["plugin_packages"], Dir)] _ _ _))) _)).
  - vm_compute. reflexivity.
  - vm_compute. reflexivity.
  - vm_compute. reflexivity.
  - vm_compute. reflexivity.
Defined.

End C2.

(** ** C3: what the caller observes when the lock is released *)

Module C3.

Import Examples.

(** C3, as stated, fails: [install(".secret")] is rejected by the validation
    of the name inside the guarded section, the release of the lock then
    reports an error, and the caller observes the release error; the
    validation error is lost. *)
Lemma release_failure_masks_primary_error :
  exists s1 s2 s3,
    (fs_ensureDir ["plugin_packages"] ;;
     syncLock (no_registry (Some "EPERM")) (Fragment.options []))
      Fragment.empty_state = Returned tt s1
    /\ installLockFree (no_registry (Some "EPERM")) (Fragment.options []) 1
         dot_secret None s1 = Rejected (InvalidPluginName dot_secret) s2
    /\ install (no_registry (Some "EPERM")) (Fragment.options []) 1
         dot_secret None Fragment.empty_state
       = Rejected (FailedToReleaseLock "EPERM") s3.
Proof. do 3 eexists. repeat split; vm_compute; reflexivity. Qed.

Section Guarded.

Context (host : Host) (options : PluginManagerOptions (RegExp host)).

(** C3, amended: once the lock is held, the release is attempted whatever
    the guarded operation did.  When the release succeeds the caller
    observes the result or the error of the guarded operation; when the
    release fails the caller observes the release failure, which replaces
    the result or the error of the guarded operation. *)
Theorem release_attempted_and_observed {A} (body : M A) s s1 :
  (fs_ensureDir (pluginsPath options) ;; syncLock host options) s
  = Returned tt s1 ->
  (forall a s2,
      body s1 = Returned a s2 ->
      lockFile_unlock host (lockLocation host options) (files s2) = None ->
      guarded host options body s = Returned a (released options s2))
  /\ (forall e s2,
      body s1 = Rejected e s2 ->
      lockFile_unlock host (lockLocation host options) (files s2) = None ->
      guarded host options body s = Rejected e (released options s2))
  /\ (forall a s2 msg,
      body s1 = Returned a s2 ->
      lockFile_unlock host (lockLocation host options) (files s2) = Some msg ->
      guarded host options body s
      = Rejected (FailedToReleaseLock msg) (release_attempted options s2))
  /\ (forall e s2 msg,
      body s1 = Rejected e s2 ->
      lockFile_unlock host (lockLocation host options) (files s2) = Some msg ->
      guarded host options body s
      = Rejected (FailedToReleaseLock msg) (release_attempted options s2)).
Proof.
  intros Hacq. rewrite (guarded_acquired host options body s s1 Hacq).
  unfold try_finally.
  repeat split; intros * Hbody Hunlock; rewrite Hbody.
  - now rewrite (syncUnlock_ok host options s2 Hunlock).
  - now rewrite (syncUnlock_ok host options s2 Hunlock).
  - now rewrite (syncUnlock_fails host options s2 msg Hunlock).
  - now rewrite (syncUnlock_fails host options s2 msg Hunlock).
Qed.

End Guarded.

(** The amended statement at [uninstall("x")] on an empty store, with a lock
    file that is released without error. *)
Lemma release_attempted_and_observed_witness :
  guarded (no_registry None) (Fragment.options [])
    (uninstallLockFree 1 (JsString "x")) Fragment.empty_state
  = Returned tt
      (released (Fragment.options [])
         (acquired (Fragment.options [])
            [(["plugin_packages"], Dir)] Fragment.empty_state)).
Proof.
  refine (proj1 (release_attempted_and_observed (no_registry None)
                   (Fragment.options []) (uninstallLockFree 1 (JsString "x"))
                   Fragment.empty_state
                   (acquired (Fragment.options [])
                      [(["plugin_packages"], Dir)] Fragment.empty_state)
                   _) tt _ _ _).
  - vm_compute. reflexivity.
  - vm_compute. reflexivity.
  - vm_compute. reflexivity.
Defined.

End C3.

(** ** C4: the directory of the package before a new materialization *)

Module C4.

Import Examples.

(** C4 at the failing input: the store holds version 1.0.0 of [x] with a file
    of its own, the registry resolves [x] to 2.0.0.  The install downloads
    2.0.0, the directory of [x] is never removed, and the file of the old
    version is still there next to the new manifest. *)
Theorem stale_directory_not_removed :
  exists d s',
    install registry_x2 (Fragment.options []) 1 (JsString "x") None stale_store
    = Returned d s'
    /\ version d = "2.0.0"
    /\ calls s'
       = [EnsureDir ["plugin_packages"];
          Lock ["plugin_packages"; "install.lock"];
          NpmGet "x" "latest";
          DirectoryExists ["plugin_packages"; "x"];
          FileExists ["plugin_packages"; "x"; "package.json"];
          ReadFile ["plugin_packages"; "x"; "package.json"];
          DirectoryExists ["plugin_packages"; "x"];
          NpmDownload ["plugin_packages"] (Fragment.published "x" "2.0.0");
          FileExists ["plugin_packages"; "x"; "package.json"];
          ReadFile ["plugin_packages"; "x"; "package.json"];
          Unlock ["plugin_packages"; "install.lock"]]
    /\ fs.lookup ["plugin_packages"; "x"; "package.json"] (files s')
       = Some (manifest "x" "2.0.0" None)
    /\ fs.lookup ["plugin_packages"; "x"; "old.js"] (files s')
       = Some (File (Text "stale")).
Proof.
  do 2 eexists. split; [vm_compute; reflexivity |].
  split; [reflexivity |].
  split; [vm_compute; reflexivity |].
  split; vm_compute; reflexivity.
Qed.

End C4.

(** ** C5: [installFromCode] without a version *)

Module C5.

Import Examples.

(** C5 at the failing input: the store was filled by an earlier process with
    [installFromCode("x", "module.exports = 'old'")], a new manager (empty
    registry) runs [installFromCode("x", "module.exports = 'new'")].  The call
    succeeds, writes nothing, and the entry file still holds the old text. *)
Theorem entry_file_not_rewritten :
  exists d s',
    installFromCode (no_registry None) (Fragment.options []) 1 (JsString "x")
      "module.exports = 'new'" None code_store
    = Returned d s'
    /\ name d = "x" /\ version d = "0.0.0"
    /\ calls s'
       = [EnsureDir ["plugin_packages"];
          Lock ["plugin_packages"; "install.lock"];
          DirectoryExists ["plugin_packages"; "x"];
          FileExists ["plugin_packages"; "x"; "package.json"];
          ReadFile ["plugin_packages"; "x"; "package.json"];
          FileExists ["plugin_packages"; "x"; "package.json"];
          ReadFile ["plugin_packages"; "x"; "package.json"];
          Unlock ["plugin_packages"; "install.lock"]]
    /\ fs.lookup ["plugin_packages"; "x"; "index.js"] (files s')
       = Some (File (Text "module.exports = 'old'")).
Proof.
  do 2 eexists. split; [vm_compute; reflexivity |].
  split; [reflexivity |]. split; [reflexivity |].
  split; vm_compute; reflexivity.
Qed.

End C5.

(** ** C6: installing what is already installed *)

Module C6.

Import Examples.

(** C6, as stated, fails: [x] is installed at 1.0.0 through
    [install("x", "^1.0.0")]; version 1.1.0 is then published.  The installed
    version satisfies the range, yet the same call again compares it with the
    version the registry now resolves to, uninstalls 1.0.0 and downloads
    1.1.0. *)
Lemma satisfied_range_reinstalled :
  exists s1 s2,
    install (registry_x "1.0.0") (Fragment.options []) 1 (JsString "x")
      (Some "^1.0.0") Fragment.empty_state = Returned (x_at "1.0.0") s1
    /\ installedPlugins s1 = [x_at "1.0.0"]
    /\ alreadyInstalled (registry_x "1.1.0") "x" (Some "^1.0.0") s1
       = Some (x_at "1.0.0")
    /\ install (registry_x "1.1.0") (Fragment.options []) 2 (JsString "x")
         (Some "^1.0.0") s1 = Returned (x_at "1.1.0") s2
    /\ installedPlugins s2 = [x_at "1.1.0"]
    /\ calls s2
       = calls s1
         ++ [EnsureDir ["plugin_packages"];
             Lock ["plugin_packages"; "install.lock"];
             NpmGet "x" "^1.0.0";
             VmUnload "x";
             Remove ["plugin_packages"; "x"];
             DirectoryExists ["plugin_packages"; "x"];
             DirectoryExists ["plugin_packages"; "x"];
             Remove ["plugin_packages"; "x"];
             NpmDownload ["plugin_packages"] (Fragment.published "x" "1.1.0");
             FileExists ["plugin_packages"; "x"; "package.json"];
             ReadFile ["plugin_packages"; "x"; "package.json"];
             Unlock ["plugin_packages"; "install.lock"]].
Proof.
  do 2 eexists. split; [vm_compute; reflexivity |].
  split; [reflexivity |].
  split; [vm_compute; reflexivity |].
  split; [vm_compute; reflexivity |].
  split; vm_compute; reflexivity.
Qed.

Section Idempotence.

Context (host : Host) (options : PluginManagerOptions (RegExp host)).

(** C6, amended: when the registry the install is dispatched to (npm, or
    GitHub when the version is a repository reference) resolves the request
    to a package for whose name a descriptor is installed, and the version
    of that descriptor satisfies the resolved version (not merely the
    requested range), the install returns that very descriptor of the
    registry; it queries the registry and does nothing else: the registry
    and the store are unchanged. *)
Theorem install_already_satisfied fuel n v s registryInfo d :
  isValidPluginName n = true ->
  alreadyInstalled host (pkg_name registryInfo)
    (Some (pkg_version registryInfo)) s = Some d ->
  d ∈ installedPlugins s
  /\ (truthy v && isGithubRepo host (default "" v) = false ->
      npm_get host (str n) (default NPM_LATEST_TAG v) = Some registryInfo ->
      installLockFree host options (S fuel) n v s
      = Returned d
          (mkState (installedPlugins s) (files s)
             (calls s ++ [NpmGet (str n) (default NPM_LATEST_TAG v)])))
  /\ (truthy v && isGithubRepo host (default "" v) = true ->
      github_get host (default "" v) = Some registryInfo ->
      isValidPluginName (JsString (pkg_name registryInfo)) = true ->
      installLockFree host options (S fuel) n v s
      = Returned d
          (mkState (installedPlugins s) (files s)
             (calls s ++ [GithubGet (default "" v)]))).
Proof.
  intros Hn Hinst.
  split; [exact (proj1 (alreadyInstalled_Some host _ _ _ _ Hinst)) |].
  split.
  - intros Hgh Hget.
    simpl. unfold installLockFree_body. rewrite Hn, Hgh. simpl.
    unfold installFromNpmLockFree. rewrite Hn. simpl.
    unfold bind at 1. unfold call at 1. cbn [installedPlugins files calls].
    unfold bind at 1. rewrite Hget. unfold await, ret at 1.
    unfold bind at 1. unfold gets at 1. cbn [installedPlugins files calls].
    erewrite (alreadyInstalled_registry host _ _ _ s); [| reflexivity].
    now rewrite Hinst.
  - intros Hgh Hget Hname.
    simpl. unfold installLockFree_body. rewrite Hn, Hgh. simpl.
    unfold installFromGithubLockFree.
    unfold bind at 1. unfold call at 1. cbn [installedPlugins files calls].
    unfold bind at 1. rewrite Hget. unfold await, ret at 1.
    rewrite Hname. simpl.
    unfold bind at 1. unfold gets at 1. cbn [installedPlugins files calls].
    erewrite (alreadyInstalled_registry host _ _ _ s); [| reflexivity].
    now rewrite Hinst.
Qed.

End Idempotence.

(** The amended statement at [install("x", "^1.0.0")] when 1.0.0 is installed
    and still the newest version. *)
Lemma install_already_satisfied_witness :
  installLockFree (registry_x "1.0.0") (Fragment.options []) 1 (JsString "x")
    (Some "^1.0.0") (mkState [x_at "1.0.0"] [] [])
  = Returned (x_at "1.0.0")
      (mkState [x_at "1.0.0"] [] [NpmGet "x" "^1.0.0"]).
Proof.
  refine (proj1 (proj2 (install_already_satisfied (registry_x "1.0.0")
                   (Fragment.options []) 0 (JsString "x") (Some "^1.0.0")
                   (mkState [x_at "1.0.0"] [] [])
                   (Fragment.published "x" "1.0.0") (x_at "1.0.0") _ _)) _ _).
  - vm_compute. reflexivity.
  - vm_compute. reflexivity.
  - vm_compute. reflexivity.
  - vm_compute. reflexivity.
Defined.

End C6.

(** ** C7: ignored dependencies *)

Module C7.

Import Examples.

(** C7, as stated, fails: the string pattern [lodash] is compiled to a regular
    expression, which finds a match in the name [lodash-es]; the dependency
    [lodash-es] is skipped although no pattern is that exact name. *)
Lemma string_pattern_ignores_other_name :
  "lodash-es" <> "lodash"
  /\ shouldIgnore (no_registry None) ignore_lodash "lodash-es" = true
  /\ forall rec s,
       installDependencies (no_registry None) ignore_lodash rec uses_lodash_es s
       = Returned [] s.
Proof. split; [discriminate |]. split; reflexivity. Qed.

Section Ignore.

Context (host : Host) (options : PluginManagerOptions (RegExp host)).

Lemma ignoredBy_iff p n :
  ignoredBy host p n = true <-> pattern_matches host p n.
Proof.
  destruct p as [s|r]; simpl; [reflexivity |].
  destruct (RegExp_test host r n); intuition discriminate.
Qed.

(** C7, amended: a dependency entry is skipped by [shouldIgnore] exactly
    when its name is matched by a configured ignore pattern or is a
    statically substituted name, where a string pattern is compiled to a
    regular expression and matches every name in which that expression
    finds a match (not only the exact name), and a regular-expression
    pattern matches by the regex.  The resolver treats the entries exactly
    as if the skipped ones were not there: nothing is looked up or
    installed for them. *)
Theorem ignored_entries_skipped :
  (forall n,
      shouldIgnore host options n = true <->
      (exists p, p ∈ ignoredDependencies options /\ pattern_matches host p n)
      \/ n ∈ staticDependencies options)
  /\ (forall rec entries acc,
         installDependencies_loop host options rec entries acc
         = installDependencies_loop host options rec
             (List.filter (fun kv => negb (shouldIgnore host options kv.1))
                entries) acc).
Proof.
  split.
  - intros n. unfold shouldIgnore.
    destruct (existsb (fun p => ignoredBy host p n) _) eqn:E1.
    + split; [intros _ | reflexivity]. left.
      apply existsb_exists in E1 as (p & Hin & Hp).
      exists p. split; [now apply list_elem_of_In | now apply ignoredBy_iff].
    + destruct (existsb (fun key => String.eqb key n) _) eqn:E2.
      * split; [intros _ | reflexivity]. right.
        apply existsb_exists in E2 as (k & Hin & Hk).
        apply String.eqb_eq in Hk as <-. now apply list_elem_of_In.
      * split; [discriminate |]. intros [(p & Hin & Hp)|Hin].
        -- rewrite <- E1. apply existsb_exists. exists p.
           split; [now apply list_elem_of_In | now apply ignoredBy_iff].
        -- rewrite <- E2. apply existsb_exists. exists n.
           split; [now apply list_elem_of_In | apply String.eqb_refl].
  - intros rec entries. induction entries as [|[key v] rest IH]; intros acc.
    + reflexivity.
    + simpl. destruct (shouldIgnore host options key) eqn:E; simpl.
      * apply IH.
      * rewrite E. now rewrite IH.
Qed.

End Ignore.

End C7.

(** ** C8: what an uninstall changes *)

Module C8.

Import Examples.

(** C8, as stated, fails for the store directories: the plugins [a] and [a/b]
    are created from code (a slash is permitted in a name), so the directory
    of [a/b] lies inside the directory of [a].  Uninstalling [a] leaves [a/b]
    in the registry and deletes its directory together with that of [a]. *)
Lemma uninstall_deletes_nested_directory :
  exists s1 s2 s3,
    installFromCode (no_registry None) (Fragment.options []) 1 (JsString "a")
      "module.exports = 1" None Fragment.empty_state = Returned plugin_a s1
    /\ installFromCode (no_registry None) (Fragment.options []) 1
         (JsString "a/b") "module.exports = 2" None s1 = Returned plugin_a_b s2
    /\ installedPlugins s2 = [plugin_a; plugin_a_b]
    /\ fs.directoryExists (location plugin_a_b) (files s2) = true
    /\ fs.lookup (mainFile plugin_a_b) (files s2)
       = Some (File (Text "module.exports = 2"))
    /\ uninstall (no_registry None) (Fragment.options []) 1 (JsString "a") s2
       = Returned tt s3
    /\ installedPlugins s3 = [plugin_a_b]
    /\ fs.directoryExists (location plugin_a_b) (files s3) = false
    /\ fs.lookup (mainFile plugin_a_b) (files s3) = None.
Proof.
  do 3 eexists. split; [vm_compute; reflexivity |].
  split; [vm_compute; reflexivity |].
  split; [reflexivity |].
  split; [vm_compute; reflexivity |].
  split; [vm_compute; reflexivity |].
  split; [vm_compute; reflexivity |].
  split; [reflexivity |].
  split; vm_compute; reflexivity.
Qed.

(** C8, amended: however an uninstall of a registered target ends, the
    registry is the former registry with the target spliced out, so every
    other descriptor keeps its entry; the only calls made are unloads by the
    loader, followed at most by the removal of the target's directory; every
    path of the store that does not lie inside the target's directory is
    unchanged.  (A directory of another descriptor that lies inside the
    target's directory is deleted with it.) *)
Theorem uninstall_frame fuel n s target :
  isValidPluginName (JsString n) = true ->
  getFullInfo n s = Some target ->
  after (fun s' =>
    (exists i, array_indexOf (installedPlugins s) target = Some i
               /\ installedPlugins s' = splice1 (installedPlugins s) i)
    /\ (forall d, d ∈ installedPlugins s -> d <> target ->
                  d ∈ installedPlugins s')
    /\ (forall p, fs.under (location target) p = false ->
                  fs.lookup p (files s') = fs.lookup p (files s))
    /\ (exists ns,
          calls s' = calls s ++ map VmUnload ns
          \/ calls s' = calls s ++ map VmUnload ns ++ [Remove (location target)]))
    (uninstallLockFree fuel (JsString n) s).
Proof.
  intros Hvalid Hfind.
  destruct (find_Some_elem _ _ _ Hfind) as [Hin _].
  destruct (array_indexOf_elem _ _ Hin) as [i Hi].
  unfold uninstallLockFree. rewrite Hvalid. simpl.
  unfold bind at 1. unfold gets. simpl str. rewrite Hfind.
  unfold deleteAndUnloadPlugin.
  unfold bind at 1. unfold get_installedPlugins. rewrite Hi.
  unfold bind at 1. unfold set_installedPlugins.
  set (s1 := mkState (splice1 (installedPlugins s) i) (files s) (calls s)).
  pose proof (unloadWithDependents_only_unloads fuel target s1) as Hcascade.
  unfold bind.
  destruct (unloadWithDependents fuel target s1) as [[] s2|e s2|];
    simpl in Hcascade |- *; [| | exact I];
    destruct Hcascade as (Hreg & Hfiles & ns & Hcalls).
  - split; [exists i; split; [reflexivity | exact Hreg] |].
    split; [intros d Hd Hne; rewrite Hreg;
            exact (splice1_keeps_others _ _ _ _ Hi Hd Hne) |].
    split; [intros p Hp; rewrite Hfiles; now apply remove_lookup_outside |].
    exists ns. right. rewrite Hcalls. now rewrite <- app_assoc.
  - split; [exists i; split; [reflexivity | exact Hreg] |].
    split; [intros d Hd Hne; rewrite Hreg;
            exact (splice1_keeps_others _ _ _ _ Hi Hd Hne) |].
    split; [intros p _; now rewrite Hfiles |].
    exists ns. now left.
Qed.

(** The amended statement at the uninstall of [a] while [a/b] is installed:
    the uninstall returns, and the path of the store root, which is not
    inside the directory of [a], is unchanged. *)
Lemma uninstall_frame_witness :
  exists s',
    uninstallLockFree 1 (JsString "a")
      (mkState [plugin_a; plugin_a_b] [(["plugin_packages"], Dir)] [])
    = Returned tt s'
    /\ (exists i, array_indexOf [plugin_a; plugin_a_b] plugin_a = Some i
                  /\ installedPlugins s' = splice1 [plugin_a; plugin_a_b] i)
    /\ (forall d, d ∈ [plugin_a; plugin_a_b] -> d <> plugin_a ->
                  d ∈ installedPlugins s')
    /\ (forall p, fs.under (location plugin_a) p = false ->
                  fs.lookup p (files s')
                  = fs.lookup p [(["plugin_packages"], Dir)])
    /\ (exists ns,
          calls s' = [] ++ map VmUnload ns
          \/ calls s' = [] ++ map VmUnload ns ++ [Remove (location plugin_a)]).
Proof.
  eexists. split; [vm_compute; reflexivity |].
  exact (uninstall_frame 1 "a"
           (mkState [plugin_a; plugin_a_b] [(["plugin_packages"], Dir)] [])
           plugin_a eq_refl eq_refl).
Defined.

End C8.

(** ** C9: the array returned by [list()] *)

Module C9.

Import Arrays Examples.

Lemma list_is_registry s : list_ s = installedPlugins s.
Proof. unfold list_. apply map_id. Qed.

Lemma mutate_all_other r mus :
  forall j,
    r <> this_installedPlugins j ->
    state_of (mutate_all r mus j) = state_of j
    /\ this_installedPlugins (mutate_all r mus j) = this_installedPlugins j.
Proof.
  induction mus as [|mu mus IH]; intros j Hr; simpl; [auto |].
  destruct (IH (mutate r j mu) Hr) as [Hstate Hthis].
  unfold mutate_all in *. rewrite Hstate, Hthis. split; [| reflexivity].
  unfold state_of, mutate. simpl.
  now rewrite lookup_alter_ne.
Qed.

(** C9: [list()] returns a reference to a new array that holds the registered
    descriptors in insertion order; the call leaves the state of the manager
    as it was; and whatever the caller then does to the returned array, the
    state of the manager is still the same, hence so is the result of every
    later [list()], [getInfo()] or [install]. *)
Theorem list_returns_fresh_array j l :
  arrays j !! this_installedPlugins j = Some l ->
  let r := (list_js j).1 in
  let j1 := (list_js j).2 in
  r <> this_installedPlugins j
  /\ arrays j !! r = None
  /\ arrays j1 !! r = Some l
  /\ state_of j1 = state_of j
  /\ forall mus,
       let j2 := mutate_all r mus j1 in
       state_of j2 = state_of j
       /\ arrays (list_js j2).2 !! (list_js j2).1 = Some l
       /\ (forall n, getInfo n (state_of j2) = getInfo n (state_of j))
       /\ (forall host options fuel n v,
              install host options fuel n v (state_of j2)
              = install host options fuel n v (state_of j)).
Proof.
  intros Hl r j1.
  assert (Hfresh : arrays j !! r = None).
  { apply not_elem_of_dom. apply is_fresh. }
  assert (Hr : r <> this_installedPlugins j) by congruence.
  assert (Hlist : list_ (state_of j) = l).
  { rewrite list_is_registry. unfold state_of. simpl. now rewrite Hl. }
  assert (H1 : state_of j1 = state_of j).
  { unfold j1, list_js, state_of. simpl. fold r.
    now rewrite lookup_insert_ne. }
  split; [exact Hr |]. split; [exact Hfresh |].
  split.
  { unfold j1, list_js. simpl. fold r. rewrite lookup_insert_eq.
    now rewrite Hlist. }
  split; [exact H1 |].
  intros mus j2.
  destruct (mutate_all_other r mus j1 Hr) as [H2 _]. fold j2 in H2.
  assert (Hj2 : state_of j2 = state_of j) by now rewrite H2.
  split; [exact Hj2 |].
  split.
  { unfold list_js. simpl. rewrite lookup_insert_eq, Hj2. now rewrite Hlist. }
  split; intros; now rewrite Hj2.
Qed.

(** The statement at a registry that holds [x], with the returned array
    emptied and refilled by the caller. *)
Lemma list_returns_fresh_array_witness :
  let j := mkJs {[ 0 := [x_at "1.0.0"] ]} 0 [] [] in
  let r := (list_js j).1 in
  r <> 0
  /\ arrays (list_js j).2 !! r = Some [x_at "1.0.0"]
  /\ state_of (mutate_all r [Pop; Push plugin_a; Reverse] (list_js j).2)
     = state_of j.
Proof.
  intros j r.
  pose proof (list_returns_fresh_array j [x_at "1.0.0"] eq_refl)
    as (Hr & _ & Hcopy & _ & Hmut).
  split; [exact Hr |]. split; [exact Hcopy |].
  exact (proj1 (Hmut [Pop; Push plugin_a; Reverse])).
Defined.

End C9.

(** ** C10: descriptors always carry a dependency object *)

Module C10.

Import Examples.

Section Dependencies.

Context (host : Host) (options : PluginManagerOptions (RegExp host)).

(** C10: from a registry whose descriptors all have a dependency object (the
    registry of a new manager is empty), every install that returns,
    returns a descriptor with a dependency object and leaves such a
    registry; [createPluginInfo] gives the descriptor the dependencies of
    the manifest, and the empty object when the manifest has none; and the
    uninstall cascade is never rejected, for no descriptor it visits lacks
    the object it looks the target up in. *)
Theorem dependencies_always_defined fuel s :
  defined_dependencies s ->
  (forall n v, ends_with_dependencies (install host options fuel n v s))
  /\ (forall n v,
         ends_with_dependencies (installFromNpm host options fuel n v s))
  /\ (forall r,
         ends_with_dependencies (installFromGithub host options fuel r s))
  /\ (forall loc o,
         ends_with_dependencies (installFromPath host options fuel loc o s))
  /\ (forall n c v,
         ends_with_dependencies (installFromCode host options fuel n c v s))
  /\ (forall n d s',
         createPluginInfo host options n s = Returned d s' ->
         exists packageJson s1,
           readPackageJsonFromPath (getPluginLocation host options n) s
           = Returned packageJson s1
           /\ dependencies d
              = Some (default [] (json_dependencies packageJson))
           /\ (json_dependencies packageJson = None ->
               dependencies d = Some []))
  /\ (forall plugin e s',
         unloadWithDependents fuel plugin s <> Rejected e s').
Proof.
  intros Hs.
  pose proof (keeps_installLockFree host options fuel) as Hrec.
  repeat split; intros.
  - exact (keeps_guarded host options _ _ (Hrec n v) s Hs).
  - exact (keeps_guarded host options _ _
             (keeps_installFromNpmLockFree host options _ fuel Hrec n v)
             s Hs).
  - exact (keeps_guarded host options _ _
             (keeps_installFromGithubLockFree host options _ fuel Hrec r)
             s Hs).
  - exact (keeps_guarded host options _ _
             (keeps_installFromPathLockFree host options _ fuel Hrec loc o)
             s Hs).
  - exact (keeps_guarded host options _ _
             (keeps_installFromCodeLockFree host options _ fuel Hrec n c v)
             s Hs).
  - destruct (createPluginInfo_dependencies host options n s d s' H)
      as (pj & s1 & Hread & Hdeps).
    exists pj, s1. split; [exact Hread |]. split; [exact Hdeps |].
    intros Hnone. now rewrite Hdeps, Hnone.
  - now apply unloadWithDependents_not_rejected.
Qed.

End Dependencies.

Lemma empty_registry_defined : defined_dependencies Fragment.empty_state.
Proof. intros d Hd. inversion Hd. Qed.

(** The statement at [installFromCode("x", "module.exports = 1")] on an empty
    store: the manifest written has no [dependencies] field, the descriptor
    has the empty object. *)
Lemma dependencies_always_defined_witness :
  exists d s',
    installFromCode (no_registry None) (Fragment.options []) 1 (JsString "x")
      "module.exports = 1" None Fragment.empty_state = Returned d s'
    /\ dependencies d = Some []
    /\ is_Some (dependencies d) /\ defined_dependencies s'.
Proof.
  do 2 eexists. split; [vm_compute; reflexivity |].
  split; [reflexivity |].
  exact (proj1 (proj2 (proj2 (proj2 (proj2
           (dependencies_always_defined (no_registry None)
              (Fragment.options []) 1 Fragment.empty_state
              empty_registry_defined)))))
           (JsString "x") "module.exports = 1" None).
Defined.

End C10.

(** * Further properties of the methods *)

(** ** When the lock cannot be taken *)

Section LockFailure.

Context (host : Host) (options : PluginManagerOptions (RegExp host)).

(** A public method whose lock cannot be acquired, or whose store root cannot
    be created, is rejected with that failure: the lock-free variant does not
    run, no release is attempted and the registry is as it was. *)
Theorem guarded_not_entered {A} (body : M A) s :
  (fs.ensureDir (pluginsPath options) (files s) = None ->
   guarded host options body s
   = Rejected FileSystemError (logged [EnsureDir (pluginsPath options)] s))
  /\ (forall t msg,
         fs.ensureDir (pluginsPath options) (files s) = Some t ->
         lockFile_lock host (lockLocation host options) (lockWait options)
           (lockStale options) t = Some msg ->
         guarded host options body s
         = Rejected (FailedToAcquireLock msg)
             (mkState (installedPlugins s) t
                (calls s ++ [EnsureDir (pluginsPath options);
                             Lock (lockLocation host options)]))).
Proof.
  split.
  - intros E. unfold guarded, bind, fs_ensureDir, bind, call, update_files.
    simpl. now rewrite E.
  - intros t msg E1 E2.
    unfold guarded, bind, fs_ensureDir, bind, call, update_files, syncLock.
    simpl. rewrite E1. simpl. rewrite E2. now rewrite <- app_assoc.
Qed.

End LockFailure.

(** ** Valid names, character by character *)

Section ValidNames.

Lemma prefix_cons a s1 b s2 :
  String.prefix (String a s1) (String b s2)
  = if ascii_dec a b then String.prefix s1 s2 else false.
Proof. reflexivity. Qed.

Lemma prefix_empty s : String.prefix EmptyString s = true.
Proof. now destruct s. Qed.

Lemma index_cons s1 b s2 :
  String.index 0 s1 (String b s2)
  = if String.prefix s1 (String b s2) then Some 0
    else option_map S (String.index 0 s1 s2).
Proof. simpl. destruct (String.prefix s1 (String b s2)); reflexivity. Qed.

Lemma prefix_dot s :
  String.prefix "." s = true <-> exists rest, s = String "."%char rest.
Proof.
  destruct s as [|c rest].
  - split; [discriminate | intros [r E]; discriminate E].
  - change (String.prefix "." (String c rest))
      with (String.prefix (String "."%char EmptyString) (String c rest)).
    rewrite prefix_cons, prefix_empty.
    destruct (ascii_dec "."%char c) as [<-|Hne].
    + split; [eauto | reflexivity].
    + split; [discriminate | intros [r E]; inversion E; congruence].
Qed.

Lemma index_char_None c s :
  String.index 0 (String c EmptyString) s = None <-> ~ In c (chars s).
Proof.
  induction s as [|b s IH].
  - simpl. split; [intros _ [] | reflexivity].
  - rewrite index_cons, prefix_cons, prefix_empty. simpl chars.
    destruct (ascii_dec c b) as [->|Hne].
    + split; [discriminate | intros H; exfalso; apply H; now left].
    + destruct (String.index 0 (String c EmptyString) s) eqn:E; simpl.
      * split; [discriminate |]. intros H. exfalso.
        assert (Hin : ~ In c (chars s)) by (intros ?; apply H; now right).
        apply IH in Hin. discriminate.
      * split; [| reflexivity]. intros _ [Hb|Hin]; [congruence |].
        now apply (proj1 IH).
Qed.

(** [isValidPluginName] accepts exactly the strings that are not empty, do not
    start with a dot and hold no backslash; a slash, a dot further on or a
    [..] segment do not make a name invalid. *)
Theorem valid_name_characters n :
  isValidPluginName n = true <->
  exists s, n = JsString s
            /\ s <> EmptyString
            /\ (forall rest, s <> String "."%char rest)
            /\ ~ In backslash_char (chars s).
Proof.
  unfold isValidPluginName. destruct n as [s|].
  2: { split; [discriminate | intros (s & E & _); discriminate]. }
  assert (Hlen : Nat.eqb (String.length s) 0 = true <-> s = EmptyString).
  { destruct s; simpl; split; congruence. }
  assert (Hback : (0 <=? indexOf backslash s)%Z = false
                  <-> ~ In backslash_char (chars s)).
  { unfold indexOf, backslash. rewrite <- index_char_None.
    fold backslash_char.
    destruct (String.index 0 (String backslash_char EmptyString) s);
      split; intros H; try reflexivity; try discriminate.
    exfalso. destruct (Z.leb_spec 0 (Z.of_nat n)); [discriminate | lia]. }
  destruct (Nat.eqb (String.length s) 0) eqn:E0.
  { split; [discriminate |]. intros (s' & [= <-] & Hne & _).
    exfalso. apply Hne. now apply Hlen. }
  destruct (String.prefix "." s) eqn:Edot; simpl.
  { split; [discriminate |]. intros (s' & [= <-] & _ & Hdot & _).
    apply prefix_dot in Edot as [rest ->]. now destruct (Hdot rest). }
  destruct (0 <=? indexOf backslash s)%Z eqn:Eb.
  { split; [discriminate |]. intros (s' & [= <-] & _ & _ & Hb).
    apply Hback in Hb. congruence. }
  split; [intros _ | reflexivity].
  exists s. split; [reflexivity |].
  split; [intros ->; discriminate |].
  split; [| now apply Hback].
  intros rest ->. assert (String.prefix "." (String "." rest) = true) as H
    by (apply prefix_dot; eauto). congruence.
Qed.

End ValidNames.

(** ** Reading a manifest *)

Section Manifest.

Context (host : Host) (options : PluginManagerOptions (RegExp host)).

(** A manifest is accepted exactly when the file parses and holds a non-empty
    name and a non-empty version.  The error message also asks for [main],
    but a manifest without [main], or without [dependencies], is accepted;
    reading changes neither the registry nor the store. *)
Theorem manifest_accepted_iff loc s j s' :
  readPackageJsonFromPath loc s = Returned j s' <->
  fs.readFile (Path.join loc "package.json") (files s) = Some (Json j)
  /\ (exists n, json_name j = Some n /\ n <> "")
  /\ (exists v, json_version j = Some v /\ v <> "")
  /\ s' = logged [FileExists (Path.join loc "package.json");
                  ReadFile (Path.join loc "package.json")] s.
Proof.
  rewrite readPackageJsonFromPath_outcome.
  destruct (fs.fileExists _ (files s)) eqn:Ex.
  - destruct (fs.readFile _ (files s)) as [[txt|j0]|] eqn:Er.
    + split; [discriminate | intros ([= ] & _)].
    + destruct (truthy (json_name j0)) eqn:En,
               (truthy (json_version j0)) eqn:Ev; simpl.
      * split.
        -- intros [= <- <-]. repeat split; try reflexivity;
             now apply truthy_Some.
        -- intros ([= <-] & _ & _ & ->). reflexivity.
      * split; [discriminate |]. intros ([= <-] & _ & Hv & _).
        apply truthy_Some in Hv. congruence.
      * split; [discriminate |]. intros ([= <-] & Hn & _).
        apply truthy_Some in Hn. congruence.
      * split; [discriminate |]. intros ([= <-] & Hn & _).
        apply truthy_Some in Hn. congruence.
    + split; [discriminate | intros ([= ] & _)].
  - split; [discriminate |]. intros (Hr & _).
    assert (fs.fileExists (Path.join loc "package.json") (files s) = true)
      by (apply fileExists_readFile; eauto).
    congruence.
Qed.

(** Once the directory of the name is found, [isAlreadyDownloaded] answers:
    whatever is wrong with the manifest (missing, unreadable, not JSON, no
    name or no version) is caught by its [try] and answered [false].  It
    answers [true] exactly when the manifest holds that name and that
    version, both non-empty; the registry and the store are unchanged.  (The
    test of the directory itself is awaited outside the [try]: nothing is
    said about a call in which that test does not find the directory.) *)
Theorem isAlreadyDownloaded_answer n v s :
  fs.directoryExists (getPluginLocation host options n) (files s) = true ->
  exists b s',
    isAlreadyDownloaded host options n v s = Returned b s'
    /\ installedPlugins s' = installedPlugins s
    /\ files s' = files s
    /\ (b = true <->
        n <> "" /\ v <> ""
        /\ exists j,
             fs.readFile
               (Path.join (getPluginLocation host options n) "package.json")
               (files s) = Some (Json j)
             /\ json_name j = Some n /\ json_version j = Some v).
Proof.
  intros Ed. unfold isAlreadyDownloaded.
  unfold bind at 1. unfold fs_directoryExists, bind, call, read_files.
  cbn [installedPlugins files calls].
  set (loc := getPluginLocation host options n) in *.
  rewrite Ed. cbn [negb].
  unfold try_catch, bind. rewrite readPackageJsonFromPath_outcome.
  cbn [installedPlugins files calls logged].
  destruct (fs.fileExists _ (files s)) eqn:Ex.
  - destruct (fs.readFile _ (files s)) as [[txt|j]|] eqn:Er.
    + do 2 eexists. split; [reflexivity |]. repeat split; try discriminate.
      intros (_ & _ & j & [= ] & _).
    + destruct (truthy (json_name j) && truthy (json_version j)) eqn:Et.
      * do 2 eexists. split; [reflexivity |].
        split; [reflexivity |]. split; [reflexivity |].
        apply andb_true_iff in Et as [Hn Hv].
        apply truthy_Some in Hn as (n0 & Hn0 & Hne0).
        apply truthy_Some in Hv as (v0 & Hv0 & Hne1).
        unfold ret. split.
        -- intros Hb. apply andb_true_iff in Hb as [H1 H2].
           apply bool_decide_eq_true in H1, H2.
           split; [congruence |]. split; [congruence |]. eauto.
        -- intros (_ & _ & j' & [= <-] & H1 & H2).
           apply andb_true_iff. split; now apply bool_decide_eq_true.
      * do 2 eexists. split; [reflexivity |]. repeat split; try discriminate.
        intros (Hn & Hv & j' & [= <-] & H1 & H2).
        rewrite H1, H2 in Et. simpl in Et.
        destruct (String.eqb_spec n ""), (String.eqb_spec v "");
          simpl in Et; congruence.
    + do 2 eexists. split; [reflexivity |]. repeat split; try discriminate.
      intros (_ & _ & j & [= ] & _).
  - do 2 eexists. split; [reflexivity |]. repeat split; try discriminate.
    intros (_ & _ & j & Hr & _).
    assert (fs.fileExists (Path.join loc "package.json") (files s) = true)
      by (apply fileExists_readFile; eauto).
    congruence.
Qed.

End Manifest.

(** ** Paths and the store *)

Section Paths.

Lemma normalize_step_clean acc seg :
  clean acc -> clean (Path.normalize_step acc seg).
Proof.
  intros Hacc. unfold Path.normalize_step.
  destruct (String.eqb_spec seg ""); [exact Hacc |].
  destruct (String.eqb_spec seg "."); [exact Hacc |]. simpl.
  destruct (String.eqb_spec seg "..").
  - unfold clean in *. induction Hacc as [|x l Hx Hl IH]; simpl; [constructor |].
    destruct l; [constructor | constructor; [exact Hx | exact IH]].
  - apply Forall_app. split; [exact Hacc |].
    constructor; [| constructor]. repeat split; assumption.
Qed.

Lemma fold_normalize_clean p : forall acc,
  clean acc -> clean (fold_left Path.normalize_step p acc).
Proof.
  induction p as [|seg p IH]; intros acc Hacc; simpl; [exact Hacc |].
  apply IH. now apply normalize_step_clean.
Qed.

Lemma fold_normalize_of_clean p : forall acc,
  clean p -> fold_left Path.normalize_step p acc = acc ++ p.
Proof.
  induction p as [|seg p IH]; intros acc Hp; simpl.
  - now rewrite app_nil_r.
  - inversion Hp as [|? ? (H1 & H2 & H3) Hrest]; subst.
    rewrite IH by assumption. unfold Path.normalize_step.
    destruct (String.eqb_spec seg ""); [congruence |].
    destruct (String.eqb_spec seg "."); [congruence |]. simpl.
    destruct (String.eqb_spec seg ".."); [congruence |].
    now rewrite <- app_assoc.
Qed.

Lemma fold_normalize_no_parent p : forall acc,
  Forall (fun seg => seg <> "..") p ->
  fold_left Path.normalize_step p acc
  = acc ++ List.filter
             (fun seg => negb (String.eqb seg "" || String.eqb seg ".")) p.
Proof.
  induction p as [|seg p IH]; intros acc Hp; simpl.
  - now rewrite app_nil_r.
  - inversion Hp as [|? ? Hseg Hrest]; subst.
    rewrite IH by assumption. unfold Path.normalize_step.
    destruct (String.eqb seg "" || String.eqb seg "."); simpl;
      [reflexivity |].
    destruct (String.eqb_spec seg ".."); [congruence |].
    now rewrite <- app_assoc.
Qed.

(** [path.join] never returns an empty, [.] or [..] segment. *)
Lemma join_clean base rel : clean (Path.join base rel).
Proof. unfold Path.join, Path.normalize. apply fold_normalize_clean. constructor. Qed.

Lemma join_of_clean base rel :
  clean base ->
  Path.join base rel = fold_left Path.normalize_step (Path.segments rel) base.
Proof.
  intros Hb. unfold Path.join, Path.normalize. rewrite fold_left_app.
  now rewrite (fold_normalize_of_clean base []).
Qed.

Lemma join_file base :
  clean base ->
  Path.join base "index.js" = base ++ ["index.js"]
  /\ Path.join base "package.json" = base ++ ["package.json"].
Proof. intros Hb. split; rewrite join_of_clean by assumption; reflexivity. Qed.

End Paths.

Section Location.

Context (host : Host) (options : PluginManagerOptions (RegExp host)).

(** The directory of a plugin lies inside the store root whenever no segment
    of the name is [..]: it is the root followed by the segments of the name
    that are neither empty nor [.].  (The check of the name does not exclude
    [..] segments.) *)
Theorem location_inside_store n :
  clean (pluginsPath options) ->
  Forall (fun seg => seg <> "..") (Path.segments n) ->
  getPluginLocation host options n = pluginsPath options ++ kept_segments n
  /\ pluginsPath options `prefix_of` getPluginLocation host options n.
Proof.
  intros Hroot Hn. unfold getPluginLocation.
  rewrite join_of_clean by assumption.
  rewrite fold_normalize_no_parent by assumption.
  split; [reflexivity |]. now exists (kept_segments n).
Qed.

End Location.

(** The statement at the scoped name [@scope/tool]. *)
Lemma location_inside_store_witness :
  getPluginLocation (Examples.no_registry None) (Fragment.options [])
    "@scope/tool"
  = ["plugin_packages"; "@scope"; "tool"].
Proof.
  refine (proj1 (location_inside_store (Examples.no_registry None)
                   (Fragment.options []) "@scope/tool" _ _)).
  - repeat constructor; discriminate.
  - repeat constructor; discriminate.
Defined.

(** ** The file tree *)

Section Tree.

Lemma lookup_insert_same p x (t : fs.tree) :
  fs.lookup p (fs.insert p x t) = Some x.
Proof.
  induction t as [|[q y] t IH]; simpl.
  - now rewrite bool_decide_eq_true_2.
  - case_bool_decide; simpl.
    + now rewrite bool_decide_eq_true_2.
    + rewrite bool_decide_eq_false_2 by assumption. exact IH.
Qed.

Lemma lookup_insert_other p q x (t : fs.tree) :
  p <> q -> fs.lookup q (fs.insert p x t) = fs.lookup q t.
Proof.
  intros Hne. induction t as [|[k y] t IH]; simpl.
  - now rewrite bool_decide_eq_false_2.
  - case_bool_decide as Hk; simpl.
    + subst k. now rewrite !bool_decide_eq_false_2 by assumption.
    + now rewrite IH.
Qed.

Lemma lookup_ensured (l : list path) q (t : fs.tree) :
  fs.lookup q (foldr (fun p acc => fs.insert p Dir acc) t l)
  = if bool_decide (q ∈ l) then Some Dir else fs.lookup q t.
Proof.
  induction l as [|p l IH]; simpl; [reflexivity |].
  destruct (decide (p = q)) as [->|Hne].
  - rewrite lookup_insert_same. rewrite bool_decide_eq_true_2; [reflexivity |].
    left.
  - rewrite lookup_insert_other by assumption. rewrite IH.
    destruct (decide (q ∈ l)) as [Hin|Hin].
    + rewrite !bool_decide_eq_true_2; [reflexivity | now right | assumption].
    + rewrite !bool_decide_eq_false_2; [reflexivity | | assumption].
      intros H. inversion H; subst; congruence.
Qed.

Lemma prefixes_length p q : q ∈ fs.prefixes p -> length q <= length p.
Proof.
  revert q. induction p as [|x p IH]; intros q Hq; simpl in *.
  - inversion Hq.
  - inversion Hq as [|? ? ? Hin]; subst; [simpl; lia |].
    apply list_elem_of_fmap in Hin as (q' & -> & Hq'). simpl.
    specialize (IH q' Hq'). lia.
Qed.

Lemma prefixes_self p : p <> [] -> p ∈ fs.prefixes p.
Proof.
  induction p as [|x p IH]; intros Hp; [congruence |]. simpl.
  destruct p as [|y p]; [left |]. right.
  apply list_elem_of_fmap. exists (y :: p). split; [reflexivity |].
  now apply IH.
Qed.

(** After [ensureDir] the directory exists, and what is not one of its
    ancestors is as before. *)
Lemma ensureDir_lookup p t t1 :
  fs.ensureDir p t = Some t1 ->
  (p <> [] -> fs.directoryExists p t1 = true)
  /\ (forall q, length p < length q -> fs.lookup q t1 = fs.lookup q t).
Proof.
  unfold fs.ensureDir. destruct (existsb _ _); [discriminate |].
  intros [= <-]. split.
  - intros Hp. unfold fs.directoryExists. rewrite lookup_ensured.
    rewrite bool_decide_eq_true_2; [reflexivity | now apply prefixes_self].
  - intros q Hq. rewrite lookup_ensured.
    rewrite bool_decide_eq_false_2; [reflexivity |].
    intros Hin. apply prefixes_length in Hin. lia.
Qed.

Lemma under_snoc p x : fs.under p (p ++ [x]) = true.
Proof. unfold fs.under. apply bool_decide_eq_true_2. now exists [x]. Qed.

Lemma snoc_neq (p : path) x : p ++ [x] <> p.
Proof.
  intros H. apply (f_equal length) in H. rewrite length_app in H.
  simpl in H. lia.
Qed.

End Tree.

(** ** Installing from code *)

Section CodeInstall.

Context (host : Host) (options : PluginManagerOptions (RegExp host)).

Lemma fs_writeFile_ok p c s t :
  fs.writeFile p c (files s) = Some t ->
  fs_writeFile p c s
  = Returned tt (mkState (installedPlugins s) t (calls s ++ [WriteFile p c])).
Proof.
  intros E. unfold fs_writeFile, bind, call, update_files. simpl.
  now rewrite E.
Qed.

Lemma fs_ensureDir_ok p s t :
  fs.ensureDir p (files s) = Some t ->
  fs_ensureDir p s
  = Returned tt (mkState (installedPlugins s) t (calls s ++ [EnsureDir p])).
Proof.
  intros E. unfold fs_ensureDir, bind, call, update_files. simpl.
  now rewrite E.
Qed.

Lemma writeFile_fresh loc x c (t : fs.tree) :
  (loc <> [] -> fs.directoryExists loc t = true) ->
  fs.lookup (loc ++ [x]) t = None ->
  fs.writeFile (loc ++ [x]) c t = Some (fs.insert (loc ++ [x]) (File c) t).
Proof.
  intros Hdir Hnone. unfold fs.writeFile, fs.directoryExists at 1.
  rewrite Hnone. rewrite removelast_last.
  destruct loc as [|y loc]; [reflexivity |].
  rewrite Hdir by discriminate. now rewrite orb_true_r.
Qed.

Lemma getFullInfo_app_None n s d :
  getFullInfo n s = None -> name d = n ->
  List.find (fun p => String.eqb (name p) n) (installedPlugins s ++ [d]) = Some d.
Proof.
  unfold getFullInfo. intros Hnone Hd.
  induction (installedPlugins s) as [|x l IH]; simpl in *.
  - now rewrite Hd, String.eqb_refl.
  - destruct (String.eqb (name x) n); [discriminate | now apply IH].
Qed.

(** [installFromCode] on a name that is neither registered nor present in
    the store creates the directory, writes the entry file and a manifest
    with the name and the version only, and registers the descriptor read
    back from that manifest: the entry file holds the code given, the
    descriptor has no dependencies.  When the version is given (not the
    sentinel 0.0.0), installing the same name and version again, with
    whatever code, returns the registered descriptor and changes nothing. *)
Theorem code_install_round_trip rec fuel n code v s t1 :
  let v' := default "0.0.0" v in
  let loc := getPluginLocation host options n in
  let d := {| name := n; version := v'; location := loc;
              mainFile := loc ++ ["index.js"]; dependencies := Some [] |} in
  isValidPluginName (JsString n) = true ->
  semver_valid host v' = true ->
  v' <> "" ->
  getFullInfo n s = None ->
  fs.directoryExists loc (files s) = false ->
  fs.ensureDir loc (fs.remove loc (files s)) = Some t1 ->
  exists s',
    installFromCodeLockFree host options rec fuel (JsString n) code v s
    = Returned d s'
    /\ installedPlugins s' = installedPlugins s ++ [d]
    /\ fs.readFile (mainFile d) (files s') = Some (Text code)
    /\ fs.readFile (loc ++ ["package.json"]) (files s')
       = Some (Json (mkPackageJson (Some n) (Some v') None None))
    /\ (v' <> "0.0.0" -> semver_satisfies host v' v' = true ->
        forall rec2 fuel2 code2,
          installFromCodeLockFree host options rec2 fuel2 (JsString n) code2
            v s' = Returned d s').
Proof.
  intros v' loc d Hn Hv Hv' Hreg Hdir Hens.
  assert (Hclean : clean loc) by apply join_clean.
  destruct (join_file loc Hclean) as [Hindex Hjson].
  assert (Hnone : forall o, alreadyInstalled host n o s = None).
  { intros o. unfold alreadyInstalled, getInfo. now rewrite Hreg. }
  unfold installFromCodeLockFree. fold v'. rewrite Hn, Hv.
  cbn [negb pkg_name pkg_version str]. fold loc.
  change DefaultMainFile with "index.js". rewrite Hindex, Hjson.
  (* the two registry checks find nothing *)
  assert (H1 : (if negb (v' =? "0.0.0")%string
                then gets (alreadyInstalled host n (Some v'))
                else ret None) s = Returned None s).
  { destruct (negb _); [unfold gets; now rewrite Hnone | reflexivity]. }
  rewrite (bind_Returned _ _ _ _ _ H1).
  assert (H2 : gets (alreadyInstalled host n None) s = Returned None s)
    by (unfold gets; now rewrite Hnone).
  rewrite (bind_Returned _ _ _ _ _ H2).
  rewrite bool_decide_eq_false_2 by (intros [? ?]; discriminate).
  rewrite (bind_Returned _ _ s tt s eq_refl).
  (* nothing is downloaded yet *)
  assert (H3 : isAlreadyDownloaded host options n v' s
               = Returned false (logged [DirectoryExists loc] s)).
  { unfold isAlreadyDownloaded, bind, fs_directoryExists, bind, call,
      read_files. cbn [installedPlugins files calls]. fold loc.
    now rewrite Hdir. }
  rewrite (bind_Returned _ _ _ _ _ H3). cbn [negb].
  (* the directory is created and the two files written *)
  set (s1 := logged [DirectoryExists loc] s).
  assert (H4 : removeDownloaded host options n s1
               = Returned tt
                   (mkState (installedPlugins s) (fs.remove loc (files s))
                      (calls s1 ++ [DirectoryExists loc; Remove loc])))
    by (apply (removeDownloaded_missing host options n s1); exact Hdir).
  destruct (ensureDir_lookup _ _ _ Hens) as [Hloc Hother].
  assert (Hfresh : forall x, fs.lookup (loc ++ [x]) t1 = None).
  { intros x. rewrite Hother by (rewrite length_app; simpl; lia).
    apply remove_lookup_inside, under_snoc. }
  set (t2 := fs.insert (loc ++ ["index.js"]) (File (Text code)) t1).
  set (manifest := Json (mkPackageJson (Some n) (Some v') None None)).
  set (t3 := fs.insert (loc ++ ["package.json"]) (File manifest) t2).
  assert (Hw1 : fs.writeFile (loc ++ ["index.js"]) (Text code) t1 = Some t2)
    by (apply writeFile_fresh; [exact Hloc | apply Hfresh]).
  assert (Hw2 : fs.writeFile (loc ++ ["package.json"]) manifest t2 = Some t3).
  { apply writeFile_fresh.
    - intros Hne. unfold fs.directoryExists, t2.
      rewrite lookup_insert_other by apply snoc_neq. now apply Hloc.
    - unfold t2. rewrite lookup_insert_other; [apply Hfresh |].
      intros E. apply app_inj_tail in E as [_ E]. discriminate. }
  set (s2 := mkState (installedPlugins s) (fs.remove loc (files s))
               (calls s1 ++ [DirectoryExists loc; Remove loc])) in *.
  set (s3 := mkState (installedPlugins s) t1 (calls s2 ++ [EnsureDir loc])).
  set (s4 := mkState (installedPlugins s) t2
               (calls s3 ++ [WriteFile (loc ++ ["index.js"]) (Text code)])).
  set (s5 := mkState (installedPlugins s) t3
               (calls s4 ++ [WriteFile (loc ++ ["package.json"]) manifest])).
  assert (H5 : (removeDownloaded host options n ;;
                fs_ensureDir loc ;;
                fs_writeFile (loc ++ ["index.js"]) (Text code) ;;
                fs_writeFile (loc ++ ["package.json"]) manifest) s1
               = Returned tt s5).
  { rewrite (bind_Returned _ _ _ _ _ H4).
    rewrite (bind_Returned _ _ _ _ _ (fs_ensureDir_ok loc s2 t1 Hens)).
    rewrite (bind_Returned _ _ _ _ _
               (fs_writeFile_ok _ _ s3 t2 Hw1)).
    exact (fs_writeFile_ok _ _ s4 t3 Hw2). }
  rewrite (bind_Returned _ _ _ _ _ H5).
  (* the descriptor is read back from the manifest just written *)
  assert (Hname : n <> "").
  { intros ->. discriminate Hn. }
  assert (Hread : fs.readFile (loc ++ ["package.json"]) t3 = Some manifest).
  { unfold fs.readFile, t3. now rewrite lookup_insert_same. }
  assert (Hcode : fs.readFile (loc ++ ["index.js"]) t3 = Some (Text code)).
  { unfold fs.readFile, t3, t2. rewrite lookup_insert_other.
    - now rewrite lookup_insert_same.
    - intros E. apply app_inj_tail in E as [_ E]. discriminate. }
  set (s6 := logged [FileExists (loc ++ ["package.json"]);
                     ReadFile (loc ++ ["package.json"])] s5).
  assert (H6 : createPluginInfo host options n s5 = Returned d s6).
  { unfold createPluginInfo. fold loc.
    assert (Hm : readPackageJsonFromPath loc s5
                 = Returned (mkPackageJson (Some n) (Some v') None None) s6).
    { unfold s6. rewrite <- Hjson. apply readPackageJsonFromPath_accepts.
      - rewrite Hjson. exact Hread.
      - apply truthy_Some. eauto.
      - apply truthy_Some. eauto. }
    rewrite (bind_Returned _ _ _ _ _ Hm).
    cbn [json_name json_version json_main json_dependencies or_default].
    change DefaultMainFile with "index.js". rewrite Hindex.
    assert (Hext : Path.extname (loc ++ ["index.js"]) = ".js")
      by (unfold Path.extname; now rewrite last_snoc).
    rewrite Hext. reflexivity. }
  rewrite (bind_Returned _ _ _ _ _ H6).
  eexists. split; [reflexivity |].
  split; [reflexivity |]. split; [exact Hcode |]. split; [exact Hread |].
  intros Hpinned Hsat rec2 fuel2 code2.
  destruct (String.eqb_spec v' "0.0.0") as [|_]; [congruence |]. cbn [negb].
  unfold bind at 1. unfold gets, alreadyInstalled, getInfo, getFullInfo.
  cbn [installedPlugins]. change (installedPlugins s6) with (installedPlugins s).
  rewrite (getFullInfo_app_None n s d Hreg eq_refl).
  assert (Htruthy : truthy (Some v') = true)
    by (apply truthy_Some; eauto).
  rewrite Htruthy. cbn [negb].
  change (semver_satisfies host (version d) (default "" (Some v')))
    with (semver_satisfies host v' v').
  now rewrite Hsat.
Qed.
End CodeInstall.

(** The statement at [installFromCode("x", code, "1.0.0")] on an empty store,
    followed by the same call with another code. *)
Lemma code_install_round_trip_witness :
  exists s',
    installFromCodeLockFree (Examples.no_registry None) (Fragment.options [])
      (fun _ _ => out_of_fuel) 0 (JsString "x") "module.exports = 42"
      (Some "1.0.0") Fragment.empty_state
    = Returned (Examples.x_at "1.0.0") s'
    /\ fs.readFile ["plugin_packages"; "x"; "index.js"] (files s')
       = Some (Text "module.exports = 42")
    /\ installFromCodeLockFree (Examples.no_registry None) (Fragment.options [])
         (fun _ _ => out_of_fuel) 0 (JsString "x") "module.exports = 43"
         (Some "1.0.0") s'
       = Returned (Examples.x_at "1.0.0") s'.
Proof.
  destruct (code_install_round_trip (Examples.no_registry None)
              (Fragment.options []) (fun _ _ => out_of_fuel) 0 "x"
              "module.exports = 42" (Some "1.0.0") Fragment.empty_state
              [(["plugin_packages"; "x"], Dir); (["plugin_packages"], Dir)]
              eq_refl eq_refl ltac:(discriminate) eq_refl eq_refl eq_refl)
    as (s' & Hret & _ & Hcode & _ & Hagain).
  exists s'. split; [exact Hret |]. split; [exact Hcode |].
  exact (Hagain ltac:(discriminate) eq_refl (fun _ _ => out_of_fuel) 0
           "module.exports = 43").
Defined.

(** ** The uninstall cascade *)

Section Cascade.

Lemma cascade_step fuel plugin s :
unloadWithDependents (S fuel) plugin s
= for_each (installedPlugins s)
    (fun installed =>
       match dependencies installed with
       | None => throw TypeError
       | Some deps =>
           if truthy_member (property deps (name plugin))
           then unloadWithDependents fuel installed
           else ret tt
       end) (logged [VmUnload (name plugin)] s).
Proof. reflexivity. Qed.

Lemma for_each_cons_Returned {A} (x : A) rest body s s' :
for_each (x :: rest) body s = Returned tt s' ->
exists s1, body x s = Returned tt s1 /\ for_each rest body s1 = Returned tt s'.
Proof.
intros H. apply bind_inv_Returned in H as ([] & s1 & H1 & H2). eauto.
Qed.

Lemma cascade_dependents fuel p (l : list IPluginInfo) :
(forall d s s', unloadWithDependents fuel d s = Returned tt s' ->
   exists ns, calls s' = calls s ++ map VmUnload ns
              /\ forall q, reaches (installedPlugins s) d q -> name q ∈ ns) ->
forall s s',
  for_each l
    (fun installed =>
       match dependencies installed with
       | None => throw TypeError
       | Some deps =>
           if truthy_member (property deps (name p))
           then unloadWithDependents fuel installed
           else ret tt
       end) s = Returned tt s' ->
  exists ns, calls s' = calls s ++ map VmUnload ns
    /\ forall d q, d ∈ l -> depends_on d (name p) = true ->
         reaches (installedPlugins s) d q -> name q ∈ ns.
Proof.
intros IH. induction l as [|x rest IHl]; intros s s' H.
- injection H as <-. exists []. split; [now rewrite app_nil_r|].
  intros d q Hd. now apply elem_of_nil in Hd.
- apply for_each_cons_Returned in H as (s1 & Hx & Hrest).
  assert (Hreg : installedPlugins s1 = installedPlugins s).
  { unfold depends_on in *. destruct (dependencies x) as [deps|]; [|discriminate].
    destruct (truthy_member (property deps (name p))).
    - pose proof (unloadWithDependents_only_unloads fuel x s) as Ho.
      rewrite Hx in Ho. apply Ho.
    - now injection Hx as <-. }
  destruct (IHl _ _ Hrest) as (ns2 & Hc2 & Hall2).
  assert (Hhead : exists ns1, calls s1 = calls s ++ map VmUnload ns1
            /\ (depends_on x (name p) = true ->
                forall q, reaches (installedPlugins s) x q -> name q ∈ ns1)).
  { unfold depends_on. destruct (dependencies x) as [deps|]; [|discriminate].
    destruct (truthy_member (property deps (name p))).
    - destruct (IH _ _ _ Hx) as (ns1 & Hc1 & Hall1). exists ns1. split; auto.
    - injection Hx as <-. exists []. split; [now rewrite app_nil_r|discriminate]. }
  destruct Hhead as (ns1 & Hc1 & Hall1).
  exists (ns1 ++ ns2). split.
  + rewrite Hc2, Hc1, map_app, app_assoc. reflexivity.
  + intros d q Hd Hdep Hreach. apply elem_of_app.
    apply elem_of_cons in Hd as [-> | Hd].
    * left. now apply Hall1.
    * right. apply (Hall2 d q Hd Hdep). now rewrite Hreg.
Qed.

(** When the cascade returns, the loader was asked to unload the plugin first
  and then only to unload plugins, and every descriptor the cascade gets to
  (the registered dependents, their dependents, and so on) is among the
  plugins unloaded; the registry and the store are not touched. *)
Theorem cascade_unloads_every_dependent fuel :
forall p s s',
  unloadWithDependents fuel p s = Returned tt s' ->
  exists ns,
    calls s' = calls s ++ map VmUnload (name p :: ns)
    /\ forall q, reaches (installedPlugins s) p q -> name q ∈ name p :: ns.
Proof.
induction fuel as [|fuel IH]; intros p s s' H; [discriminate|].
rewrite cascade_step in H.
destruct (cascade_dependents fuel p (installedPlugins s)) with (2 := H)
  as (ns & Hc & Hall).
{ intros d s0 s0' Hd. destruct (IH _ _ _ Hd) as (ns & Hc & Hall).
  exists (name d :: ns). split; assumption. }
exists ns. split.
- rewrite Hc. cbn. rewrite <- app_assoc. reflexivity.
- intros q Hq. inversion Hq as [|? d ? Hd Hdep Hreach]; subst.
  + apply list_elem_of_here.
  + apply list_elem_of_further. apply (Hall d q Hd Hdep). exact Hreach.
Qed.

Lemma for_each_returns {A} (P : State -> Prop) (l : list A) (body : A -> M unit) :
(forall x s, x ∈ l -> P s -> exists s', body x s = Returned tt s' /\ P s') ->
forall s, P s -> exists s', for_each l body s = Returned tt s' /\ P s'.
Proof.
induction l as [|x rest IHl]; intros Hbody s Hs.
- exists s. split; [reflexivity | assumption].
- destruct (Hbody x s) as (s1 & Hx & Hs1); [apply list_elem_of_here | assumption |].
  destruct (IHl) with (s := s1) as (s2 & Hr & Hs2); [|assumption|].
  { intros y s0 Hy. apply Hbody. now apply list_elem_of_further. }
  exists s2. split; [|assumption].
  cbn. erewrite bind_Returned by exact Hx. exact Hr.
Qed.

Lemma cascade_returns (rank : string -> nat) (registry : list IPluginInfo) fuel :
ranked rank registry ->
(forall d, d ∈ registry -> is_Some (dependencies d)) ->
forall p s,
  p ∈ registry ->
  installedPlugins s ⊆ registry ->
  rank (name p) < fuel ->
  exists s', unloadWithDependents fuel p s = Returned tt s'
             /\ only_unloads s s'.
Proof.
intros Hrank Hdef.
induction fuel as [|fuel IH]; intros p s Hp Hsub Hfuel; [lia|].
rewrite cascade_step.
set (s0 := logged [VmUnload (name p)] s).
destruct (for_each_returns (fun s1 => only_unloads s s1) (installedPlugins s)
            (fun installed =>
               match dependencies installed with
               | None => throw TypeError
               | Some deps =>
                   if truthy_member (property deps (name p))
                   then unloadWithDependents fuel installed
                   else ret tt
               end)) with (s := s0) as (s' & Hret & Hs').
- intros x s1 Hx (Hreg & Hfiles & Hcalls).
  destruct (Hdef x (Hsub x Hx)) as [deps Hdeps].
  pose proof (Hrank x p (Hsub x Hx) Hp) as Hlt. unfold depends_on in Hlt.
  rewrite Hdeps in *.
  destruct (truthy_member (property deps (name p))).
  + destruct (IH x s1) as (s2 & Hx2 & Ho).
    * exact (Hsub x Hx).
    * now rewrite Hreg.
    * specialize (Hlt eq_refl). lia.
    * exists s2. split; [assumption|].
      eapply only_unloads_trans; [|exact Ho]. now split.
  + exists s1. split; [reflexivity|]. now split.
- repeat split; try reflexivity. exists [name p]. reflexivity.
- eauto.
Qed.

End Cascade.

(** ** Uninstalling everything *)

Section UninstallAll.

Context (host : Host) (options : PluginManagerOptions (RegExp host)).

Lemma try_finally_inv_Returned {A} (body : M A) fin s a s' :
try_finally body fin s = Returned a s' ->
exists s1, body s = Returned a s1 /\ fin s1 = Returned tt s'.
Proof.
unfold try_finally. intros H.
destruct (body s) as [a1 s1|e s1|]; [| |discriminate].
- destruct (fin s1) as [[] s2|e s2|] eqn:Hfin; [|discriminate..].
  injection H as -> ->. eauto.
- destruct (fin s1) as [[] s2|e' s2|]; discriminate.
Qed.

Lemma guarded_inv_Returned {A} (body : M A) s a s' :
guarded host options body s = Returned a s' ->
exists s1 s2,
  installedPlugins s1 = installedPlugins s
  /\ body s1 = Returned a s2
  /\ installedPlugins s' = installedPlugins s2.
Proof.
unfold guarded. intros H.
apply bind_inv_Returned in H as ([] & s0 & H0 & H).
apply bind_inv_Returned in H as ([] & s1 & H1 & H).
apply try_finally_inv_Returned in H as (s2 & Hbody & Hfin).
exists s1, s2. split; [|split; [assumption|]].
- pose proof (fs_ensureDir_same (pluginsPath options) s) as Ha.
  rewrite H0 in Ha.
  pose proof (syncLock_same host options s0) as Hb. rewrite H1 in Hb.
  unfold after, same_registry in *. congruence.
- pose proof (syncUnlock_same host options s2) as Hc. rewrite Hfin in Hc.
  exact Hc.
Qed.

Lemma array_indexOf_Permutation {A} `{EqDecision A} (l : list A) x i :
array_indexOf l x = Some i -> l ≡ₚ x :: splice1 l i.
Proof.
revert i. induction l as [|y rest IH]; intros i H; [discriminate|].
cbn in H. destruct (decide (y = x)) as [->|Hne].
- injection H as <-. reflexivity.
- destruct (array_indexOf rest x) as [j|] eqn:Hj; [|discriminate].
  injection H as <-. cbn. rewrite (IH j eq_refl) at 1. apply perm_swap.
Qed.

Lemma getFullInfo_None_name n s :
getFullInfo n s = None -> n ∉ map name (installedPlugins s).
Proof.
unfold getFullInfo. induction (installedPlugins s) as [|d l IH]; intros H.
- apply not_elem_of_nil.
- cbn in H. destruct (String.eqb_spec (name d) n) as [He|He]; [discriminate|].
  cbn. apply not_elem_of_cons. split; [congruence | now apply IH].
Qed.

Lemma uninstallLockFree_registry fuel n s s' :
uninstallLockFree fuel (JsString n) s = Returned tt s' ->
(getFullInfo n s = None /\ installedPlugins s' = installedPlugins s)
\/ exists d i, getFullInfo n s = Some d
               /\ array_indexOf (installedPlugins s) d = Some i
               /\ installedPlugins s' = splice1 (installedPlugins s) i.
Proof.
unfold uninstallLockFree.
destruct (isValidPluginName (JsString n)); [|discriminate]. cbn [negb].
intros H. apply bind_inv_Returned in H as (info & s1 & Hg & H).
injection Hg as <- <-. cbn [str] in H.
destruct (getFullInfo n s) as [d|] eqn:Hfind.
- right. destruct (find_Some_elem _ _ _ Hfind) as [Hin _].
  destruct (array_indexOf_elem _ _ Hin) as [i Hi].
  exists d, i. split; [reflexivity|]. split; [assumption|].
  unfold deleteAndUnloadPlugin in H.
  apply bind_inv_Returned in H as (l & s1 & Hl & H). injection Hl as <- <-.
  rewrite Hi in H.
  apply bind_inv_Returned in H as ([] & s2 & Hset & H). injection Hset as <-.
  apply bind_inv_Returned in H as ([] & s3 & Hcas & H).
  pose proof (unloadWithDependents_same fuel d
                (mkState (splice1 (installedPlugins s) i) (files s) (calls s)))
    as Ha.
  rewrite Hcas in Ha.
  pose proof (fs_remove_same (location d) s3) as Hb. rewrite H in Hb.
  unfold after, same_registry in *. cbn in Ha. congruence.
- left. injection H as <-. split; reflexivity.
Qed.

Lemma uninstallLockFree_names fuel n s s' k :
uninstallLockFree fuel (JsString n) s = Returned tt s' ->
map name (installedPlugins s) ⊆+ n :: k ->
map name (installedPlugins s') ⊆+ k.
Proof.
intros H Hsub.
destruct (uninstallLockFree_registry _ _ _ _ H)
  as [[Hnone ->] | (d & i & Hfind & Hi & ->)].
- apply submseteq_cons_r in Hsub as [Hsub | (l' & Hperm & _)]; [assumption|].
  exfalso. apply (getFullInfo_None_name _ _ Hnone).
  rewrite Hperm. apply list_elem_of_here.
- destruct (find_Some_elem _ _ _ Hfind) as [_ Hname].
  apply String.eqb_eq in Hname.
  apply array_indexOf_Permutation in Hi.
  apply (Permutation_map name) in Hi. cbn in Hi. rewrite Hname in Hi.
  rewrite Hi in Hsub.
  now apply (submseteq_app_inv_l _ _ [n]).
Qed.

Lemma uninstall_each_names fuel (l : list IPluginInfo) :
forall s s',
  for_each l (fun plugin => uninstallLockFree fuel (JsString (name plugin))) s
  = Returned tt s' ->
  map name (installedPlugins s) ⊆+ map name l ->
  installedPlugins s' = [].
Proof.
induction l as [|p rest IH]; intros s s' H Hsub.
- injection H as <-. apply submseteq_nil_r in Hsub.
  now apply map_eq_nil in Hsub.
- apply for_each_cons_Returned in H as (s1 & Hp & Hrest).
  apply (IH _ _ Hrest). exact (uninstallLockFree_names _ _ _ _ _ Hp Hsub).
Qed.

(** Whenever [uninstallAll] returns, the registry is empty: the loop runs over
  a reversed copy of the registry and every turn removes one descriptor of
  the name it is at, if one is still registered. *)
Theorem uninstallAll_empties_registry fuel s s' :
uninstallAll host options fuel s = Returned tt s' ->
installedPlugins s' = [].
Proof.
intros H.
destruct (public_methods_guarded host options fuel)
  as (_ & _ & _ & _ & _ & _ & Hall).
rewrite Hall in H.
apply guarded_inv_Returned in H as (s1 & s2 & _ & Hbody & ->).
apply bind_inv_Returned in Hbody as (l & s1' & Hl & Hbody).
injection Hl as <- <-.
apply (uninstall_each_names _ _ _ _ Hbody).
apply Permutation_submseteq, Permutation_map, Permutation_rev.
Qed.

End UninstallAll.

(** ** Termination of an uninstall *)

Section UninstallReturns.

Context (host : Host) (options : PluginManagerOptions (RegExp host)).
Variable rank : string -> nat.

Lemma lookup_delete_None p q (t : fs.tree) :
fs.lookup q t = None -> fs.lookup q (fs.delete p t) = None.
Proof.
induction t as [|[k x] t IH]; intros H; [reflexivity|].
cbn in H |- *. destruct (bool_decide (k = q)) eqn:Hk; [discriminate|].
destruct (negb (bool_decide (k = p))); cbn; [rewrite Hk|]; auto.
Qed.

Lemma lookup_delete_same p (t : fs.tree) : fs.lookup p (fs.delete p t) = None.
Proof.
induction t as [|[k x] t IH]; [reflexivity|].
cbn. destruct (bool_decide (k = p)) eqn:Hk; cbn; [exact IH|].
now rewrite Hk.
Qed.

Lemma uninstallLockFree_returns fuel n s :
isValidPluginName (JsString n) = true ->
defined_dependencies s ->
ranked rank (installedPlugins s) ->
rank n < fuel ->
exists s',
  uninstallLockFree fuel (JsString n) s = Returned tt s'
  /\ ((getFullInfo n s = None /\ s' = s)
      \/ exists d i ns,
           getFullInfo n s = Some d
           /\ array_indexOf (installedPlugins s) d = Some i
           /\ installedPlugins s' = splice1 (installedPlugins s) i
           /\ files s' = fs.remove (location d) (files s)
           /\ calls s' = calls s ++ map VmUnload ns ++ [Remove (location d)]).
Proof.
intros Hvalid Hdef Hrank Hfuel.
unfold uninstallLockFree. rewrite Hvalid. cbn [negb str].
unfold bind at 1, gets.
destruct (getFullInfo n s) as [d|] eqn:Hfind; [|exists s; split; auto].
destruct (find_Some_elem _ _ _ Hfind) as [Hin Hname].
apply String.eqb_eq in Hname.
destruct (array_indexOf_elem _ _ Hin) as [i Hi].
unfold deleteAndUnloadPlugin.
unfold bind at 1, get_installedPlugins. rewrite Hi.
unfold bind at 1, set_installedPlugins.
set (s1 := mkState (splice1 (installedPlugins s) i) (files s) (calls s)).
destruct (cascade_returns rank (installedPlugins s) fuel Hrank Hdef d s1)
  as (s2 & Hcas & Hreg & Hfiles & ns & Hcalls).
- exact Hin.
- intros x Hx. now apply splice1_subset in Hx.
- now rewrite Hname.
- erewrite bind_Returned by exact Hcas.
  eexists. split; [reflexivity|]. right. exists d, i, ns.
  cbn. rewrite Hreg, Hfiles, Hcalls, <- app_assoc. auto.
Qed.

(** [uninstall] of a registered plugin returns when the registered dependents
  are acyclic (which no registry holding a descriptor named after a member of
  [Object.prototype] is: the cascade takes it for a dependent of itself),
  every descriptor has a dependency object and the lock can be taken and
  released: the target is spliced out of the registry, its directory is gone
  from the store and the lock file is released. *)
Theorem uninstall_terminates fuel n s t d :
fs.ensureDir (pluginsPath options) (files s) = Some t ->
lockFile_lock host (lockLocation host options) (lockWait options)
  (lockStale options) t = None ->
(forall t', lockFile_unlock host (lockLocation host options) t' = None) ->
isValidPluginName (JsString n) = true ->
getFullInfo n s = Some d ->
defined_dependencies s ->
ranked rank (installedPlugins s) ->
rank n < fuel ->
exists s' i,
  uninstall host options fuel (JsString n) s = Returned tt s'
  /\ array_indexOf (installedPlugins s) d = Some i
  /\ installedPlugins s' = splice1 (installedPlugins s) i
  /\ fs.lookup (location d) (files s') = None
  /\ fs.lookup (lockLocation host options) (files s') = None.
Proof.
intros Hdir Hlock Hunlock Hvalid Hfind Hdef Hrank Hfuel.
destruct (public_methods_guarded host options fuel)
  as (_ & _ & _ & _ & _ & Hun & _).
rewrite Hun.
rewrite (guarded_acquired host options _ s (acquired options t s)
           (acquire_ok host options s t Hdir Hlock)).
destruct (uninstallLockFree_returns fuel n (acquired options t s))
  as (s2 & Hret & [[Hnone _] | (d' & i & ns & Hd' & Hi & Hreg & Hfiles & _)]);
  try assumption.
- rewrite (getFullInfo_registry n (acquired options t s) s eq_refl) in Hnone. congruence.
- rewrite (getFullInfo_registry n (acquired options t s) s eq_refl), Hfind in Hd'.
  injection Hd' as <-.
  unfold try_finally. rewrite Hret, (syncUnlock_ok host options s2 (Hunlock _)).
  exists (released options s2), i. split; [reflexivity|].
  split; [exact Hi|]. split; [exact Hreg|]. cbn. split.
  + apply lookup_delete_None. rewrite Hfiles. apply remove_lookup_inside.
    unfold fs.under. now apply bool_decide_eq_true.
  + apply lookup_delete_same.
Qed.

Lemma uninstall_each_returns fuel (l0 : list IPluginInfo) :
(forall d, d ∈ l0 -> isValidPluginName (JsString (name d)) = true) ->
(forall d, d ∈ l0 -> is_Some (dependencies d)) ->
ranked rank l0 ->
(forall d, d ∈ l0 -> rank (name d) < fuel) ->
forall l s,
  l ⊆ l0 -> installedPlugins s ⊆ l0 ->
  exists s',
    for_each l (fun plugin => uninstallLockFree fuel (JsString (name plugin))) s
    = Returned tt s'.
Proof.
intros Hvalid Hdef Hrank Hfuel l s Hl Hs.
destruct (for_each_returns (fun s1 => installedPlugins s1 ⊆ l0) l
            (fun plugin => uninstallLockFree fuel (JsString (name plugin))))
  with (s := s) as (s' & Hret & _); [|assumption|eauto].
intros p s1 Hp Hs1.
destruct (uninstallLockFree_returns fuel (name p) s1)
  as (s2 & Hret & [[_ ->] | (d & i & ns & _ & _ & Hreg & _)]); eauto.
- intros d Hd. apply Hdef, Hs1, Hd.
- intros d q Hd Hq. apply Hrank; apply Hs1; assumption.
- exists s2. split; [assumption|]. rewrite Hreg.
  intros x Hx. apply Hs1. now apply splice1_subset in Hx.
Qed.

(** [uninstallAll] returns, with an empty registry, when the registered names
  are valid, the registered dependents are acyclic, every descriptor has a
  dependency object and the lock can be taken and released. *)
Theorem uninstallAll_terminates fuel s t :
fs.ensureDir (pluginsPath options) (files s) = Some t ->
lockFile_lock host (lockLocation host options) (lockWait options)
  (lockStale options) t = None ->
(forall t', lockFile_unlock host (lockLocation host options) t' = None) ->
(forall d, d ∈ installedPlugins s ->
           isValidPluginName (JsString (name d)) = true) ->
defined_dependencies s ->
ranked rank (installedPlugins s) ->
(forall d, d ∈ installedPlugins s -> rank (name d) < fuel) ->
exists s',
  uninstallAll host options fuel s = Returned tt s'
  /\ installedPlugins s' = [].
Proof.
intros Hdir Hlock Hunlock Hvalid Hdef Hrank Hfuel.
destruct (public_methods_guarded host options fuel)
  as (_ & _ & _ & _ & _ & _ & Hall).
rewrite Hall.
rewrite (guarded_acquired host options _ s (acquired options t s)
           (acquire_ok host options s t Hdir Hlock)).
destruct (uninstall_each_returns fuel (installedPlugins s) Hvalid Hdef Hrank
            Hfuel (rev (installedPlugins s)) (acquired options t s))
  as (s2 & Hret).
- intros x Hx. apply list_elem_of_In. apply list_elem_of_In, in_rev in Hx. exact Hx.
- reflexivity.
- assert (Hbody :
    (installed_list <- get_installedPlugins ;;
     for_each (rev installed_list)
       (fun plugin => uninstallLockFree fuel (JsString (name plugin))))
      (acquired options t s) = Returned tt s2) by exact Hret.
  unfold try_finally.
  rewrite Hbody, (syncUnlock_ok host options s2 (Hunlock _)).
  eexists. split; [reflexivity|]. cbn.
  apply (uninstall_each_names _ _ _ _ Hret).
  apply Permutation_submseteq, Permutation_map, Permutation_rev.
Qed.

End UninstallReturns.

(** ** What an install returns *)

Section Registers.

Context (host : Host) (options : PluginManagerOptions (RegExp host)).
Variable rec : JsValue -> option string -> M IPluginInfo.
Variable fuel : nat.

Lemma registers_bind {A} (m : M A) (k : A -> M IPluginInfo) s :
(forall a s1, m s = Returned a s1 -> registers (k a) s1) ->
registers (bind m k) s.
Proof.
intros Hk d s' H. apply bind_inv_Returned in H as (a & s1 & Hm & H).
exact (Hk a s1 Hm d s' H).
Qed.

Lemma registers_throw e s : registers (throw e) s.
Proof. intros d s' H. discriminate. Qed.

Lemma registers_addPlugin plugin s : registers (addPlugin host options rec plugin) s.
Proof.
intros d s' H. rewrite addPlugin_outcome in H.
destruct (installDependencies host options rec plugin s) as [a s1|e s1|];
  [|discriminate..].
injection H as <- <-. cbn. apply elem_of_app. right. apply list_elem_of_here.
Qed.

Lemma registers_found n v (check : M (option IPluginInfo))
  (k : M IPluginInfo) s :
(forall o s1, check s = Returned o s1 ->
   s1 = s /\ (o = None \/ o = alreadyInstalled host n v s)) ->
(forall s1, registers k s1) ->
registers (installedInfo <- check ;;
           match installedInfo with
           | Some installedInfo => ret installedInfo
           | None => k
           end) s.
Proof.
intros Hcheck Hk. apply registers_bind. intros o s1 Ho.
destruct (Hcheck o s1 Ho) as [-> Hcase].
destruct o as [d0|]; [|apply Hk].
destruct Hcase as [|Hd0]; [discriminate|].
intros d s' H. injection H as <- <-.
symmetry in Hd0. now apply alreadyInstalled_Some in Hd0.
Qed.

Ltac registers_tail :=
first [ apply registers_addPlugin
      | apply registers_bind; intros ? ? _; registers_tail ].

Lemma registers_installFromNpmLockFree n v s :
registers (installFromNpmLockFree host options rec fuel n v) s.
Proof.
unfold installFromNpmLockFree.
destruct (isValidPluginName n); [|apply registers_throw]. cbn [negb].
apply registers_bind; intros ? s1 _.
apply registers_bind; intros registryInfo s2 _.
apply (registers_found (pkg_name registryInfo) (Some (pkg_version registryInfo))).
- intros o s3 H. injection H as <- <-. auto.
- intros s3. registers_tail.
Qed.

Lemma registers_installFromGithubLockFree repository s :
registers (installFromGithubLockFree host options rec fuel repository) s.
Proof.
unfold installFromGithubLockFree.
apply registers_bind; intros ? s1 _.
apply registers_bind; intros registryInfo s2 _.
destruct (isValidPluginName _); [|apply registers_throw]. cbn [negb].
apply (registers_found (pkg_name registryInfo) (Some (pkg_version registryInfo))).
- intros o s3 H. injection H as <- <-. auto.
- intros s3. registers_tail.
Qed.

Lemma registers_installFromPathLockFree loc opts s :
registers (installFromPathLockFree host options rec fuel loc opts) s.
Proof.
unfold installFromPathLockFree.
apply registers_bind; intros packageJson s1 _.
destruct (isValidPluginName _); [|apply registers_throw]. cbn [negb].
apply (registers_found (default "" (json_name packageJson))
         (Some (default "" (json_version packageJson)))).
- intros o s3 H. destruct (force opts); injection H as <- <-; auto.
- intros s3. registers_tail.
Qed.

Lemma registers_installFromCodeLockFree n code v s :
registers (installFromCodeLockFree host options rec fuel n code v) s.
Proof.
unfold installFromCodeLockFree.
destruct (isValidPluginName n); [|apply registers_throw]. cbn [negb].
destruct (semver_valid host _); [|apply registers_throw]. cbn [negb].
apply (registers_found (str n) (Some (default "0.0.0" v))).
- intros o s3 H. destruct (String.eqb _ _); injection H as <- <-; auto.
- intros s3. registers_tail.
Qed.

End Registers.

Section RegistersPublic.

Context (host : Host) (options : PluginManagerOptions (RegExp host)).

Lemma registers_installLockFree fuel n v s :
registers (installLockFree host options fuel n v) s.
Proof.
destruct fuel as [|fuel]; [intros d s' H; discriminate|].
cbn [installLockFree]. unfold installLockFree_body.
destruct (isValidPluginName n); [|apply registers_throw]. cbn [negb].
destruct (truthy v && isGithubRepo host (default "" v)).
- apply registers_installFromGithubLockFree.
- apply registers_installFromNpmLockFree.
Qed.

Lemma registers_guarded body s :
(forall s1, registers body s1) -> registers (guarded host options body) s.
Proof.
intros Hbody d s' H.
apply guarded_inv_Returned in H as (s1 & s2 & _ & Hb & ->).
exact (Hbody s1 d s2 Hb).
Qed.

(** The descriptor that any of the five install methods returns is registered
  when the method returns: [list()] holds it. *)
Theorem install_returns_registered fuel s d s' :
(exists n v, install host options fuel n v s = Returned d s')
\/ (exists n v, installFromNpm host options fuel n v s = Returned d s')
\/ (exists loc opts, installFromPath host options fuel loc opts s = Returned d s')
\/ (exists r, installFromGithub host options fuel r s = Returned d s')
\/ (exists n code v,
      installFromCode host options fuel n code v s = Returned d s') ->
d ∈ list_ s'.
Proof.
destruct (public_methods_guarded host options fuel)
  as (H1 & H2 & H3 & H4 & H5 & _).
unfold list_. rewrite map_id.
intros [(n & v & H) | [(n & v & H) | [(loc & o & H) | [(r & H) | (n & c & v & H)]]]];
  revert H; [rewrite H1 | rewrite H2 | rewrite H3 | rewrite H4 | rewrite H5];
  apply registers_guarded; intros s1.
- apply registers_installLockFree.
- apply registers_installFromNpmLockFree.
- apply registers_installFromPathLockFree.
- apply registers_installFromGithubLockFree.
- apply registers_installFromCodeLockFree.
Qed.

End RegistersPublic.

(** The statement at [install("x")] on an empty store. *)
Lemma install_returns_registered_witness :
  exists d s',
    install (Examples.registry_x "1.0.0") (Fragment.options []) 1 (JsString "x")
      None Fragment.empty_state = Returned d s'
    /\ d ∈ list_ s'.
Proof.
  do 2 eexists. split; [vm_compute; reflexivity|].
  apply (install_returns_registered (Examples.registry_x "1.0.0")
           (Fragment.options []) 1 Fragment.empty_state).
  left. exists (JsString "x"), None. vm_compute. reflexivity.
Defined.

(** ** A failed upgrade *)

Section FailedUpgrade.

Context (host : Host) (options : PluginManagerOptions (RegExp host)).
Variable rec : JsValue -> option string -> M IPluginInfo.
Variable rank : string -> nat.

Lemma directoryExists_removed p (t : fs.tree) :
fs.directoryExists p (fs.remove p t) = false.
Proof.
unfold fs.directoryExists. rewrite remove_lookup_inside; [reflexivity|].
unfold fs.under. now apply bool_decide_eq_true.
Qed.

Lemma isAlreadyDownloaded_missing n v s :
fs.directoryExists (getPluginLocation host options n) (files s) = false ->
isAlreadyDownloaded host options n v s
= Returned false
    (logged [DirectoryExists (getPluginLocation host options n)] s).
Proof.
intros H. unfold isAlreadyDownloaded, fs_directoryExists.
unfold bind, call, read_files. cbn. rewrite H. reflexivity.
Qed.

(** An upgrade is not atomic: when another version of the package is
  registered and the download of the resolved version fails, the install is
  rejected with the registry error after the registered version was
  uninstalled: its descriptor is spliced out of the registry and its
  directory deleted, and nothing is installed in its place.  (The uninstall
  has to return for this: every descriptor has a dependency object and the
  registered dependents are acyclic.) *)
Theorem failed_upgrade_uninstalls fuel n v info d0 s :
isValidPluginName n = true ->
npm_get host (str n) (default NPM_LATEST_TAG v) = Some info ->
isValidPluginName (JsString (pkg_name info)) = true ->
getFullInfo (pkg_name info) s = Some d0 ->
pkg_version info <> "" ->
semver_satisfies host (version d0) (pkg_version info) = false ->
location d0 = getPluginLocation host options (pkg_name info) ->
defined_dependencies s ->
ranked rank (installedPlugins s) ->
rank (pkg_name info) < fuel ->
(forall t, npm_download host (pluginsPath options) info t = None) ->
exists s' i,
  installFromNpmLockFree host options rec fuel n v s
  = Rejected RegistryError s'
  /\ array_indexOf (installedPlugins s) d0 = Some i
  /\ installedPlugins s' = splice1 (installedPlugins s) i
  /\ fs.lookup (location d0) (files s') = None.
Proof.
intros Hvalid Hget Hvalid' Hfind Hver Hsat Hloc Hdef Hrank Hfuel Hdown.
unfold installFromNpmLockFree. rewrite Hvalid. cbn [negb].
erewrite bind_Returned by reflexivity. cbv beta.
rewrite Hget. erewrite bind_Returned by reflexivity. cbv beta.
set (s1 := mkState (installedPlugins s) (files s)
             (calls s ++ [NpmGet (str n) (default NPM_LATEST_TAG v)])).
assert (Hfind1 : getFullInfo (pkg_name info) s1 = Some d0) by exact Hfind.
assert (Hnew : alreadyInstalled host (pkg_name info) (Some (pkg_version info)) s1
               = None).
{ unfold alreadyInstalled, getInfo. rewrite Hfind1. cbn.
  destruct (String.eqb_spec (pkg_version info) ""); [contradiction|].
  cbn. now rewrite Hsat. }
assert (Hold : alreadyInstalled host (pkg_name info) None s1 = Some d0).
{ unfold alreadyInstalled, getInfo. now rewrite Hfind1. }
erewrite bind_Returned by reflexivity. cbv beta. rewrite Hnew.
erewrite bind_Returned by reflexivity. cbv beta. rewrite Hold.
rewrite bool_decide_eq_true_2 by eauto.
destruct (uninstallLockFree_returns rank fuel (pkg_name info) s1 Hvalid' Hdef
            Hrank Hfuel)
  as (s2 & Hun & [[Hnone _] | (d & i & ns & Hd & Hi & Hreg & Hfiles & _)]);
  [congruence|].
rewrite Hfind1 in Hd. injection Hd as <-.
erewrite bind_Returned by exact Hun. cbv beta.
assert (Hgone : fs.directoryExists (getPluginLocation host options (pkg_name info))
                  (files s2) = false).
{ rewrite Hfiles, <- Hloc. apply directoryExists_removed. }
erewrite bind_Returned by (apply isAlreadyDownloaded_missing; exact Hgone).
cbv beta. cbn [negb].
eexists. exists i. split; [|split; [exact Hi|split]].
- erewrite bind_Rejected; [reflexivity|].
  erewrite bind_Returned by (apply removeDownloaded_missing; exact Hgone).
  cbv beta. erewrite bind_Returned by reflexivity. cbv beta.
  unfold collaborator_writes. rewrite Hdown. reflexivity.
- exact Hreg.
- cbn. rewrite Hloc. apply remove_lookup_inside.
  unfold fs.under. now apply bool_decide_eq_true.
Qed.

End FailedUpgrade.

(** ** The log of calls only grows *)

Section Log.

Lemma grows_refl s : grows s s.
Proof. exists []. now rewrite app_nil_r. Qed.

Lemma grows_trans s1 s2 s3 : grows s1 s2 -> grows s2 s3 -> grows s1 s3.
Proof.
intros [e1 H1] [e2 H2]. exists (e1 ++ e2). now rewrite H2, H1, app_assoc.
Qed.

Lemma grows_same_calls s s' : calls s' = calls s -> grows s s'.
Proof. intros H. exists []. now rewrite app_nil_r. Qed.

Lemma call_grows e s : after (grows s) (call e s).
Proof. now exists [e]. Qed.

Lemma ret_grows {A} (a : A) s : after (grows s) (ret a s).
Proof. apply grows_refl. Qed.

Lemma throw_grows {A} e s : after (grows s) (@throw A e s).
Proof. apply grows_refl. Qed.

Lemma gets_grows {A} (f : State -> A) s : after (grows s) (gets f s).
Proof. apply grows_refl. Qed.

Lemma read_files_grows {A} (f : fs.tree -> A) s :
after (grows s) (read_files f s).
Proof. apply grows_refl. Qed.

Lemma update_files_grows f s : after (grows s) (update_files f s).
Proof.
unfold update_files. destruct (f (files s)); cbn;
  [now apply grows_same_calls | apply grows_refl].
Qed.

Lemma collaborator_writes_grows f s :
after (grows s) (collaborator_writes f s).
Proof.
unfold collaborator_writes. destruct (f (files s)); cbn;
  [now apply grows_same_calls | apply grows_refl].
Qed.

Lemma await_grows {A} (o : option A) e s : after (grows s) (await o e s).
Proof. destruct o; apply grows_refl. Qed.

Lemma get_installedPlugins_grows s : after (grows s) (get_installedPlugins s).
Proof. apply grows_refl. Qed.

Lemma set_installedPlugins_grows l s :
after (grows s) (set_installedPlugins l s).
Proof. now apply grows_same_calls. Qed.

End Log.

Create HintDb log.
#[export] Hint Resolve call_grows ret_grows throw_grows gets_grows
  read_files_grows update_files_grows collaborator_writes_grows await_grows
  get_installedPlugins_grows set_installedPlugins_grows : log.

Ltac grows_step :=
  match goal with
  | |- after (grows _) (bind _ _ _) =>
      apply after_bind; [exact grows_trans | | intros ? ?]
  | |- after (grows _) (try_catch _ _ _) => apply after_try_catch
  | |- after (grows _) ((if ?b then _ else _) _) => destruct b
  | |- after (grows _) ((match ?o with _ => _ end) _) => destruct o
  | |- after (grows _) _ => solve [auto with log]
  end.

Ltac grows_tac := repeat grows_step.

Section LogMethods.

Context (host : Host) (options : PluginManagerOptions (RegExp host)).

Lemma fs_ensureDir_grows p s : after (grows s) (fs_ensureDir p s).
Proof. unfold fs_ensureDir. grows_tac. Qed.

Lemma fs_directoryExists_grows p s : after (grows s) (fs_directoryExists p s).
Proof. unfold fs_directoryExists. grows_tac. Qed.

Lemma fs_fileExists_grows p s : after (grows s) (fs_fileExists p s).
Proof. unfold fs_fileExists. grows_tac. Qed.

Lemma fs_readFile_grows p s : after (grows s) (fs_readFile p s).
Proof. unfold fs_readFile. grows_tac. Qed.

Lemma fs_writeFile_grows p c s : after (grows s) (fs_writeFile p c s).
Proof. unfold fs_writeFile. grows_tac. Qed.

Lemma fs_remove_grows p s : after (grows s) (fs_remove p s).
Proof. unfold fs_remove. grows_tac. Qed.

Lemma fs_copy_grows a b x s : after (grows s) (fs_copy a b x s).
Proof. unfold fs_copy. grows_tac. Qed.

Hint Resolve fs_ensureDir_grows fs_directoryExists_grows fs_fileExists_grows
fs_readFile_grows fs_writeFile_grows fs_remove_grows fs_copy_grows : log.

Lemma readPackageJsonFromPath_grows loc s :
after (grows s) (readPackageJsonFromPath loc s).
Proof. unfold readPackageJsonFromPath. grows_tac. Qed.

Hint Resolve readPackageJsonFromPath_grows : log.

Lemma isAlreadyDownloaded_grows n v s :
after (grows s) (isAlreadyDownloaded host options n v s).
Proof. unfold isAlreadyDownloaded. grows_tac. Qed.

Lemma removeDownloaded_grows n s :
after (grows s) (removeDownloaded host options n s).
Proof. unfold removeDownloaded. grows_tac. Qed.

Lemma createPluginInfo_grows n s :
after (grows s) (createPluginInfo host options n s).
Proof. unfold createPluginInfo. grows_tac. Qed.

Lemma isModuleAvailableFromHost_grows n v s :
after (grows s) (isModuleAvailableFromHost host options n v s).
Proof. unfold isModuleAvailableFromHost. grows_tac. Qed.

Lemma unloadWithDependents_grows fuel plugin s :
after (grows s) (unloadWithDependents fuel plugin s).
Proof.
pose proof (unloadWithDependents_only_unloads fuel plugin s) as H.
destruct (unloadWithDependents fuel plugin s); simpl in *; try exact I;
  destruct H as (_ & _ & ns & H); now exists (map VmUnload ns).
Qed.

Hint Resolve isAlreadyDownloaded_grows removeDownloaded_grows
createPluginInfo_grows isModuleAvailableFromHost_grows
unloadWithDependents_grows : log.

Lemma uninstallLockFree_grows fuel n s :
after (grows s) (uninstallLockFree fuel n s).
Proof. unfold uninstallLockFree, deleteAndUnloadPlugin. grows_tac. Qed.

Lemma syncLock_grows s : after (grows s) (syncLock host options s).
Proof.
unfold syncLock. cbn. destruct (lockFile_lock _ _ _ _ _); cbn; now eexists.
Qed.

Lemma syncUnlock_grows s : after (grows s) (syncUnlock host options s).
Proof.
unfold syncUnlock. cbn. destruct (lockFile_unlock _ _ _); cbn; now eexists.
Qed.

Hint Resolve uninstallLockFree_grows : log.

Section Install.

Variable rec : JsValue -> option string -> M IPluginInfo.
Variable fuel : nat.
Hypothesis rec_grows : forall n v s, after (grows s) (rec n v s).

Lemma installDependencies_loop_grows entries :
forall acc s,
after (grows s) (installDependencies_loop host options rec entries acc s).
Proof.
induction entries as [|[key v] rest IH]; intros acc s; cbn.
- apply grows_refl.
- destruct (shouldIgnore host options key); [apply IH|].
grows_tac; solve [apply rec_grows | apply IH].
Qed.

Lemma addPlugin_grows plugin s :
after (grows s) (addPlugin host options rec plugin s).
Proof.
unfold addPlugin, installDependencies.
apply after_bind; [exact grows_trans | | intros ? ?; grows_tac].
destruct (dependencies plugin); [apply installDependencies_loop_grows|].
apply grows_refl.
Qed.

Hint Resolve addPlugin_grows : log.

Lemma installFromNpmLockFree_grows n v s :
after (grows s) (installFromNpmLockFree host options rec fuel n v s).
Proof. unfold installFromNpmLockFree. grows_tac. Qed.

Lemma installFromGithubLockFree_grows r s :
after (grows s) (installFromGithubLockFree host options rec fuel r s).
Proof. unfold installFromGithubLockFree. grows_tac. Qed.

End Install.

Lemma installLockFree_grows fuel :
forall n v s, after (grows s) (installLockFree host options fuel n v s).
Proof.
induction fuel as [|fuel IH]; intros n v s; [exact I|].
cbn [installLockFree]. unfold installLockFree_body.
destruct (negb (isValidPluginName n)); [apply grows_refl|].
destruct (truthy v && isGithubRepo host (default "" v)).
- now apply installFromGithubLockFree_grows.
- now apply installFromNpmLockFree_grows.
Qed.

End LogMethods.

(** ** Installing from a directory *)

Section PathInstall.

Context (host : Host) (options : PluginManagerOptions (RegExp host)).

Lemma after_Returned {A} (P : State -> Prop) (m : M A) s a s' :
after P (m s) -> m s = Returned a s' -> P s'.
Proof. intros H E. now rewrite E in H. Qed.

(** Without [force], [installFromPath] of a directory whose manifest names a
  package that is registered with a version satisfying the manifest's
  version returns the registered descriptor; it reads the manifest and does
  nothing else: no copy, no change of the registry or of the store. *)
Theorem path_install_already_satisfied rec fuel loc s j n v d0 :
fs.readFile (Path.join loc "package.json") (files s) = Some (Json j) ->
json_name j = Some n ->
json_version j = Some v ->
v <> "" ->
isValidPluginName (JsString n) = true ->
alreadyInstalled host n (Some v) s = Some d0 ->
installFromPathLockFree host options rec fuel loc
  {| force := false |} s
= Returned d0 (logged [FileExists (Path.join loc "package.json");
                       ReadFile (Path.join loc "package.json")] s)
/\ d0 ∈ installedPlugins s
/\ name d0 = n
/\ semver_satisfies host (version d0) v = true.
Proof.
intros Hr Hn Hv Hne Hvalid Hinst.
assert (Hnn : n <> "").
{ intros ->. discriminate. }
split.
- unfold installFromPathLockFree.
  erewrite bind_Returned; cycle 1.
  { apply readPackageJsonFromPath_accepts; [exact Hr| |];
      [rewrite Hn | rewrite Hv]; cbn;
      [destruct (String.eqb_spec n "") | destruct (String.eqb_spec v "")];
      cbn; congruence. }
  cbv beta. rewrite Hn, Hv.
  change (default "" (Some n)) with n. change (default "" (Some v)) with v.
  cbv zeta. rewrite Hvalid. cbn [negb force].
  erewrite bind_Returned by reflexivity. cbv beta.
  erewrite (alreadyInstalled_registry host n (Some v) _ s) by reflexivity.
  rewrite Hinst. reflexivity.
- apply alreadyInstalled_Some in Hinst as (Hin & Hname & Hsat).
  split; [assumption|]. split; [assumption|]. apply Hsat. cbn.
  destruct (String.eqb_spec v ""); cbn; congruence.
Qed.

Lemma guarded_inv_log {A} (body : M A) s a s' :
guarded host options body s = Returned a s' ->
exists s1 s2,
  grows s s1 /\ body s1 = Returned a s2 /\ grows s2 s'
  /\ installedPlugins s' = installedPlugins s2.
Proof.
unfold guarded. intros H.
apply bind_inv_Returned in H as ([] & s0 & H0 & H).
apply bind_inv_Returned in H as ([] & s1 & H1 & H).
apply try_finally_inv_Returned in H as (s2 & Hbody & Hfin).
exists s1, s2. split; [|split; [assumption|split]].
- eapply grows_trans.
  + exact (after_Returned _ _ _ _ _ (fs_ensureDir_grows _ s) H0).
  + exact (after_Returned _ _ _ _ _ (syncLock_grows host options s0) H1).
- exact (after_Returned _ _ _ _ _ (syncUnlock_grows host options s2) Hfin).
- exact (after_Returned _ _ _ _ _ (syncUnlock_same host options s2) Hfin).
Qed.

Lemma createPluginInfo_location n s d s' :
createPluginInfo host options n s = Returned d s' ->
location d = getPluginLocation host options n.
Proof.
unfold createPluginInfo. intros H.
apply bind_inv_Returned in H as (j & s1 & _ & H). now injection H as <- <-.
Qed.

Lemma force_copies_lock_free rec fuel loc s d s' :
(forall n v s0, after (grows s0) (rec n v s0)) ->
installFromPathLockFree host options rec fuel loc {| force := true |} s
= Returned d s' ->
(exists pre post, calls s' = calls s ++ pre ++ Copy loc (location d) :: post)
/\ exists l, installedPlugins s' = l ++ [d].
Proof.
intros Hrec H. unfold installFromPathLockFree in H.
apply bind_inv_Returned in H as (j & s1 & Hj & H).
pose proof (after_Returned _ _ _ _ _ (readPackageJsonFromPath_grows loc s) Hj)
  as G1.
destruct (isValidPluginName _); [|discriminate]. cbn [negb force] in H.
apply bind_inv_Returned in H as (o & s1' & Ho & H). injection Ho as <- <-.
apply bind_inv_Returned in H as (other & s1' & Ho & H). injection Ho as <- <-.
apply bind_inv_Returned in H as ([] & s2 & Hun & H).
assert (G2 : grows s1 s2).
{ destruct (bool_decide _).
  - exact (after_Returned _ _ _ _ _ (uninstallLockFree_grows _ _ s1) Hun).
  - injection Hun as <-. apply grows_refl. }
apply bind_inv_Returned in H as (b & s2' & Hb & H). injection Hb as <- <-.
cbn [negb] in H.
apply bind_inv_Returned in H as ([] & s4 & Hblock & H).
apply bind_inv_Returned in Hblock as ([] & s3 & Hrm & Hcopy).
pose proof (after_Returned _ _ _ _ _ (removeDownloaded_grows host options _ s2) Hrm)
  as G3.
assert (Hc4 : calls s4
              = calls s3 ++ [Copy loc (getPluginLocation host options
                                         (default "" (json_name j)))]).
{ unfold fs_copy in Hcopy.
  apply bind_inv_Returned in Hcopy as ([] & s3' & Hcall & Hup).
  injection Hcall as <-. unfold update_files in Hup. cbn in Hup.
  destruct (fs.copy _ _ _ _); [|discriminate]. now injection Hup as <-. }
apply bind_inv_Returned in H as (info & s5 & Hinfo & Hadd).
pose proof (after_Returned _ _ _ _ _ (createPluginInfo_grows host options _ s4)
              Hinfo) as G5.
pose proof (after_Returned _ _ _ _ _
              (addPlugin_grows host options rec Hrec info s5) Hadd) as G6.
apply createPluginInfo_location in Hinfo.
rewrite addPlugin_outcome in Hadd.
destruct (installDependencies host options rec info s5) as [a s6|e s6|];
  [|discriminate..].
injection Hadd as <- <-. split; [|now eexists].
destruct (grows_trans _ _ _ (grows_trans _ _ _ G1 G2) G3) as [pre Hpre].
destruct (grows_trans _ _ _ G5 G6) as [post Hpost].
exists pre, post. rewrite Hpost, Hc4, Hpre, Hinfo.
now rewrite <- !app_assoc.
Qed.

(** With [force], [installFromPath] never returns early: whenever it returns,
  the source directory was copied to the location of the returned
  descriptor, and that descriptor is the one appended last to the
  registry. *)
Theorem force_always_copies fuel loc s d s' :
installFromPath host options fuel loc {| force := true |} s = Returned d s' ->
(exists pre post, calls s' = calls s ++ pre ++ Copy loc (location d) :: post)
/\ exists l, installedPlugins s' = l ++ [d].
Proof.
destruct (public_methods_guarded host options fuel)
  as (_ & _ & Hpath & _).
rewrite Hpath. intros H.
apply guarded_inv_log in H as (s1 & s2 & [e1 G1] & Hbody & [e2 G2] & Hreg).
apply force_copies_lock_free in Hbody as [(pre & post & Hc) Hl];
  [|apply installLockFree_grows].
split; [|now rewrite Hreg].
exists (e1 ++ pre), (post ++ e2). rewrite G2, Hc, G1.
rewrite <- ?app_assoc. cbn. now rewrite <- ?app_assoc.
Qed.

End PathInstall.

(** ** Descriptors *)

Section Descriptor.

Context (host : Host) (options : PluginManagerOptions (RegExp host)).

Lemma last_dot_ext base : forall i found,
Path.last_dot (base +:+ ".js") i found = Some (i + String.length base).
Proof.
induction base as [|c base IH]; intros i found.
- change ("" +:+ ".js") with ".js". cbn. f_equal. lia.
- change (String c base +:+ ".js") with (String c (base +:+ ".js")).
  cbn. rewrite IH. f_equal. lia.
Qed.

Lemma substring_ext base :
String.substring (String.length base) 3 (base +:+ ".js") = ".js".
Proof. induction base as [|c base IH]; [reflexivity | exact IH]. Qed.

Lemma length_ext base :
String.length (base +:+ ".js") = String.length base + 3.
Proof.
induction base as [|c base IH]; [reflexivity|].
change (String c base +:+ ".js") with (String c (base +:+ ".js")).
cbn. now rewrite IH.
Qed.

Lemma extname_add_ext p :
clean p -> p <> [] -> Path.extname (Path.add_ext p ".js") = ".js".
Proof.
intros Hclean Hne. unfold Path.add_ext.
destruct (last p) as [base|] eqn:Hlast.
- assert (Hbase : base <> "").
  { apply last_Some in Hlast as [l' ->].
    apply Forall_app in Hclean as [_ Hb]. inversion Hb as [|? ? [H _] _].
    exact H. }
  unfold Path.extname. rewrite last_snoc, last_dot_ext.
  destruct base as [|c base]; [congruence|]. cbn [String.length Nat.add].
  rewrite length_ext.
  replace (String.length (String c base) + 3 - S (String.length base))
    with 3 by (cbn; lia).
  exact (substring_ext (String c base)).
- apply last_None in Hlast. congruence.
Qed.

(** The descriptor [createPluginInfo] builds for a name takes its name and its
  version from the manifest found in the directory of that name (both
  non-empty; the name need not be the one asked for), its location is that
  directory and its dependency object is the manifest's, or empty.  When the
  [main] of the manifest (or the default entry file) does not end with a
  separator, its entry file has an extension, unless the entry path
  normalises to the root.  Building it changes neither the registry nor the
  store. *)
Theorem descriptor_from_manifest n s d s' :
createPluginInfo host options n s = Returned d s' ->
exists j,
  fs.readFile (Path.join (getPluginLocation host options n) "package.json")
    (files s) = Some (Json j)
  /\ json_name j = Some (name d) /\ name d <> ""
  /\ json_version j = Some (version d) /\ version d <> ""
  /\ location d = getPluginLocation host options n
  /\ dependencies d = Some (default [] (json_dependencies j))
  /\ (Path.ends_with_separator (or_default (json_main j) DefaultMainFile)
      = false ->
      Path.extname (mainFile d) <> "" \/ mainFile d = [".js"])
  /\ installedPlugins s' = installedPlugins s
  /\ files s' = files s.
Proof.
unfold createPluginInfo. intros H.
apply bind_inv_Returned in H as (j & s1 & Hj & H).
apply readPackageJsonFromPath_Returned in Hj as (Hr & Hn & Hv & ->).
apply truthy_Some in Hn as (n0 & Hn0 & Hne0).
apply truthy_Some in Hv as (v0 & Hv0 & Hne1).
injection H as <- <-. exists j. cbn. rewrite Hn0, Hv0. cbn.
repeat (split; [solve [auto]|]). split; [|auto].
intros Hsep. rewrite Hsep.
set (p := Path.join (getPluginLocation host options n)
            (or_default (json_main j) DefaultMainFile)).
destruct (String.eqb_spec (Path.extname p) "") as [He|He]; [|now left].
destruct (decide (p = [])) as [->|Hp]; [now right|]. left.
rewrite extname_add_ext; [discriminate | apply join_clean | exact Hp].
Qed.

End Descriptor.

(** ** Dependencies the host provides *)

Section HostModules.

Context (host : Host) (options : PluginManagerOptions (RegExp host)).

Lemma isModuleAvailableFromHost_outcome n v s :
isModuleAvailableFromHost host options n v s
= match hostRequire options with
  | None => Returned false s
  | Some host_require =>
      Returned
        match host_require (n +:+ "/package.json") with
        | Some modulePackage =>
            semver_satisfies host (pkg_version modulePackage) v
        | None => false
        end
        (logged [HostRequire (n +:+ "/package.json")] s)
  end.
Proof.
unfold isModuleAvailableFromHost.
destruct (hostRequire options) as [r|]; [|reflexivity].
unfold try_catch, bind, call. cbn.
destruct (r (n +:+ "/package.json")); reflexivity.
Qed.

(** Dependencies the host application provides are not installed: when every
  dependency that is not ignored resolves through [hostRequire] to a package
  whose version satisfies the range, the resolver only asks the host, once
  per dependency and in order; it makes no nested install request and
  changes neither the registry nor the store, whatever is registered. *)
Theorem host_modules_not_installed rec host_require entries :
hostRequire options = Some host_require ->
(forall key range, (key, range) ∈ entries ->
   shouldIgnore host options key = false ->
   exists modulePackage,
     host_require (key +:+ "/package.json") = Some modulePackage
     /\ semver_satisfies host (pkg_version modulePackage) range = true) ->
forall acc s,
  installDependencies_loop host options rec entries acc s
  = Returned (acc ++ resolved (shouldIgnore host options) entries)
      (logged (map (fun kv => HostRequire (kv.1 +:+ "/package.json"))
                 (resolved (shouldIgnore host options) entries)) s).
Proof.
intros Hreq. unfold resolved.
induction entries as [|[key range] rest IH]; intros Hall acc s.
- cbn. unfold logged. rewrite !app_nil_r. now destruct s.
- rewrite installDependencies_loop_cons. cbn [List.filter fst].
  destruct (shouldIgnore host options key) eqn:Hig; cbn [negb].
  + apply IH. intros k r Hin. apply Hall. now apply list_elem_of_further.
  + destruct (Hall key range (list_elem_of_here _ _) Hig) as (pkg & Hpkg & Hsat).
    rewrite isModuleAvailableFromHost_outcome, Hreq, Hpkg, Hsat.
    rewrite IH by (intros k r Hin; apply Hall; now apply list_elem_of_further).
    unfold logged. cbn. rewrite <- !app_assoc. reflexivity.
Qed.

End HostModules.

(** ** Installing from a repository reference *)

Section Dispatch.

Context (host : Host) (options : PluginManagerOptions (RegExp host)).

(** [install(name, version)] with a version that is a GitHub repository
  reference is [installFromGithub(version)]: the name is checked and then
  dropped, so the plugin installed is the one the repository's manifest
  names, whatever valid name was asked for. *)
Theorem github_install_ignores_name fuel n repository s :
isValidPluginName n = true ->
repository <> "" ->
isGithubRepo host repository = true ->
install host options (S fuel) n (Some repository) s
= installFromGithub host options fuel repository s.
Proof.
intros Hvalid Hne Hrepo. unfold install, installFromGithub.
cbn [installLockFree]. unfold installLockFree_body.
rewrite Hvalid. cbn [negb].
assert (Ht : truthy (Some repository) = true).
{ cbn. destruct (String.eqb_spec repository ""); [contradiction|reflexivity]. }
rewrite Ht. change (default "" (Some repository)) with repository.
rewrite Hrepo. reflexivity.
Qed.

End Dispatch.

(** ** The further statements at concrete plugins *)

Lemma chain_defined : defined_dependencies Chain.state.
Proof.
  intros d Hd. cbn in Hd.
  repeat (apply elem_of_cons in Hd as [-> | Hd]);
    first [now apply elem_of_nil in Hd | now eexists].
Qed.

Lemma chain_ranked : ranked Chain.rank (installedPlugins Chain.state).
Proof.
  intros d p Hd Hp. cbn in Hd, Hp.
  repeat (apply elem_of_cons in Hd as [-> | Hd]);
    try (now apply elem_of_nil in Hd);
    repeat (apply elem_of_cons in Hp as [-> | Hp]);
    try (now apply elem_of_nil in Hp);
    vm_compute; intros; first [discriminate | lia].
Qed.

(** The cascade from [lib] in the chain [app -> mid -> lib] unloads [app]. *)
Lemma cascade_unloads_every_dependent_witness :
  exists s' ns,
    unloadWithDependents 3 Chain.lib Chain.state = Returned tt s'
    /\ calls s' = map VmUnload ("lib" :: ns)
    /\ "app" ∈ "lib" :: ns.
Proof.
  eexists.
  destruct (cascade_unloads_every_dependent 3 Chain.lib Chain.state _ eq_refl)
    as (ns & Hc & Hall).
  exists ns. split; [reflexivity|]. split; [exact Hc|].
  apply (Hall Chain.app).
  apply (reaches_dependent _ Chain.lib Chain.mid);
    [cbn; set_solver | reflexivity |].
  apply (reaches_dependent _ Chain.mid Chain.app);
    [cbn; set_solver | reflexivity | apply reaches_here].
Defined.

(** Uninstalling [lib] from the chain returns and leaves [mid] and [app]
    registered. *)
Lemma uninstall_terminates_witness :
  exists s',
    uninstall (Examples.no_registry None) (Fragment.options []) 3
      (JsString "lib") Chain.state = Returned tt s'
    /\ installedPlugins s' = [Chain.mid; Chain.app]
    /\ fs.lookup ["plugin_packages"; "lib"] (files s') = None.
Proof.
  destruct (uninstall_terminates (Examples.no_registry None)
              (Fragment.options []) Chain.rank 3 "lib" Chain.state
              (files Chain.state) Chain.lib eq_refl eq_refl (fun _ => eq_refl)
              eq_refl eq_refl chain_defined chain_ranked ltac:(vm_compute; lia))
    as (s' & i & Hret & Hi & Hreg & Hgone & _).
  injection Hi as <-. exists s'. auto.
Defined.

(** [uninstallAll] on the chain returns, with an empty registry. *)
Lemma uninstallAll_empties_registry_witness :
  exists s',
    uninstallAll (Examples.no_registry None) (Fragment.options []) 3 Chain.state
    = Returned tt s'
    /\ installedPlugins s' = [].
Proof.
  eexists. split; [vm_compute; reflexivity|].
  eapply (uninstallAll_empties_registry (Examples.no_registry None)
            (Fragment.options []) 3 Chain.state).
  vm_compute. reflexivity.
Defined.

(** The chain is acyclic, so [uninstallAll] returns on it. *)
Lemma uninstallAll_terminates_witness :
  exists s',
    uninstallAll (Examples.no_registry None) (Fragment.options []) 3 Chain.state
    = Returned tt s'
    /\ installedPlugins s' = [].
Proof.
  apply (uninstallAll_terminates (Examples.no_registry None)
           (Fragment.options []) Chain.rank 3 Chain.state (files Chain.state)
           eq_refl eq_refl (fun _ => eq_refl)).
  - intros d Hd. cbn in Hd.
    repeat (apply elem_of_cons in Hd as [-> | Hd]);
      first [now apply elem_of_nil in Hd | reflexivity].
  - exact chain_defined.
  - exact chain_ranked.
  - intros d Hd. cbn in Hd.
    repeat (apply elem_of_cons in Hd as [-> | Hd]);
      first [now apply elem_of_nil in Hd | vm_compute; lia].
Defined.

(** [x] 1.0.0 is installed, the registry resolves [x] to 2.0.0 and the
    download fails: the install is rejected and [x] is gone. *)
Lemma failed_upgrade_uninstalls_witness :
  exists s',
    installFromNpmLockFree Upgrade.unreachable (Fragment.options [])
      (fun _ _ => out_of_fuel) 1 (JsString "x") None Upgrade.installed
    = Rejected RegistryError s'
    /\ installedPlugins s' = []
    /\ fs.lookup ["plugin_packages"; "x"] (files s') = None.
Proof.
  destruct (failed_upgrade_uninstalls Upgrade.unreachable (Fragment.options [])
              (fun _ _ => out_of_fuel) (fun _ => 0) 1 (JsString "x") None
              (Fragment.published "x" "2.0.0") (Examples.x_at "1.0.0")
              Upgrade.installed eq_refl eq_refl eq_refl eq_refl
              ltac:(discriminate) eq_refl eq_refl)
    as (s' & i & Hret & Hi & Hreg & Hgone); try (intros; reflexivity).
  - intros d Hd. apply list_elem_of_singleton in Hd as ->. now eexists.
  - intros d p Hd Hp Hdep. apply list_elem_of_singleton in Hd as ->.
    apply list_elem_of_singleton in Hp as ->. discriminate Hdep.
  - lia.
  - injection Hi as <-. exists s'. auto.
Defined.

(** Installing the working copy of [x] 1.0.0 while [x] 1.0.0 is registered
    only reads the manifest of the working copy. *)
Lemma path_install_already_satisfied_witness :
  installFromPathLockFree (Examples.no_registry None) (Fragment.options [])
    (fun _ _ => out_of_fuel) 0 ["work"; "x"] {| force := false |}
    Upgrade.installed
  = Returned (Examples.x_at "1.0.0")
      (logged [FileExists ["work"; "x"; "package.json"];
               ReadFile ["work"; "x"; "package.json"]] Upgrade.installed).
Proof.
  exact (proj1 (path_install_already_satisfied (Examples.no_registry None)
                  (Fragment.options []) (fun _ _ => out_of_fuel) 0
                  ["work"; "x"] Upgrade.installed
                  (mkPackageJson (Some "x") (Some "1.0.0") None None)
                  "x" "1.0.0" (Examples.x_at "1.0.0")
                  eq_refl eq_refl eq_refl ltac:(discriminate) eq_refl eq_refl)).
Defined.

(** With [force] the working copy replaces the installed files. *)
Lemma force_always_copies_witness :
  exists d s',
    installFromPath (Examples.no_registry None) (Fragment.options []) 1
      ["work"; "x"] {| force := true |} Upgrade.installed = Returned d s'
    /\ Copy ["work"; "x"] ["plugin_packages"; "x"] ∈ calls s'
    /\ installedPlugins s' = [d]
    /\ fs.readFile ["plugin_packages"; "x"; "index.js"] (files s')
       = Some (Text "module.exports = 'edited'").
Proof.
  do 2 eexists. split; [vm_compute; reflexivity|].
  split; [|split; vm_compute; reflexivity].
  destruct (force_always_copies (Examples.no_registry None)
              (Fragment.options []) 1 ["work"; "x"] Upgrade.installed _ _
              ltac:(vm_compute; reflexivity))
    as [(pre & post & Hc) _].
  rewrite Hc. cbn. set_solver.
Defined.

(** The descriptor built from the manifest of the stale store. *)
Lemma descriptor_from_manifest_witness :
  exists d s' j,
    createPluginInfo (Examples.no_registry None) (Fragment.options []) "x"
      Examples.stale_store = Returned d s'
    /\ fs.readFile ["plugin_packages"; "x"; "package.json"]
         (files Examples.stale_store) = Some (Json j)
    /\ json_name j = Some (name d) /\ name d = "x"
    /\ json_version j = Some (version d) /\ version d = "1.0.0"
    /\ mainFile d = ["plugin_packages"; "x"; "index.js"].
Proof.
  do 2 eexists.
  destruct (descriptor_from_manifest (Examples.no_registry None)
              (Fragment.options []) "x" Examples.stale_store _ _ eq_refl)
    as (j & Hj & Hn & _ & Hv & _).
  exists j. split; [reflexivity|]. split; [exact Hj|].
  split; [exact Hn|]. split; [reflexivity|]. split; [exact Hv|].
  split; reflexivity.
Defined.

(** [lodash] is provided by the host: the resolver asks the host and installs
    nothing. *)
Lemma host_modules_not_installed_witness :
  installDependencies_loop (Examples.no_registry None) Upgrade.host_with_lodash
    (fun _ _ => out_of_fuel) [("lodash", "4.17.21")] [] Fragment.empty_state
  = Returned [("lodash", "4.17.21")]
      (logged [HostRequire "lodash/package.json"] Fragment.empty_state).
Proof.
  refine (host_modules_not_installed (Examples.no_registry None)
            Upgrade.host_with_lodash (fun _ _ => out_of_fuel) _
            [("lodash", "4.17.21")] eq_refl _ [] Fragment.empty_state).
  intros key range Hin _. apply list_elem_of_singleton in Hin as [= -> ->].
  eexists. split; reflexivity.
Defined.

(** [install] while another process holds the lock file. *)
Lemma guarded_not_entered_witness :
  install (Examples.no_registry None) (Fragment.options []) 1 (JsString "x")
    None (mkState [] Examples.tree_locked [])
  = Rejected (FailedToAcquireLock "EEXIST")
      (mkState [] Examples.tree_locked
         [EnsureDir ["plugin_packages"];
          Lock ["plugin_packages"; "install.lock"]]).
Proof.
  exact (proj2 (guarded_not_entered (Examples.no_registry None)
                  (Fragment.options [])
                  (installLockFree (Examples.no_registry None)
                     (Fragment.options []) 1 (JsString "x") None)
                  (mkState [] Examples.tree_locked []))
           Examples.tree_locked "EEXIST" eq_refl eq_refl).
Defined.

(** [install("anything", "owner/repo")] is [installFromGithub("owner/repo")]. *)
Lemma github_install_ignores_name_witness :
  install (Examples.no_registry None) (Fragment.options []) 1
    (JsString "anything") (Some "owner/repo") Fragment.empty_state
  = installFromGithub (Examples.no_registry None) (Fragment.options []) 0
      "owner/repo" Fragment.empty_state.
Proof.
  exact (github_install_ignores_name (Examples.no_registry None)
           (Fragment.options []) 0 (JsString "anything") "owner/repo"
           Fragment.empty_state eq_refl ltac:(discriminate) eq_refl).
Defined.

(** The store of [x] 1.0.0 is asked for [x] 1.0.0. *)
Lemma isAlreadyDownloaded_answer_witness :
  exists s',
    isAlreadyDownloaded (Examples.no_registry None) (Fragment.options []) "x"
      "1.0.0" Examples.stale_store = Returned true s'
    /\ files s' = files Examples.stale_store.
Proof.
  destruct (isAlreadyDownloaded_answer (Examples.no_registry None)
              (Fragment.options []) "x" "1.0.0" Examples.stale_store eq_refl)
    as (b & s' & Hret & _ & Hfiles & Hiff).
  exists s'. split; [|exact Hfiles].
  rewrite Hret. f_equal. apply Hiff.
  split; [discriminate|]. split; [discriminate|].
  eexists. split; [vm_compute; reflexivity|]. split; reflexivity.
Defined.
